(** * ArbPredict: a shallow embedding of the trading core

    The TypeScript sources under [src/core] (circuit breaker, event matcher,
    arbitrage detector, risk manager, execution engine), [src/utils/helpers.ts],
    [src/core/state.ts], [src/core/alerts.ts], the connection and rate-limit
    classes of [src/connectors/base.ts] and the start-up checks of
    [src/index.ts] are rendered as Rocq functions.

    Conventions of the embedding.
    - A JavaScript [number] is a rational [Q]; comparisons are the exact
      ones, [NaN] and the infinities are not represented.  This is the
      decimal reading that the specification prescribes for prices and
      fees.  The program computes on IEEE doubles, and a threshold test
      can come out differently there when its two sides are equal in
      decimals: [Binary64] renders the detector and the profit check on
      primitive floats, for the inputs where the two readings part.
      Counters that the code only ever increments from zero are [nat].
    - A [Date] is its [getTime()] value, a [Z] number of milliseconds.
    - [new Date()], [Date.now()] and [generateId()] are read from explicit
      arguments; venue and database outcomes are read from an oracle record.
    - A JavaScript [Map] is an insertion-ordered association list.
    - Logging is dropped.  Calls leaving the process (alerts, state saves,
      database inserts, order placement) are appended to a trace. *)

From Stdlib Require Import QArith Qabs Qround Qminmax ZArith List String Ascii Bool.
From Stdlib Require Import Lia Lqa Permutation DecimalString.
From Stdlib Require Uint63 Floats.
Import ListNotations.

Local Open Scope Q_scope.

(* ================================================================== *)
(** ** Numbers *)

Abbreviation number := Q (only parsing).

Definition Qnat (n : nat) : Q := inject_Z (Z.of_nat n).

(** [x < y], [x <= y], [x > y], [x >= y] as the code tests them. *)
Definition ltb (x y : Q) : bool := negb (Qle_bool y x).
Definition leb (x y : Q) : bool := Qle_bool x y.
Definition gtb (x y : Q) : bool := ltb y x.
Definition geb (x y : Q) : bool := leb y x.

(** [x || d] on numbers: [0] is falsy. *)
Definition orElse (x d : Q) : Q := if Qeq_bool x 0 then d else x.

(** [Math.floor] *)
Definition floor (x : Q) : Q := inject_Z (Qfloor x).

(* ================================================================== *)
(** ** src/types/index.ts *)

Inductive Platform := Polymarket | Kalshi.
Inductive OrderSide := Buy | Sell.
Inductive OrderType := FOK | GTC | GTD.
Inductive OperatingMode := DryRun | Live.
Inductive MatchMethod := Exact | Fuzzy | Manual.
Inductive AlertLevel := Critical | High | Medium.
Inductive YesNo := Yes | No.

Inductive FailureType :=
| EXECUTION_FAILURE
| ASYMMETRIC_EXECUTION
| CONNECTION_LOST
| RATE_LIMIT_EXCEEDED
| DAILY_LOSS_LIMIT.

Definition Platform_eqb (a b : Platform) : bool :=
  match a, b with
  | Polymarket, Polymarket | Kalshi, Kalshi => true
  | _, _ => false
  end.

Module OrderBookLevel.
Record t := mk { price : number; size : number }.
End OrderBookLevel.

Module OrderBook.
Record t := mk {
  bids : list OrderBookLevel.t;
  asks : list OrderBookLevel.t;
  timestamp : Z }.
End OrderBook.

Module PolymarketMarket.
Record t := mk {
  id : string;
  title : string;
  endDate : Z;
  volume : number;
  conditionId : string;
  questionId : string;
  liquidity : number }.
End PolymarketMarket.

Module KalshiMarket.
Record t := mk {
  id : string;
  title : string;
  endDate : Z;
  volume : number;
  ticker : string;
  category : string;
  yesPrice : number;
  noPrice : number;
  openInterest : number;
  expirationTime : Z;
  settlementTime : Z }.
End KalshiMarket.

Module OutcomeMapping.
Record t := mk { polymarketOutcome : string; kalshiSide : YesNo }.
End OutcomeMapping.

Module EventMapping.
Record t := mk {
  id : string;
  polymarketConditionId : string;
  kalshiTicker : string;
  eventDescription : string;
  matchConfidence : number;
  resolutionDate : Z;
  matchMethod : MatchMethod;
  outcomeMapping : list OutcomeMapping.t;
  isActive : bool;
  createdAt : Z;
  updatedAt : Z }.
End EventMapping.

Module LimitOrder.
Record t := mk {
  platform : Platform;
  marketId : string;
  side : OrderSide;
  price : number;
  quantity : number;
  orderType : OrderType }.
End LimitOrder.

Module OrderResult.
(** Optional fields are [option]s. *)
Record t := mk {
  success : bool;
  orderId : string;
  fillPrice : option number;
  fillQuantity : option number;
  fees : option number;
  timestamp : Z;
  error : option string }.
End OrderResult.

Module ArbitrageOpportunity.
Record t := mk {
  id : string;
  timestamp : Z;
  eventMapping : EventMapping.t;
  buyPlatform : Platform;
  buyPrice : number;
  buyQuantity : number;
  sellPlatform : Platform;
  sellPrice : number;
  sellQuantity : number;
  grossSpread : number;
  estimatedFees : number;
  netProfit : number;
  maxQuantity : number;
  executionRisk : number;
  expirationTime : Z }.
End ArbitrageOpportunity.

Module Position.
Record t := mk {
  id : string;
  platform : Platform;
  eventId : string;
  eventMappingId : option string;
  side : YesNo;
  quantity : number;
  avgPrice : number;
  currentPrice : number;
  unrealizedPnL : number;
  openedAt : Z;
  updatedAt : Z }.
End Position.

Module InventoryReport.
Record t := mk {
  eventId : string;
  polymarketYesQty : number;
  polymarketNoQty : number;
  kalshiYesQty : number;
  kalshiNoQty : number;
  netPosition : number;
  imbalanceUsd : number;
  needsRebalancing : bool }.
End InventoryReport.

Module PersistedState.
Record t := mk {
  dailyPnL : number;
  dailyTradeCount : nat;
  dailyVolumeUsd : number;
  tradingDate : string;
  circuitBreakerPaused : bool;
  circuitBreakerReason : option string;
  circuitBreakerPausedAt : option Z;
  openPositions : list Position.t;
  lastHeartbeat : Z;
  lastSuccessfulTrade : option Z }.
End PersistedState.

(* ================================================================== *)
(** ** src/config/index.ts: the fields the core reads *)

Module Config.
Record Trading := mkTrading {
  t_minProfitThreshold : number;
  maxSlippage : number }.

Record Risk := mkRisk {
  maxExposurePerEvent : number;
  maxTotalExposure : number;
  maxPositionImbalance : number;
  minProfitThreshold : number;
  minLiquidityDepth : number;
  dailyLossLimit : number;
  maxQuantityPerTrade : number;
  minQuantityPerTrade : number;
  maxConsecutiveFailures : number;
  maxAsymmetricExecutions : number }.

Record Matching := mkMatching {
  minConfidenceThreshold : number;
  exactMatchConfidence : number;
  fuzzyMatchMinSimilarity : number;
  requireDateValidation : bool;
  requireCategoryMatch : bool }.

Record SmallPosition := mkSmallPosition {
  minTradeValueUsd : number;
  minProfitUsd : number;
  estimatedGasCostUsd : number }.

Record Latency := mkLatency { endToEndMaxMs : number }.

Record OperatingModeCfg := mkOperatingMode {
  mode : OperatingMode;
  trackHypotheticalPnL : bool }.

Record t := mk {
  trading : Trading;
  risk : Risk;
  matching : Matching;
  smallPosition : SmallPosition;
  latency : Latency;
  operatingMode : OperatingModeCfg }.

(** The literal values of [loadConfig]; the operating mode comes from the
    [TRADING_MODE] environment variable. *)
Definition loadConfig (tradingMode : OperatingMode) : t :=
  {| trading := {| t_minProfitThreshold := 3 # 100; maxSlippage := 1 # 100 |};
     risk := {| maxExposurePerEvent := 100;
                maxTotalExposure := 100;
                maxPositionImbalance := 10;
                minProfitThreshold := 3 # 100;
                minLiquidityDepth := 50;
                dailyLossLimit := 20;
                maxQuantityPerTrade := 50;
                minQuantityPerTrade := 1;
                maxConsecutiveFailures := 3;
                maxAsymmetricExecutions := 1 |};
     matching := {| minConfidenceThreshold := 95 # 100;
                    exactMatchConfidence := 1;
                    fuzzyMatchMinSimilarity := 95 # 100;
                    requireDateValidation := true;
                    requireCategoryMatch := true |};
     smallPosition := {| minTradeValueUsd := 5;
                         minProfitUsd := 10 # 100;
                         estimatedGasCostUsd := 1 # 100 |};
     latency := {| endToEndMaxMs := 2000 |};
     operatingMode := {| mode := tradingMode; trackHypotheticalPnL := true |} |}.
End Config.

(* ================================================================== *)
(** ** A JavaScript [Map] with string keys *)

Module JsMap.
Section WithValue.
Context {V : Type}.

Definition t := list (string * V).

Definition empty : t := [].

Fixpoint get (k : string) (m : t) : option V :=
  match m with
  | [] => None
  | (k', v) :: rest => if String.eqb k k' then Some v else get k rest
  end.

(** [set] keeps the position of a key already present and appends a new
    key at the end. *)
Fixpoint set (k : string) (v : V) (m : t) : t :=
  match m with
  | [] => [(k, v)]
  | (k', v') :: rest =>
      if String.eqb k k' then (k', v) :: rest else (k', v') :: set k v rest
  end.

Fixpoint delete (k : string) (m : t) : t :=
  match m with
  | [] => []
  | (k', v') :: rest =>
      if String.eqb k k' then rest else (k', v') :: delete k rest
  end.

Definition values (m : t) : list V := map snd m.
Definition keys (m : t) : list string := map fst m.
End WithValue.
Arguments t : clear implicits.
End JsMap.

(* ================================================================== *)
(** ** Calls that leave the process *)

(** The alerter methods of [src/core/alerts.ts] that the core calls. *)
Inductive AlertCall :=
| alertCircuitBreaker (reason : string)
| alertAsymmetricExecution (buyResult sellResult : string) (buyPlatform sellPlatform : Platform)
| alertTradeExecuted (buyPlatform : Platform) (buyPrice : number)
                     (sellPlatform : Platform) (sellPrice : number) (profit : number).

(** The level each method hands to [sendAlert]. *)
Definition alertLevel (a : AlertCall) : AlertLevel :=
  match a with
  | alertCircuitBreaker _ => Critical
  | alertAsymmetricExecution _ _ _ _ => Critical
  | alertTradeExecuted _ _ _ _ _ => Medium
  end.

Inductive ExecutionStatus := StPending | StPartial | StComplete | StFailed.

Module ExecutionRow.
(** One row of the [executions] table, as [saveExecution] inserts it. *)
Record t := mk {
  id : string;
  opportunity_id : string;
  status : ExecutionStatus;
  buy_order_id : option string;
  buy_fill_price : option number;
  buy_fill_quantity : option number;
  buy_fees : option number;
  buy_platform : Platform;
  sell_order_id : option string;
  sell_fill_price : option number;
  sell_fill_quantity : option number;
  sell_fees : option number;
  sell_platform : Platform;
  actual_profit : number;
  slippage : number;
  notes : option string;
  is_dry_run : bool }.
End ExecutionRow.

(** The SQL statements the core issues through [query]. *)
Inductive Query :=
| InsertMapping (m : EventMapping.t)
| DeactivateMapping (polymarketConditionId : string)
| InsertOpportunity (o : ArbitrageOpportunity.t) (was_executed : bool)
| InsertExecution (r : ExecutionRow.t).

(** [EvQuery q ok]: the statement was issued and the database accepted it
    ([ok = true]) or [query] threw. *)
Inductive Event :=
| EvAlert (a : AlertCall)
| EvSaveState
| EvQuery (q : Query) (ok : bool)
| EvPlaceOrder (o : LimitOrder.t).

(* ================================================================== *)
(** ** src/core/state.ts *)

Module StateManager.
Import PersistedState.

Definition createInitialState (today : string) (now : Z) : PersistedState.t :=
  mk 0 0 0 today false None None [] now None.

Definition updateDailyPnL (amount : number) (s : PersistedState.t) : PersistedState.t :=
  mk (dailyPnL s + amount) (dailyTradeCount s) (dailyVolumeUsd s) (tradingDate s)
     (circuitBreakerPaused s) (circuitBreakerReason s) (circuitBreakerPausedAt s)
     (openPositions s) (lastHeartbeat s) (lastSuccessfulTrade s).

Definition incrementTradeCount (s : PersistedState.t) : PersistedState.t :=
  mk (dailyPnL s) (S (dailyTradeCount s)) (dailyVolumeUsd s) (tradingDate s)
     (circuitBreakerPaused s) (circuitBreakerReason s) (circuitBreakerPausedAt s)
     (openPositions s) (lastHeartbeat s) (lastSuccessfulTrade s).

Definition addVolume (amount : number) (s : PersistedState.t) : PersistedState.t :=
  mk (dailyPnL s) (dailyTradeCount s) (dailyVolumeUsd s + amount) (tradingDate s)
     (circuitBreakerPaused s) (circuitBreakerReason s) (circuitBreakerPausedAt s)
     (openPositions s) (lastHeartbeat s) (lastSuccessfulTrade s).

Definition recordSuccessfulTrade (now : Z) (profit volume : number)
  (s : PersistedState.t) : PersistedState.t :=
  let s := addVolume volume (incrementTradeCount (updateDailyPnL profit s)) in
  mk (dailyPnL s) (dailyTradeCount s) (dailyVolumeUsd s) (tradingDate s)
     (circuitBreakerPaused s) (circuitBreakerReason s) (circuitBreakerPausedAt s)
     (openPositions s) (lastHeartbeat s) (Some now).

Definition getDailyPnL (s : PersistedState.t) : number := dailyPnL s.

Definition setCircuitBreakerState (now : Z) (paused : bool) (reason : option string)
  (s : PersistedState.t) : PersistedState.t :=
  mk (dailyPnL s) (dailyTradeCount s) (dailyVolumeUsd s) (tradingDate s)
     paused reason (if paused then Some now else None)
     (openPositions s) (lastHeartbeat s) (lastSuccessfulTrade s).

Definition isCircuitBreakerPaused (s : PersistedState.t) : bool := circuitBreakerPaused s.

Definition getCircuitBreakerReason (s : PersistedState.t) : option string :=
  circuitBreakerReason s.

(** What [load] finds at the state file path: nothing, a file whose read or
    parse throws, or a parsed state. *)
Inductive StateFile :=
| NoFile
| Unreadable
| Parsed (saved : PersistedState.t).

(** [load]; [today] is [getTodayString()]. *)
Definition load (today : string) (file : StateFile) (s : PersistedState.t) : PersistedState.t :=
  match file with
  | NoFile => s
  | Unreadable => s
  | Parsed saved =>
      if negb (String.eqb (tradingDate saved) today)
      then mk 0 0 0 today
              (circuitBreakerPaused saved) (circuitBreakerReason saved)
              (circuitBreakerPausedAt saved)
              (openPositions saved) (lastHeartbeat saved) (lastSuccessfulTrade saved)
      else saved
  end.

(** [(Date.now() - lastHeartbeat.getTime()) / (1000 * 60)], for a state that
    holds a heartbeat, as every [PersistedState.t] does. *)
Definition getStateAgeMinutes (now : Z) (s : PersistedState.t) : number :=
  inject_Z (now - lastHeartbeat s) / (1000 * 60).
End StateManager.

(* ================================================================== *)
(** ** src/core/circuit-breaker.ts *)

Module CircuitBreaker.
Record t := mk {
  paused : bool;
  pauseReason : option string;
  pausedAt : option Z;
  consecutiveFailures : nat;
  asymmetricExecutions : nat }.

(** A freshly constructed breaker. *)
Definition new : t := mk false None None 0 0.

(** The breaker together with the singletons its methods reach: the state
    manager and the outgoing calls. *)
Record Ctx := mkCtx {
  breaker : t;
  state : PersistedState.t;
  trace : list Event }.

Definition decimal (n : nat) : string := NilZero.string_of_uint (Nat.to_uint n).

Definition pause (now : Z) (reason : string) (c : Ctx) : Ctx :=
  let b := breaker c in
  if paused b then c
  else
    {| breaker := mk true (Some reason) (Some now)
                     (consecutiveFailures b) (asymmetricExecutions b);
       state := StateManager.setCircuitBreakerState now true (Some reason) (state c);
       trace := trace c ++ [EvSaveState; EvAlert (alertCircuitBreaker reason)] |}.

Definition resume (now : Z) (c : Ctx) : Ctx :=
  let b := breaker c in
  if negb (paused b) then c
  else
    {| breaker := mk false None None 0 0;
       state := StateManager.setCircuitBreakerState now false None (state c);
       trace := trace c ++ [EvSaveState] |}.

Definition isPaused (b : t) : bool := paused b.
Definition getPauseReason (b : t) : option string := pauseReason b.

Definition recordSuccess (b : t) : t :=
  mk (paused b) (pauseReason b) (pausedAt b) 0 (asymmetricExecutions b).

Definition FailureType_eqb (a b : FailureType) : bool :=
  match a, b with
  | EXECUTION_FAILURE, EXECUTION_FAILURE
  | ASYMMETRIC_EXECUTION, ASYMMETRIC_EXECUTION
  | CONNECTION_LOST, CONNECTION_LOST
  | RATE_LIMIT_EXCEEDED, RATE_LIMIT_EXCEEDED
  | DAILY_LOSS_LIMIT, DAILY_LOSS_LIMIT => true
  | _, _ => false
  end.

Definition withBreaker (c : Ctx) (b : t) : Ctx :=
  {| breaker := b; state := state c; trace := trace c |}.

Definition recordFailure (cfg : Config.t) (now : Z) (type : FailureType) (c : Ctx) : Ctx :=
  let b := breaker c in
  (* this.consecutiveFailures++ *)
  let b := mk (paused b) (pauseReason b) (pausedAt b)
              (S (consecutiveFailures b)) (asymmetricExecutions b) in
  let b := if FailureType_eqb type ASYMMETRIC_EXECUTION
           then mk (paused b) (pauseReason b) (pausedAt b)
                   (consecutiveFailures b) (S (asymmetricExecutions b))
           else b in
  let c := withBreaker c b in
  let c := if geb (Qnat (consecutiveFailures (breaker c)))
                  (Config.maxConsecutiveFailures (Config.risk cfg))
           then pause now (decimal (consecutiveFailures (breaker c))
                           ++ " consecutive failures") c
           else c in
  let c := if geb (Qnat (asymmetricExecutions (breaker c)))
                  (Config.maxAsymmetricExecutions (Config.risk cfg))
           then pause now (decimal (asymmetricExecutions (breaker c))
                           ++ " asymmetric executions - manual review required") c
           else c in
  let c := if FailureType_eqb type DAILY_LOSS_LIMIT
           then pause now "Daily loss limit reached" c else c in
  let c := if FailureType_eqb type CONNECTION_LOST
           then pause now "Connection lost to exchange" c else c in
  c.

(** [initialize]: the flag, reason and timestamp come from the state
    manager; the two counters are left as they are. *)
Definition initialize (s : PersistedState.t) (b : t) : t :=
  mk (PersistedState.circuitBreakerPaused s)
     (PersistedState.circuitBreakerReason s)
     (PersistedState.circuitBreakerPausedAt s)
     (consecutiveFailures b) (asymmetricExecutions b).

Definition getConsecutiveFailures (b : t) : nat := consecutiveFailures b.
Definition getAsymmetricExecutions (b : t) : nat := asymmetricExecutions b.
End CircuitBreaker.

(* ================================================================== *)
(** ** src/utils/helpers.ts *)

Module Helpers.
Local Open Scope char_scope.

Definition between (lo hi : nat) (c : ascii) : bool :=
  let n := nat_of_ascii c in (Nat.leb lo n && Nat.leb n hi)%bool.

(** [\w] without the unicode flag: [A-Za-z0-9_]. *)
Definition isWord (c : ascii) : bool :=
  (between 97 122 c || between 65 90 c || between 48 57 c || Ascii.eqb c "_")%bool.

(** [\s] on ASCII text: tab, line feed, vertical tab, form feed, carriage
    return and space. *)
Definition isSpace (c : ascii) : bool :=
  (between 9 13 c || Ascii.eqb c " ")%bool.

Definition toLowerChar (c : ascii) : ascii :=
  if between 65 90 c then ascii_of_nat (nat_of_ascii c + 32) else c.

Fixpoint toLowerCase (s : string) : string :=
  match s with
  | EmptyString => EmptyString
  | String c r => String (toLowerChar c) (toLowerCase r)
  end.

(** [.replace(/[^\w\s]/g, '')] *)
Fixpoint stripPunctuation (s : string) : string :=
  match s with
  | EmptyString => EmptyString
  | String c r =>
      if (isWord c || isSpace c)%bool then String c (stripPunctuation r)
      else stripPunctuation r
  end.

(** [.replace(/\s+/g, ' ')]: [inRun] tells that the previous character
    belonged to the whitespace run being replaced. *)
Fixpoint collapseSpaces (inRun : bool) (s : string) : string :=
  match s with
  | EmptyString => EmptyString
  | String c r =>
      if isSpace c
      then if inRun then collapseSpaces true r
           else String " " (collapseSpaces true r)
      else String c (collapseSpaces false r)
  end.

Fixpoint trimStart (s : string) : string :=
  match s with
  | EmptyString => EmptyString
  | String c r => if isSpace c then trimStart r else s
  end.

Definition reverse (s : string) : string :=
  string_of_list_ascii (rev (list_ascii_of_string s)).

Definition trim (s : string) : string :=
  reverse (trimStart (reverse (trimStart s))).

Definition normalize (text : string) : string :=
  trim (collapseSpaces false (stripPunctuation (toLowerCase text))).

(** One row of the matrix of [levenshteinDistance]: [bc] is
    [b.charAt(i - 1)], [prev] is row [i - 1] from column [j - 1] on and
    [left] is [matrix[i][j - 1]]. *)
Fixpoint nextRow (bc : ascii) (a : list ascii) (prev : list nat) (left : nat) : list nat :=
  match a, prev with
  | ac :: a', diag :: ((up :: _) as prev') =>
      let v := if Ascii.eqb bc ac then diag
               else Nat.min (diag + 1) (Nat.min (left + 1) (up + 1)) in
      v :: nextRow bc a' prev' v
  | _, _ => []
  end.

(** Rows [1 .. b.length], starting from row [0] = [0, 1, .., a.length];
    row [i] starts with [i]. *)
Fixpoint rows (b : list ascii) (a : list ascii) (i : nat) (prev : list nat) : list nat :=
  match b with
  | [] => prev
  | bc :: b' => rows b' a (S i) (S i :: nextRow bc a prev (S i))
  end.

Definition levenshteinDistance (a b : string) : nat :=
  let la := list_ascii_of_string a in
  let lb := list_ascii_of_string b in
  last (rows lb la 0 (seq 0 (S (List.length la)))) 0%nat.

Definition levenshteinSimilarity (a b : string) : number :=
  let maxLength := Nat.max (String.length a) (String.length b) in
  if Nat.eqb maxLength 0 then 1
  else 1 - Qnat (levenshteinDistance a b) / Qnat maxLength.

Definition datesMatch (date1 date2 : Z) (toleranceMs : Z) : bool :=
  Z.leb (Z.abs (date1 - date2)) toleranceMs.

Definition calculateSlippage (expected actual : number) : number :=
  if Qeq_bool expected 0 then 0
  else Qabs (actual - expected) / expected.

(** [String.prototype.includes] *)
Fixpoint includes (s sub : string) : bool :=
  if String.prefix sub s then true
  else match s with
       | EmptyString => false
       | String _ r => includes r sub
       end.

(** [Math.round]: the nearest integer, a tie going up. *)
Definition mathRound (x : number) : number := inject_Z (Qfloor (x + (1 # 2))).

(** [round(value, decimals)] for an integer number of decimals. *)
Definition round (value : number) (decimals : Z) : number :=
  let factor := Qpower 10 decimals in
  mathRound (value * factor) / factor.

Definition isWithinBounds (value min max : number) : bool :=
  (geb value min && leb value max)%bool.

Definition clamp (value min max : number) : number :=
  Qmin (Qmax value min) max.

Record RetryPolicy := mkRetryPolicy {
  maxRetries : nat;
  retryDelayMs : number;
  backoffMultiplier : number;
  maxRetryDelayMs : number;
  retryableErrors : list string }.

(** What one call of the retried operation does: it resolves with a value or
    rejects with an error carrying a message. *)
Inductive Outcome (A : Type) :=
| Resolved (value : A)
| Thrown (message : string).
Arguments Resolved {A} value.
Arguments Thrown {A} message.

(** The [for] loop of [withRetry] from [attempt] on, with
    [remaining = maxRetries - attempt]; [operation k] is what the call made
    at attempt [k] does.  The result comes with the delays slept. *)
Fixpoint withRetryFrom {A : Type} (operation : nat -> Outcome A) (config : RetryPolicy)
  (attempt remaining : nat) : Outcome A * list number :=
  match operation attempt with
  | Resolved v => (Resolved v, [])
  | Thrown message =>
      let isRetryable :=
        existsb (fun errType => includes message errType) (retryableErrors config) in
      match remaining with
      | O => (Thrown message, [])
      | S remaining' =>
          if negb isRetryable then (Thrown message, [])
          else
            let delay :=
              Qmin (retryDelayMs config
                    * Qpower (backoffMultiplier config) (Z.of_nat attempt))
                   (maxRetryDelayMs config) in
            let r := withRetryFrom operation config (S attempt) remaining' in
            (fst r, delay :: snd r)
      end
  end.

Definition withRetry {A : Type} (operation : nat -> Outcome A) (config : RetryPolicy)
  : Outcome A * list number :=
  withRetryFrom operation config 0 (maxRetries config).
End Helpers.

(** [n / d < bound] as JavaScript evaluates it: for [d = 0] the quotient is
    [-Infinity], [NaN] or [Infinity] according to the sign of [n]. *)
Definition divLt (n d bound : number) : bool :=
  if Qeq_bool d 0 then ltb n 0 else ltb (n / d) bound.

(* ================================================================== *)
(** ** src/core/event-matcher.ts *)

Module EventMatcher.
Local Open Scope string_scope.

Definition CATEGORY_MAPPINGS : list (string * list string) :=
  [ ("politics", ["politics"; "elections"; "government"; "political"]);
    ("economics", ["economics"; "fed"; "economy"; "financial"; "finance"]);
    ("crypto", ["crypto"; "cryptocurrency"; "bitcoin"; "btc"; "ethereum"; "eth"]);
    ("sports", ["sports"; "nfl"; "nba"; "mlb"; "soccer"; "football"]);
    ("entertainment", ["entertainment"; "media"; "movies"; "oscars"; "awards"]);
    ("science", ["science"; "tech"; "technology"; "space"; "climate"]) ].

Record t := mk {
  manualMappings : JsMap.t string;
  cachedMappings : JsMap.t EventMapping.t }.

Definition new : t := mk JsMap.empty JsMap.empty.

Record Ctx := mkCtx { matcher : t; trace : list Event }.

Fixpoint categoriesIn (groups : list (string * list string))
  (normalizedTitle normalizedCategory : string) : bool :=
  match groups with
  | [] => true
  | (_, keywords) :: rest =>
      if existsb (fun kw => Helpers.includes normalizedCategory kw) keywords
      then existsb (fun kw => Helpers.includes normalizedTitle kw) keywords
      else categoriesIn rest normalizedTitle normalizedCategory
  end.

Definition categoriesCompatible (polymarketTitle kalshiCategory : string) : bool :=
  categoriesIn CATEGORY_MAPPINGS
    (Helpers.normalize polymarketTitle) (Helpers.normalize kalshiCategory).

Definition defaultOutcomeMapping : list OutcomeMapping.t :=
  [ OutcomeMapping.mk "Yes" Yes; OutcomeMapping.mk "No" No ].

Definition createMapping (newId : string) (now : Z)
  (polymarket : PolymarketMarket.t) (kalshi : KalshiMarket.t)
  (confidence : number) (method : MatchMethod) : EventMapping.t :=
  {| EventMapping.id := newId;
     EventMapping.polymarketConditionId := PolymarketMarket.conditionId polymarket;
     EventMapping.kalshiTicker := KalshiMarket.ticker kalshi;
     EventMapping.eventDescription := PolymarketMarket.title polymarket;
     EventMapping.matchConfidence := confidence;
     EventMapping.resolutionDate := PolymarketMarket.endDate polymarket;
     EventMapping.matchMethod := method;
     EventMapping.outcomeMapping := defaultOutcomeMapping;
     EventMapping.isActive := true;
     EventMapping.createdAt := now;
     EventMapping.updatedAt := now |}.

(** The cache is updated only when the insert did not throw. *)
Definition saveMapping (dbOk : bool) (mapping : EventMapping.t) (c : Ctx) : Ctx :=
  {| matcher :=
       if dbOk
       then mk (manualMappings (matcher c))
               (JsMap.set (EventMapping.polymarketConditionId mapping) mapping
                          (cachedMappings (matcher c)))
       else matcher c;
     trace := trace c ++ [EvQuery (InsertMapping mapping) dbOk] |}.

(** The [for] loop of [findKalshiEquivalent]. *)
Fixpoint findLoop (cfg : Config.t) (newId : string) (now : Z) (dbOk : bool)
  (polymarket : PolymarketMarket.t) (normalizedPolyTitle : string)
  (kalshiMarkets : list KalshiMarket.t) (c : Ctx) : option EventMapping.t * Ctx :=
  match kalshiMarkets with
  | [] => (None, c)
  | kalshi :: rest =>
      let normalizedKalshiTitle := Helpers.normalize (KalshiMarket.title kalshi) in
      if String.eqb normalizedPolyTitle normalizedKalshiTitle then
        let mapping := createMapping newId now polymarket kalshi 1 Exact in
        (Some mapping, saveMapping dbOk mapping c)
      else
        let similarity :=
          Helpers.levenshteinSimilarity normalizedPolyTitle normalizedKalshiTitle in
        if geb similarity (Config.fuzzyMatchMinSimilarity (Config.matching cfg)) then
          if (Config.requireDateValidation (Config.matching cfg)
              && negb (Helpers.datesMatch (PolymarketMarket.endDate polymarket)
                         (KalshiMarket.expirationTime kalshi)
                         (24 * 60 * 60 * 1000)))%bool
          then findLoop cfg newId now dbOk polymarket normalizedPolyTitle rest c
          else if (Config.requireCategoryMatch (Config.matching cfg)
                   && negb (categoriesCompatible (PolymarketMarket.title polymarket)
                              (KalshiMarket.category kalshi)))%bool
          then findLoop cfg newId now dbOk polymarket normalizedPolyTitle rest c
          else
            let mapping := createMapping newId now polymarket kalshi similarity Fuzzy in
            (Some mapping, saveMapping dbOk mapping c)
        else findLoop cfg newId now dbOk polymarket normalizedPolyTitle rest c
  end.

Definition findKalshiEquivalent (cfg : Config.t) (newId : string) (now : Z) (dbOk : bool)
  (polymarket : PolymarketMarket.t) (kalshiMarkets : list KalshiMarket.t)
  (c : Ctx) : option EventMapping.t * Ctx :=
  match JsMap.get (PolymarketMarket.conditionId polymarket)
                  (cachedMappings (matcher c)) with
  | Some cached =>
      if EventMapping.isActive cached then (Some cached, c)
      else findLoop cfg newId now dbOk polymarket
             (Helpers.normalize (PolymarketMarket.title polymarket)) kalshiMarkets c
  | None =>
      findLoop cfg newId now dbOk polymarket
        (Helpers.normalize (PolymarketMarket.title polymarket)) kalshiMarkets c
  end.

Definition addManualMapping (newId : string) (now : Z) (dbOk : bool)
  (polymarketConditionId kalshiTicker : string) (description : option string)
  (c : Ctx) : EventMapping.t * Ctx :=
  let mapping :=
    {| EventMapping.id := newId;
       EventMapping.polymarketConditionId := polymarketConditionId;
       EventMapping.kalshiTicker := kalshiTicker;
       EventMapping.eventDescription :=
         match description with Some d => d | None => "" end;
       EventMapping.matchConfidence := 1;
       EventMapping.resolutionDate := now;
       EventMapping.matchMethod := Manual;
       EventMapping.outcomeMapping := defaultOutcomeMapping;
       EventMapping.isActive := true;
       EventMapping.createdAt := now;
       EventMapping.updatedAt := now |} in
  let c := saveMapping dbOk mapping c in
  (mapping,
   {| matcher := mk (JsMap.set polymarketConditionId kalshiTicker
                               (manualMappings (matcher c)))
                    (cachedMappings (matcher c));
      trace := trace c |}).

Definition getActiveMappings (m : t) : list EventMapping.t :=
  filter EventMapping.isActive (JsMap.values (cachedMappings m)).

Definition getMapping (polymarketConditionId : string) (m : t) : option EventMapping.t :=
  JsMap.get polymarketConditionId (cachedMappings m).

Definition canTradeOnMapping (cfg : Config.t) (mapping : EventMapping.t) : bool :=
  if ltb (EventMapping.matchConfidence mapping)
         (Config.minConfidenceThreshold (Config.matching cfg))
  then false
  else true.

(** The cache entries are dropped only when the update did not throw. *)
Definition removeMapping (dbOk : bool) (polymarketConditionId : string) (c : Ctx) : Ctx :=
  {| matcher :=
       if dbOk
       then mk (JsMap.delete polymarketConditionId (manualMappings (matcher c)))
               (JsMap.delete polymarketConditionId (cachedMappings (matcher c)))
       else matcher c;
     trace := trace c ++ [EvQuery (DeactivateMapping polymarketConditionId) dbOk] |}.

Definition getMatchConfidence (mapping : EventMapping.t) : number :=
  EventMapping.matchConfidence mapping.

(** The [for] loop of [buildMappings]; [fresh] supplies the identifier and
    the time for the mapping created for a market, [dbOk] the outcome of its
    insert. *)
Fixpoint buildMappings (cfg : Config.t)
  (fresh : PolymarketMarket.t -> string * Z) (dbOk : PolymarketMarket.t -> bool)
  (polymarketMarkets : list PolymarketMarket.t) (kalshiMarkets : list KalshiMarket.t)
  (c : Ctx) : list EventMapping.t * Ctx :=
  match polymarketMarkets with
  | [] => ([], c)
  | polymarket :: rest =>
      let r := findKalshiEquivalent cfg (fst (fresh polymarket)) (snd (fresh polymarket))
                 (dbOk polymarket) polymarket kalshiMarkets c in
      let rs := buildMappings cfg fresh dbOk rest kalshiMarkets (snd r) in
      (match fst r with
       | Some mapping => mapping :: fst rs
       | None => fst rs
       end, snd rs)
  end.
End EventMatcher.

(* ================================================================== *)
(** ** src/core/arbitrage-detector.ts

    The comparisons are decided on decimals here; [Binary64] further down
    has the same tests on doubles. *)

Module ArbitrageDetector.
Import ArbitrageOpportunity.

Definition estimateFees (buyPlatform sellPlatform : Platform)
  (buyPrice sellPrice quantity : number) : number :=
  let fees := 0 in
  let fees := if Platform_eqb buyPlatform Polymarket
              then fees + buyPrice * quantity * (2 # 100) else fees in
  let fees := if Platform_eqb sellPlatform Polymarket
              then fees + (1 - sellPrice) * quantity * (2 # 100) else fees in
  let fees := if Platform_eqb sellPlatform Kalshi
              then let potentialProfit := (1 - sellPrice) * quantity in
                   fees + Qmin (potentialProfit * (7 # 100)) ((7 # 100) * quantity)
              else fees in
  fees.

Record t := mk { lastOpportunities : JsMap.t ArbitrageOpportunity.t }.

Definition new : t := mk JsMap.empty.

(** [levels[0]?.price || d] and [levels[0]?.size || d] *)
Definition bestPrice (levels : list OrderBookLevel.t) (d : number) : number :=
  match levels with
  | [] => d
  | l :: _ => orElse (OrderBookLevel.price l) d
  end.

Definition bestSize (levels : list OrderBookLevel.t) (d : number) : number :=
  match levels with
  | [] => d
  | l :: _ => orElse (OrderBookLevel.size l) d
  end.

Definition calculateExecutionRisk (cfg : Config.t) (quantity price : number) : number :=
  if geb quantity (Config.minLiquidityDepth (Config.risk cfg) * 2) then 1 # 10
  else if geb quantity (Config.minLiquidityDepth (Config.risk cfg)) then 3 # 10
  else 6 # 10.

Definition createOpportunity (cfg : Config.t) (newId : string) (now : Z)
  (mapping : EventMapping.t)
  (buyPlatform : Platform) (buyPrice buyQuantity : number)
  (sellPlatform : Platform) (sellPrice sellQuantity : number)
  (grossSpread estimatedFees maxQuantity : number) : ArbitrageOpportunity.t :=
  {| id := newId;
     timestamp := now;
     eventMapping := mapping;
     buyPlatform := buyPlatform;
     buyPrice := buyPrice;
     buyQuantity := buyQuantity;
     sellPlatform := sellPlatform;
     sellPrice := sellPrice;
     sellQuantity := sellQuantity;
     grossSpread := grossSpread;
     estimatedFees := estimatedFees;
     netProfit := grossSpread - estimatedFees;
     maxQuantity := maxQuantity;
     executionRisk := calculateExecutionRisk cfg maxQuantity buyPrice;
     expirationTime := (now + 5000)%Z |}.

(** Case 1 of [detectArbitrage]: buy on Polymarket, sell on Kalshi. *)
Definition case1 (cfg : Config.t) (newId : string) (now : Z)
  (polymarketBook kalshiBook : OrderBook.t) (mapping : EventMapping.t)
  : option ArbitrageOpportunity.t :=
  let polyYesAsk := bestPrice (OrderBook.asks polymarketBook) 1 in
  let kalshiYesBid := bestPrice (OrderBook.bids kalshiBook) 0 in
  let polyAskSize := bestSize (OrderBook.asks polymarketBook) 0 in
  let kalshiBidSize := bestSize (OrderBook.bids kalshiBook) 0 in
  if ltb polyYesAsk kalshiYesBid then
    let spread := kalshiYesBid - polyYesAsk in
    let maxQuantity := Qmin polyAskSize kalshiBidSize in
    let fees := estimateFees Polymarket Kalshi polyYesAsk kalshiYesBid 1 in
    if gtb spread (fees + Config.t_minProfitThreshold (Config.trading cfg) * polyYesAsk)
    then Some (createOpportunity cfg newId now mapping
                 Polymarket polyYesAsk polyAskSize
                 Kalshi kalshiYesBid kalshiBidSize
                 spread fees maxQuantity)
    else None
  else None.

(** Case 2 of [detectArbitrage]: buy on Kalshi, sell on Polymarket. *)
Definition case2 (cfg : Config.t) (newId : string) (now : Z)
  (polymarketBook kalshiBook : OrderBook.t) (mapping : EventMapping.t)
  : option ArbitrageOpportunity.t :=
  let polyYesBid := bestPrice (OrderBook.bids polymarketBook) 0 in
  let kalshiYesAsk := bestPrice (OrderBook.asks kalshiBook) 1 in
  let polyBidSize := bestSize (OrderBook.bids polymarketBook) 0 in
  let kalshiAskSize := bestSize (OrderBook.asks kalshiBook) 0 in
  if ltb kalshiYesAsk polyYesBid then
    let spread := polyYesBid - kalshiYesAsk in
    let maxQuantity := Qmin kalshiAskSize polyBidSize in
    let fees := estimateFees Kalshi Polymarket kalshiYesAsk polyYesBid 1 in
    if gtb spread (fees + Config.t_minProfitThreshold (Config.trading cfg) * kalshiYesAsk)
    then Some (createOpportunity cfg newId now mapping
                 Kalshi kalshiYesAsk kalshiAskSize
                 Polymarket polyYesBid polyBidSize
                 spread fees maxQuantity)
    else None
  else None.

(** The value of [opportunity] after both cases:
    [if (!opportunity || newOpportunity.netProfit > opportunity.netProfit)]. *)
Definition candidate (cfg : Config.t) (id1 id2 : string) (now : Z)
  (polymarketBook kalshiBook : OrderBook.t) (mapping : EventMapping.t)
  : option ArbitrageOpportunity.t :=
  let opportunity := case1 cfg id1 now polymarketBook kalshiBook mapping in
  match case2 cfg id2 now polymarketBook kalshiBook mapping with
  | Some newOpportunity =>
      match opportunity with
      | None => Some newOpportunity
      | Some old =>
          if gtb (netProfit newOpportunity) (netProfit old)
          then Some newOpportunity else Some old
      end
  | None => opportunity
  end.

Definition detectArbitrage (cfg : Config.t) (id1 id2 : string) (now : Z)
  (polymarketBook kalshiBook : OrderBook.t) (mapping : EventMapping.t) (d : t)
  : option ArbitrageOpportunity.t * t :=
  match candidate cfg id1 id2 now polymarketBook kalshiBook mapping with
  | Some opportunity =>
      if divLt (netProfit opportunity) (buyPrice opportunity)
               (Config.t_minProfitThreshold (Config.trading cfg))
      then (None, d)
      else if ltb (maxQuantity opportunity) (Config.minLiquidityDepth (Config.risk cfg))
      then (None, d)
      else (Some opportunity,
            mk (JsMap.set (EventMapping.id mapping) opportunity (lastOpportunities d)))
  | None => (None, d)
  end.

Definition getLastOpportunity (now : Z) (mappingId : string) (d : t)
  : option ArbitrageOpportunity.t * t :=
  match JsMap.get mappingId (lastOpportunities d) with
  | Some opp =>
      if Z.ltb (expirationTime opp) now
      then (None, mk (JsMap.delete mappingId (lastOpportunities d)))
      else (Some opp, d)
  | None => (None, d)
  end.

(** [freshBooks] is what the two [getOrderBook] calls return, [None] when
    one of them throws. *)
Definition validateOpportunity (cfg : Config.t) (id1 id2 : string) (now : Z)
  (freshBooks : option (OrderBook.t * OrderBook.t))
  (opportunity : ArbitrageOpportunity.t) (d : t) : bool * t :=
  if Z.ltb (expirationTime opportunity) now then (false, d)
  else match freshBooks with
       | None => (false, d)
       | Some (polyBook, kalshiBook) =>
           match detectArbitrage cfg id1 id2 now polyBook kalshiBook
                   (eventMapping opportunity) d with
           | (None, d') => (false, d')
           | (Some freshOpportunity, d') =>
               if divLt (netProfit freshOpportunity) (netProfit opportunity)
                        (1 - Config.maxSlippage (Config.trading cfg))
               then (false, d')
               else (true, d')
           end
       end.

Definition clearExpired (now : Z) (d : t) : t :=
  mk (filter (fun kv => negb (Z.ltb (expirationTime (snd kv)) now)) (lastOpportunities d)).

Record ProfitCalculation := mkProfitCalculation {
  grossProfit : number;
  polymarketFees : number;
  kalshiFees : number;
  gasCost : number;
  pc_netProfit : number;
  profitPercentage : number }.

Definition calculateProfitDetails (cfg : Config.t)
  (buyPlatform sellPlatform : Platform) (buyPrice sellPrice quantity : number)
  : ProfitCalculation :=
  let grossProfit := (sellPrice - buyPrice) * quantity in
  let polymarketFees := 0 in
  let kalshiFees := 0 in
  let polymarketFees := if Platform_eqb buyPlatform Polymarket
                        then polymarketFees + buyPrice * quantity * (2 # 100)
                        else polymarketFees in
  let polymarketFees := if Platform_eqb sellPlatform Polymarket
                        then polymarketFees + (1 - sellPrice) * quantity * (2 # 100)
                        else polymarketFees in
  let kalshiFees := if Platform_eqb sellPlatform Kalshi
                    then let potentialProfit := (1 - sellPrice) * quantity in
                         kalshiFees + Qmin (potentialProfit * (7 # 100)) ((7 # 100) * quantity)
                    else kalshiFees in
  let gasCost := if (Platform_eqb buyPlatform Polymarket
                     || Platform_eqb sellPlatform Polymarket)%bool
                 then Config.estimatedGasCostUsd (Config.smallPosition cfg) * 2
                 else 0 in
  let totalFees := polymarketFees + kalshiFees + gasCost in
  let netProfit := grossProfit - totalFees in
  let tradeValue := buyPrice * quantity in
  let profitPercentage := if gtb tradeValue 0 then netProfit / tradeValue else 0 in
  {| grossProfit := grossProfit;
     polymarketFees := polymarketFees;
     kalshiFees := kalshiFees;
     gasCost := gasCost;
     pc_netProfit := netProfit;
     profitPercentage := profitPercentage |}.

(** What a scan reads from outside for one mapping: the two order books
    ([None] when a [getOrderBook] call throws), the identifiers handed out
    by [generateId] and the clock. *)
Record ScanOracle := mkScanOracle {
  scanBooks : EventMapping.t -> option (OrderBook.t * OrderBook.t);
  scanIds : EventMapping.t -> string * string;
  scanNow : EventMapping.t -> Z }.

(** The [for] loop of [scanForOpportunities]. *)
Fixpoint scanLoop (cfg : Config.t) (o : ScanOracle) (mappings : list EventMapping.t) (d : t)
  : list ArbitrageOpportunity.t * t :=
  match mappings with
  | [] => ([], d)
  | mapping :: rest =>
      if negb (EventMatcher.canTradeOnMapping cfg mapping) then scanLoop cfg o rest d
      else
        match scanBooks o mapping with
        | None => scanLoop cfg o rest d
        | Some (polyBook, kalshiBook) =>
            let r := detectArbitrage cfg (fst (scanIds o mapping)) (snd (scanIds o mapping))
                       (scanNow o mapping) polyBook kalshiBook mapping d in
            let rs := scanLoop cfg o rest (snd r) in
            (match fst r with
             | Some opportunity => opportunity :: fst rs
             | None => fst rs
             end, snd rs)
        end
  end.

Definition scanForOpportunities (cfg : Config.t) (o : ScanOracle)
  (matcher : EventMatcher.t) (d : t) : list ArbitrageOpportunity.t * t :=
  scanLoop cfg o (EventMatcher.getActiveMappings matcher) d.
End ArbitrageDetector.

(* ================================================================== *)
(** ** src/core/risk-manager.ts *)

(** The rejection messages of [validateTrade], by template and arguments. *)
Inductive Reason :=
| CircuitBreakerIsPaused (reason : option string)
| TotalExposureWouldExceed (limit current trade : number)
| EventExposureWouldExceed (limit current trade : number)
| PositionImbalanceExceeds (limit current : number)
| DailyLossLimitReached (limit : number)
| NetProfitBelowThreshold (netProfit buyPrice threshold : number)
| QuantityExceedsMax (quantity max : number)
| QuantityBelowMin (quantity min : number)
| TradeValueBelowMinimum (tradeValue min : number)
| EstimatedProfitBelowMinimum (estimatedProfit min : number).

Inductive Warning :=
| LowLiquidity (available min : number)
| HighExecutionRisk (risk : number).

Module RiskCheck.
Record t := mk {
  approved : bool;
  reasons : option (list Reason);
  warnings : option (list Warning);
  suggestedQuantity : option number }.
End RiskCheck.

Module RiskManager.
Import ArbitrageOpportunity.

Record t := mk {
  positions : JsMap.t (list Position.t);
  totalExposure : number }.

Definition new : t := mk JsMap.empty 0.

Definition positionsOf (eventId : string) (rm : t) : list Position.t :=
  match JsMap.get eventId (positions rm) with
  | Some l => l
  | None => []
  end.

Definition getEventExposure (eventId : string) (rm : t) : number :=
  fold_left (fun sum pos => sum + Position.quantity pos * Position.avgPrice pos)
            (positionsOf eventId rm) 0.

Definition getTotalExposure (rm : t) : number := totalExposure rm.

Definition getNetInventory (cfg : Config.t) (eventId : string) (rm : t) : InventoryReport.t :=
  let positions := positionsOf eventId rm in
  let qty (pf : Platform) (sd : YesNo) :=
    fold_left
      (fun acc pos =>
         match Position.platform pos, Position.side pos, pf, sd with
         | Polymarket, Yes, Polymarket, Yes
         | Polymarket, No, Polymarket, No
         | Kalshi, Yes, Kalshi, Yes
         | Kalshi, No, Kalshi, No => acc + Position.quantity pos
         | _, _, _, _ => acc
         end) positions 0 in
  let polymarketYesQty := qty Polymarket Yes in
  let polymarketNoQty := qty Polymarket No in
  let kalshiYesQty := qty Kalshi Yes in
  let kalshiNoQty := qty Kalshi No in
  let netPosition := (polymarketYesQty + kalshiYesQty) - (polymarketNoQty + kalshiNoQty) in
  let avgPrice :=
    if Nat.ltb 0 (List.length positions)
    then fold_left (fun sum p => sum + Position.avgPrice p) positions 0
         / Qnat (List.length positions)
    else 1 # 2 in
  let imbalanceUsd := Qabs netPosition * avgPrice in
  {| InventoryReport.eventId := eventId;
     InventoryReport.polymarketYesQty := polymarketYesQty;
     InventoryReport.polymarketNoQty := polymarketNoQty;
     InventoryReport.kalshiYesQty := kalshiYesQty;
     InventoryReport.kalshiNoQty := kalshiNoQty;
     InventoryReport.netPosition := netPosition;
     InventoryReport.imbalanceUsd := imbalanceUsd;
     InventoryReport.needsRebalancing :=
       gtb imbalanceUsd (Config.maxPositionImbalance (Config.risk cfg)) |}.

(** [checks.push(msg)] under a condition. *)
Definition pushIf {A} (cond : bool) (x : A) (l : list A) : list A :=
  if cond then l ++ [x] else l.

Definition nonEmpty {A} (l : list A) : option (list A) :=
  match l with [] => None | _ => Some l end.

Definition validateTrade (cfg : Config.t) (breaker : CircuitBreaker.t)
  (state : PersistedState.t) (rm : t)
  (opportunity : ArbitrageOpportunity.t) (quantity : number) : RiskCheck.t :=
  let risk := Config.risk cfg in
  let small := Config.smallPosition cfg in
  let checks := [] in
  let warnings := [] in
  let checks := pushIf (CircuitBreaker.isPaused breaker)
                  (CircuitBreakerIsPaused (CircuitBreaker.getPauseReason breaker)) checks in
  let tradeValue := quantity * buyPrice opportunity in
  let checks := pushIf (gtb (totalExposure rm + tradeValue) (Config.maxTotalExposure risk))
                  (TotalExposureWouldExceed (Config.maxTotalExposure risk)
                     (totalExposure rm) tradeValue) checks in
  let eventId := EventMapping.id (eventMapping opportunity) in
  let eventExposure := getEventExposure eventId rm in
  let checks := pushIf (gtb (eventExposure + tradeValue) (Config.maxExposurePerEvent risk))
                  (EventExposureWouldExceed (Config.maxExposurePerEvent risk)
                     eventExposure tradeValue) checks in
  let inventory := getNetInventory cfg eventId rm in
  let checks := pushIf (gtb (Qabs (InventoryReport.imbalanceUsd inventory))
                            (Config.maxPositionImbalance risk))
                  (PositionImbalanceExceeds (Config.maxPositionImbalance risk)
                     (InventoryReport.imbalanceUsd inventory)) checks in
  let dailyPnL := StateManager.getDailyPnL state in
  let checks := pushIf (ltb dailyPnL (- Config.dailyLossLimit risk))
                  (DailyLossLimitReached (Config.dailyLossLimit risk)) checks in
  let checks := pushIf (divLt (netProfit opportunity) (buyPrice opportunity)
                              (Config.minProfitThreshold risk))
                  (NetProfitBelowThreshold (netProfit opportunity) (buyPrice opportunity)
                     (Config.minProfitThreshold risk)) checks in
  let checks := pushIf (gtb quantity (Config.maxQuantityPerTrade risk))
                  (QuantityExceedsMax quantity (Config.maxQuantityPerTrade risk)) checks in
  let checks := pushIf (ltb quantity (Config.minQuantityPerTrade risk))
                  (QuantityBelowMin quantity (Config.minQuantityPerTrade risk)) checks in
  let checks := pushIf (ltb tradeValue (Config.minTradeValueUsd small))
                  (TradeValueBelowMinimum tradeValue (Config.minTradeValueUsd small)) checks in
  let estimatedProfit := quantity * netProfit opportunity in
  let checks := pushIf (ltb estimatedProfit (Config.minProfitUsd small))
                  (EstimatedProfitBelowMinimum estimatedProfit (Config.minProfitUsd small))
                  checks in
  let warnings := pushIf (ltb (maxQuantity opportunity) (Config.minLiquidityDepth risk))
                    (LowLiquidity (maxQuantity opportunity) (Config.minLiquidityDepth risk))
                    warnings in
  let warnings := pushIf (gtb (executionRisk opportunity) (1 # 2))
                    (HighExecutionRisk (executionRisk opportunity)) warnings in
  let suggestedQuantity := quantity in
  let remainingExposure := Config.maxTotalExposure risk - totalExposure rm in
  let suggestedQuantity :=
    if (gtb remainingExposure 0 && gtb tradeValue remainingExposure)%bool
    then floor (remainingExposure / buyPrice opportunity)
    else suggestedQuantity in
  let remainingEventExposure := Config.maxExposurePerEvent risk - eventExposure in
  let suggestedQuantity :=
    if (gtb remainingEventExposure 0 && gtb tradeValue remainingEventExposure)%bool
    then Qmin suggestedQuantity (floor (remainingEventExposure / buyPrice opportunity))
    else suggestedQuantity in
  let suggestedQuantity := Qmin suggestedQuantity (Config.maxQuantityPerTrade risk) in
  {| RiskCheck.approved := match checks with [] => true | _ => false end;
     RiskCheck.reasons := nonEmpty checks;
     RiskCheck.warnings := nonEmpty warnings;
     RiskCheck.suggestedQuantity :=
       if gtb suggestedQuantity 0 then Some suggestedQuantity else None |}.

(** [remainingExposure / buyPrice] is [Infinity] at [buyPrice = 0] (the
    dividend is positive there), which leaves [Math.min] at [quantity]. *)
Definition calculateOptimalQuantity (cfg : Config.t) (rm : t)
  (opportunity : ArbitrageOpportunity.t) : number :=
  let risk := Config.risk cfg in
  let quantity := Qmin (Qmin (buyQuantity opportunity) (sellQuantity opportunity))
                       (maxQuantity opportunity) in
  let quantity := Qmin quantity (Config.maxQuantityPerTrade risk) in
  let remainingExposure := Config.maxTotalExposure risk - totalExposure rm in
  let quantity :=
    if gtb remainingExposure 0 then
      if Qeq_bool (buyPrice opportunity) 0 then quantity
      else Qmin quantity (floor (remainingExposure / buyPrice opportunity))
    else quantity in
  let quantity := Qmax quantity (Config.minQuantityPerTrade risk) in
  floor quantity.

Definition recalculateTotalExposure (rm : t) : t :=
  mk (positions rm)
     (fold_left
        (fun total positions =>
           fold_left (fun total pos =>
                        total + Position.quantity pos * Position.avgPrice pos)
                     positions total)
        (JsMap.values (positions rm)) 0).

(** [existing.push(pos); this.positions.set(eventId, existing)] *)
Definition pushPosition (pos : Position.t) (m : JsMap.t (list Position.t))
  : JsMap.t (list Position.t) :=
  let existing := match JsMap.get (Position.eventId pos) m with
                  | Some l => l
                  | None => []
                  end in
  JsMap.set (Position.eventId pos) (existing ++ [pos]) m.

Definition addPosition (position : Position.t) (rm : t) : t :=
  recalculateTotalExposure (mk (pushPosition position (positions rm)) (totalExposure rm)).

Definition updatePositions (newPositions : list Position.t) (rm : t) : t :=
  recalculateTotalExposure
    (mk (fold_left (fun m pos => pushPosition pos m) newPositions JsMap.empty)
        (totalExposure rm)).

Definition isDailyLossLimitReached (cfg : Config.t) (state : PersistedState.t) : bool :=
  ltb (StateManager.getDailyPnL state) (- Config.dailyLossLimit (Config.risk cfg)).

Definition getAvailableCapital (cfg : Config.t) (rm : t) : number :=
  (Config.maxTotalExposure (Config.risk cfg) - totalExposure rm) / 2.

Definition tradeReducesImbalance (cfg : Config.t) (eventId : string)
  (buyPlatform : Platform) (rm : t) : bool :=
  let inventory := getNetInventory cfg eventId rm in
  if negb (InventoryReport.needsRebalancing inventory) then false
  else if gtb (InventoryReport.netPosition inventory) 0 then
    match buyPlatform with
    | Polymarket => gtb (InventoryReport.kalshiYesQty inventory)
                        (InventoryReport.polymarketYesQty inventory)
    | Kalshi => gtb (InventoryReport.polymarketYesQty inventory)
                    (InventoryReport.kalshiYesQty inventory)
    end
  else true.
End RiskManager.

(* ================================================================== *)
(** ** src/core/execution-engine.ts *)

(** An entry of [Promise.allSettled]. *)
Inductive Settled (A : Type) :=
| Fulfilled (value : A)
| Rejected.
Arguments Fulfilled {A} value.
Arguments Rejected {A}.

Inductive ErrorMessage :=
| CircuitBreakerActive (reason : option string)
| RiskReason (r : Reason)
| OpportunityNoLongerValid
| BothFokOrdersRejected
| AsymmetricExecutionTriggered.

Module ExecutionResult.
Record t := mk {
  success : bool;
  buyExecution : option OrderResult.t;
  sellExecution : option OrderResult.t;
  actualProfit : number;
  slippage : number;
  errors : option (list ErrorMessage);
  circuitBreakerTriggered : bool;
  dryRun : option bool }.
End ExecutionResult.

Module ExecutionEngine.
Import ArbitrageOpportunity.
Local Open Scope string_scope.

(** The singletons [execute] reaches and the calls it has issued. *)
Record World := mkWorld {
  breaker : CircuitBreaker.t;
  state : PersistedState.t;
  riskManager : RiskManager.t;
  detector : ArbitrageDetector.t;
  trace : list Event }.

(** What one run of [execute] reads from outside the process. *)
Record Oracle := mkOracle {
  now : Z;
  freshBooks : option (OrderBook.t * OrderBook.t);
  detectId1 : string;
  detectId2 : string;
  buyResult : Settled OrderResult.t;
  sellResult : Settled OrderResult.t;
  buyPositionId : string;
  sellPositionId : string;
  executionId : string;
  dryRunBuyOrderId : string;
  dryRunSellOrderId : string;
  insertOpportunityOk : bool;
  insertExecutionOk : bool }.

Definition emit (evs : list Event) (w : World) : World :=
  mkWorld (breaker w) (state w) (riskManager w) (detector w) (trace w ++ evs).

(** [o?.field || d] *)
Definition optOrElse (o : option number) (d : number) : number :=
  match o with
  | Some x => orElse x d
  | None => d
  end.

Definition calculateActualProfit (buyExecution sellExecution : OrderResult.t)
  (quantity : number) : number :=
  let buyPrice := optOrElse (OrderResult.fillPrice buyExecution) 0 in
  let sellPrice := optOrElse (OrderResult.fillPrice sellExecution) 0 in
  let buyFees := optOrElse (OrderResult.fees buyExecution) 0 in
  let sellFees := optOrElse (OrderResult.fees sellExecution) 0 in
  let grossProfit := (sellPrice - buyPrice) * quantity in
  let totalFees := buyFees + sellFees in
  grossProfit - totalFees.

Definition recordPositions (o : Oracle) (opportunity : ArbitrageOpportunity.t)
  (quantity : number) (buyExecution sellExecution : OrderResult.t)
  (rm : RiskManager.t) : RiskManager.t :=
  let buyPosition :=
    {| Position.id := buyPositionId o;
       Position.platform := buyPlatform opportunity;
       Position.eventId := EventMapping.id (eventMapping opportunity);
       Position.eventMappingId := Some (EventMapping.id (eventMapping opportunity));
       Position.side := Yes;
       Position.quantity := quantity;
       Position.avgPrice :=
         optOrElse (OrderResult.fillPrice buyExecution) (buyPrice opportunity);
       Position.currentPrice :=
         optOrElse (OrderResult.fillPrice buyExecution) (buyPrice opportunity);
       Position.unrealizedPnL := 0;
       Position.openedAt := now o;
       Position.updatedAt := now o |} in
  let sellPosition :=
    {| Position.id := sellPositionId o;
       Position.platform := sellPlatform opportunity;
       Position.eventId := EventMapping.id (eventMapping opportunity);
       Position.eventMappingId := Some (EventMapping.id (eventMapping opportunity));
       Position.side := No;
       Position.quantity := quantity;
       Position.avgPrice :=
         optOrElse (OrderResult.fillPrice sellExecution) (sellPrice opportunity);
       Position.currentPrice :=
         optOrElse (OrderResult.fillPrice sellExecution) (sellPrice opportunity);
       Position.unrealizedPnL := 0;
       Position.openedAt := now o;
       Position.updatedAt := now o |} in
  RiskManager.addPosition sellPosition (RiskManager.addPosition buyPosition rm).

Definition isComplete (s : ExecutionStatus) : bool :=
  match s with StComplete => true | _ => false end.

(** The second insert is issued only when the first did not throw. *)
Definition saveExecution (o : Oracle) (opportunity : ArbitrageOpportunity.t)
  (status : ExecutionStatus) (buyExecution sellExecution : option OrderResult.t)
  (actualProfit slippage : number) (notes : option string) (isDryRun : bool)
  (w : World) : World :=
  let field {A} (f : OrderResult.t -> option A) (e : option OrderResult.t) : option A :=
    match e with Some r => f r | None => None end in
  let row :=
    {| ExecutionRow.id := executionId o;
       ExecutionRow.opportunity_id := id opportunity;
       ExecutionRow.status := status;
       ExecutionRow.buy_order_id :=
         field (fun r => Some (OrderResult.orderId r)) buyExecution;
       ExecutionRow.buy_fill_price := field OrderResult.fillPrice buyExecution;
       ExecutionRow.buy_fill_quantity := field OrderResult.fillQuantity buyExecution;
       ExecutionRow.buy_fees := field OrderResult.fees buyExecution;
       ExecutionRow.buy_platform := buyPlatform opportunity;
       ExecutionRow.sell_order_id :=
         field (fun r => Some (OrderResult.orderId r)) sellExecution;
       ExecutionRow.sell_fill_price := field OrderResult.fillPrice sellExecution;
       ExecutionRow.sell_fill_quantity := field OrderResult.fillQuantity sellExecution;
       ExecutionRow.sell_fees := field OrderResult.fees sellExecution;
       ExecutionRow.sell_platform := sellPlatform opportunity;
       ExecutionRow.actual_profit := actualProfit;
       ExecutionRow.slippage := slippage;
       ExecutionRow.notes := notes;
       ExecutionRow.is_dry_run := isDryRun |} in
  emit (EvQuery (InsertOpportunity opportunity (isComplete status)) (insertOpportunityOk o)
        :: if insertOpportunityOk o
           then [EvQuery (InsertExecution row) (insertExecutionOk o)]
           else [])
       w.

Definition failure (buyExecution sellExecution : option OrderResult.t)
  (errors : list ErrorMessage) (circuitBreakerTriggered : bool) : ExecutionResult.t :=
  {| ExecutionResult.success := false;
     ExecutionResult.buyExecution := buyExecution;
     ExecutionResult.sellExecution := sellExecution;
     ExecutionResult.actualProfit := 0;
     ExecutionResult.slippage := 0;
     ExecutionResult.errors := Some errors;
     ExecutionResult.circuitBreakerTriggered := circuitBreakerTriggered;
     ExecutionResult.dryRun := None |}.

Definition executeDryRun (cfg : Config.t) (o : Oracle)
  (opportunity : ArbitrageOpportunity.t) (quantity : number) (w : World)
  : ExecutionResult.t * World :=
  let w :=
    if Config.trackHypotheticalPnL (Config.operatingMode cfg)
    then mkWorld (breaker w)
           (StateManager.recordSuccessfulTrade (now o)
              (netProfit opportunity * quantity) (quantity * buyPrice opportunity)
              (state w))
           (riskManager w) (detector w) (trace w)
    else w in
  let w :=
    saveExecution o opportunity StComplete
      (Some (OrderResult.mk true ("DRY_RUN_" ++ dryRunBuyOrderId o)
               (Some (buyPrice opportunity)) (Some quantity) None (now o) None))
      (Some (OrderResult.mk true ("DRY_RUN_" ++ dryRunSellOrderId o)
               (Some (sellPrice opportunity)) (Some quantity) None (now o) None))
      (netProfit opportunity * quantity) 0 None true w in
  ({| ExecutionResult.success := true;
      ExecutionResult.buyExecution := None;
      ExecutionResult.sellExecution := None;
      ExecutionResult.actualProfit := netProfit opportunity * quantity;
      ExecutionResult.slippage := 0;
      ExecutionResult.errors := None;
      ExecutionResult.circuitBreakerTriggered := false;
      ExecutionResult.dryRun := Some true |}, w).

Definition marketIdFor (p : Platform) (opportunity : ArbitrageOpportunity.t) : string :=
  match p with
  | Polymarket => EventMapping.polymarketConditionId (eventMapping opportunity)
  | Kalshi => EventMapping.kalshiTicker (eventMapping opportunity)
  end.

Definition succeeded (r : Settled OrderResult.t) : bool :=
  match r with
  | Fulfilled v => OrderResult.success v
  | Rejected => false
  end.

Definition valueOf (r : Settled OrderResult.t) : option OrderResult.t :=
  match r with
  | Fulfilled v => Some v
  | Rejected => None
  end.

Definition filledOrRejected (ok : bool) : string :=
  if ok then "FILLED" else "REJECTED".

(** A leg that came back fulfilled with [success: true]. *)
Definition filled (r : Settled OrderResult.t) : option OrderResult.t :=
  match r with
  | Fulfilled v => if OrderResult.success v then Some v else None
  | Rejected => None
  end.

(** The block of [execute] after "CRITICAL: Asymmetric execution". *)
Definition asymmetric (cfg : Config.t) (o : Oracle)
  (opportunity : ArbitrageOpportunity.t) (w : World) : ExecutionResult.t * World :=
  let buySuccess := succeeded (buyResult o) in
  let sellSuccess := succeeded (sellResult o) in
  let buyExecution := valueOf (buyResult o) in
  let sellExecution := valueOf (sellResult o) in
  let c := CircuitBreaker.recordFailure cfg (now o) ASYMMETRIC_EXECUTION
             (CircuitBreaker.mkCtx (breaker w) (state w) (trace w)) in
  let w := mkWorld (CircuitBreaker.breaker c) (CircuitBreaker.state c)
                   (riskManager w) (detector w) (CircuitBreaker.trace c) in
  let w :=
    emit [EvAlert (alertAsymmetricExecution
                     (filledOrRejected buySuccess) (filledOrRejected sellSuccess)
                     (buyPlatform opportunity) (sellPlatform opportunity))] w in
  let w := saveExecution o opportunity StFailed buyExecution sellExecution
             0 0 (Some "Asymmetric execution") false w in
  (failure buyExecution sellExecution [AsymmetricExecutionTriggered] true, w).

(** Steps 6 and 7 of [execute]: fire both legs and process the results. *)
Definition fire (cfg : Config.t) (o : Oracle)
  (opportunity : ArbitrageOpportunity.t) (finalQuantity : number) (w : World)
  : ExecutionResult.t * World :=
  let buyOrder :=
    LimitOrder.mk (buyPlatform opportunity)
      (marketIdFor (buyPlatform opportunity) opportunity)
      Buy (buyPrice opportunity) finalQuantity FOK in
  let sellOrder :=
    LimitOrder.mk (sellPlatform opportunity)
      (marketIdFor (sellPlatform opportunity) opportunity)
      Sell (sellPrice opportunity) finalQuantity FOK in
  let w := emit [EvPlaceOrder buyOrder; EvPlaceOrder sellOrder] w in
  let buyExecution := valueOf (buyResult o) in
  let sellExecution := valueOf (sellResult o) in
  match filled (buyResult o), filled (sellResult o) with
  | Some buyEx, Some sellEx =>
      (* Both succeeded *)
      let actualProfit := calculateActualProfit buyEx sellEx finalQuantity in
      let slippage :=
        Helpers.calculateSlippage (netProfit opportunity * finalQuantity) actualProfit in
      let w :=
        mkWorld (CircuitBreaker.recordSuccess (breaker w))
          (StateManager.recordSuccessfulTrade (now o) actualProfit
             (finalQuantity * buyPrice opportunity) (state w))
          (recordPositions o opportunity finalQuantity buyEx sellEx (riskManager w))
          (detector w) (trace w) in
      let w := saveExecution o opportunity StComplete buyExecution sellExecution
                 actualProfit slippage None false w in
      let w :=
        emit [EvAlert (alertTradeExecuted (buyPlatform opportunity)
                         (optOrElse (OrderResult.fillPrice buyEx) (buyPrice opportunity))
                         (sellPlatform opportunity)
                         (optOrElse (OrderResult.fillPrice sellEx) (sellPrice opportunity))
                         actualProfit)] w in
      ({| ExecutionResult.success := true;
          ExecutionResult.buyExecution := buyExecution;
          ExecutionResult.sellExecution := sellExecution;
          ExecutionResult.actualProfit := actualProfit;
          ExecutionResult.slippage := slippage;
          ExecutionResult.errors := None;
          ExecutionResult.circuitBreakerTriggered := false;
          ExecutionResult.dryRun := None |}, w)
  | None, None =>
      (* Both failed (FOK rejected) *)
      (failure buyExecution sellExecution [BothFokOrdersRejected] false, w)
  | _, _ => asymmetric cfg o opportunity w
  end.

Definition execute (cfg : Config.t) (o : Oracle)
  (opportunity : ArbitrageOpportunity.t) (w : World) : ExecutionResult.t * World :=
  (* 1. Check if paused *)
  if CircuitBreaker.isPaused (breaker w) then
    (failure None None
       [CircuitBreakerActive (CircuitBreaker.getPauseReason (breaker w))] true, w)
  else
    (* 2. Calculate optimal quantity *)
    let quantity := RiskManager.calculateOptimalQuantity cfg (riskManager w) opportunity in
    (* 3. Validate risk *)
    let riskCheck := RiskManager.validateTrade cfg (breaker w) (state w) (riskManager w)
                       opportunity quantity in
    if negb (RiskCheck.approved riskCheck) then
      (failure None None
         (map RiskReason (match RiskCheck.reasons riskCheck with
                          | Some l => l
                          | None => []
                          end)) false, w)
    else
      let finalQuantity :=
        match RiskCheck.suggestedQuantity riskCheck with
        | Some q => orElse q quantity
        | None => quantity
        end in
      (* 4. Validate opportunity is still valid *)
      let '(stillValid, d) :=
        ArbitrageDetector.validateOpportunity cfg (detectId1 o) (detectId2 o) (now o)
          (freshBooks o) opportunity (detector w) in
      let w := mkWorld (breaker w) (state w) (riskManager w) d (trace w) in
      if negb stillValid then
        (failure None None [OpportunityNoLongerValid] false, w)
      else
        (* 5. Check if dry run mode *)
        match Config.mode (Config.operatingMode cfg) with
        | DryRun => executeDryRun cfg o opportunity finalQuantity w
        | Live => fire cfg o opportunity finalQuantity w
        end.
End ExecutionEngine.

(* ================================================================== *)
(** ** src/connectors/base.ts *)

Module WebSocketManager.
Record ReconnectionPolicy := mkPolicy {
  maxAttempts : nat;
  initialDelayMs : number;
  maxDelayMs : number;
  backoffMultiplier : number }.

Record t := mk {
  connected : bool;
  reconnectAttempts : nat }.

(** The [while] loop of [attemptConnection], with
    [remaining = maxAttempts - reconnectAttempts]; [establish k] tells
    whether [establishConnection] succeeds when called with
    [reconnectAttempts = k].  The result comes with the delays slept. *)
Fixpoint attemptLoop (policy : ReconnectionPolicy) (establish : nat -> bool)
  (remaining : nat) (ws : t) : bool * t * list number :=
  match remaining with
  | O => (false, ws, [])
  | S remaining' =>
      if establish (reconnectAttempts ws) then (true, mk true 0, [])
      else
        let attempts := S (reconnectAttempts ws) in
        let delay :=
          Qmin (initialDelayMs policy
                * Qpower (backoffMultiplier policy) (Z.of_nat attempts - 1))
               (maxDelayMs policy) in
        let r := attemptLoop policy establish remaining' (mk (connected ws) attempts) in
        (fst (fst r), snd (fst r), delay :: snd r)
  end.

Definition attemptConnection (policy : ReconnectionPolicy) (establish : nat -> bool)
  (ws : t) : bool * t * list number :=
  attemptLoop policy establish (maxAttempts policy - reconnectAttempts ws) ws.

Definition connect (policy : ReconnectionPolicy) (establish : nat -> bool)
  (ws : t) : bool * t * list number :=
  attemptConnection policy establish (mk (connected ws) 0).
End WebSocketManager.

Module RateLimiter.
Record t := mk {
  requests : list Z;
  windowMs : Z;
  maxRequests : Z;
  minIntervalMs : Z;
  lastRequestTime : Z }.

(** The constructor. *)
Definition new (maxRequestsPerWindow windowSeconds minIntervalMs : Z) : t :=
  mk [] (windowSeconds * 1000)%Z maxRequestsPerWindow minIntervalMs 0%Z.

(** The three readings of [Date.now()] in one call of [waitForSlot]: on
    entry, for the timestamp pushed and for [lastRequestTime]. *)
Record Clock := mkClock {
  now : Z;
  pushedAt : Z;
  finishedAt : Z }.

(** [waitForSlot]; the result comes with the delays slept. *)
Definition waitForSlot (clock : Clock) (rl : t) : t * list Z :=
  let requests := filter (fun t => now clock - t <? windowMs rl)%Z (requests rl) in
  let timeSinceLastRequest := (now clock - lastRequestTime rl)%Z in
  let sleeps := if (timeSinceLastRequest <? minIntervalMs rl)%Z
                then [(minIntervalMs rl - timeSinceLastRequest)%Z] else [] in
  let limited :=
    if (Z.of_nat (List.length requests) >=? maxRequests rl)%Z then
      match requests with
      | oldestRequest :: rest =>
          let waitTime := (windowMs rl - (now clock - oldestRequest))%Z in
          (rest, if (waitTime >? 0)%Z then sleeps ++ [waitTime] else sleeps)
      | [] => ([], sleeps)
      end
    else (requests, sleeps) in
  (mk (fst limited ++ [pushedAt clock]) (windowMs rl) (maxRequests rl) (minIntervalMs rl)
      (finishedAt clock),
   snd limited).

Definition getRequestCount (now : Z) (rl : t) : nat * t :=
  let requests := filter (fun t => now - t <? windowMs rl)%Z (requests rl) in
  (List.length requests,
   mk requests (windowMs rl) (maxRequests rl) (minIntervalMs rl) (lastRequestTime rl)).
End RateLimiter.

(* ================================================================== *)
(** ** src/index.ts *)

Module Main.
Record CrashRecovery := mkCrashRecovery {
  requireManualReview : bool;
  maxStateAgeMinutes : number }.

(** The warnings of [performStartupChecks], by template and arguments. *)
Inductive StartupWarning :=
| StateMayBeStale (ageMinutes : number)
| BreakerWasPaused (reason : option string)
| DailyLossLimitWasReached (loss : number).

(** [performStartupChecks]: loads the state, then collects the warnings. *)
Definition performStartupChecks (cfg : Config.t) (recovery : CrashRecovery)
  (today : string) (now : Z) (file : StateManager.StateFile) (s : PersistedState.t)
  : (bool * list StartupWarning) * PersistedState.t :=
  let s := StateManager.load today file s in
  let warnings := [] in
  let stateAge := StateManager.getStateAgeMinutes now s in
  let warnings := RiskManager.pushIf (gtb stateAge (maxStateAgeMinutes recovery))
                    (StateMayBeStale stateAge) warnings in
  let warnings := RiskManager.pushIf (StateManager.isCircuitBreakerPaused s)
                    (BreakerWasPaused (StateManager.getCircuitBreakerReason s)) warnings in
  let dailyPnL := StateManager.getDailyPnL s in
  let warnings := RiskManager.pushIf
                    (ltb dailyPnL (- Config.dailyLossLimit (Config.risk cfg)))
                    (DailyLossLimitWasReached (Qabs dailyPnL)) warnings in
  let canStart := (negb (requireManualReview recovery)
                   || match warnings with [] => true | _ => false end)%bool in
  ((canStart, warnings), s).
End Main.

(* ================================================================== *)
(** ** src/core/arbitrage-detector.ts and the profit check of
    src/core/risk-manager.ts, on IEEE doubles *)

Module Binary64.
(** A decimal read as the double nearest to it: the quotient of two
    integers below 2^53 is rounded once, as a numeric literal, [parseFloat]
    and the division of cents by 100 are. *)
Definition ofZ (z : Z) : PrimFloat.float :=
  if (z <? 0)%Z then PrimFloat.opp (PrimFloat.of_uint63 (Uint63.of_Z (- z)))
  else PrimFloat.of_uint63 (Uint63.of_Z z).

Definition ofQ (q : Q) : PrimFloat.float := PrimFloat.div (ofZ (Qnum q)) (ofZ (Zpos (Qden q))).

Definition isNaN (x : PrimFloat.float) : bool := negb (PrimFloat.eqb x x).

(** [x || d] on numbers: [0], [-0] and [NaN] are falsy. *)
Definition orElse (x d : PrimFloat.float) : PrimFloat.float :=
  if (PrimFloat.eqb x PrimFloat.zero || isNaN x)%bool then d else x.

(** [Math.min] of two numbers. *)
Definition mathMin (x y : PrimFloat.float) : PrimFloat.float :=
  if isNaN x then x
  else if isNaN y then y
  else if PrimFloat.ltb x y then x
  else if PrimFloat.ltb y x then y
  else match PrimFloat.classify x with
       | FloatClass.NZero => x
       | _ => y
       end.

Definition gtb (x y : PrimFloat.float) : bool := PrimFloat.ltb y x.
Definition geb (x y : PrimFloat.float) : bool := PrimFloat.leb y x.

Definition estimateFees (buyPlatform sellPlatform : Platform)
  (buyPrice sellPrice quantity : PrimFloat.float) : PrimFloat.float :=
  let fees := PrimFloat.zero in
  let fees := if Platform_eqb buyPlatform Polymarket
              then PrimFloat.add fees
                     (PrimFloat.mul (PrimFloat.mul buyPrice quantity) (ofQ (2 # 100)))
              else fees in
  let fees := if Platform_eqb sellPlatform Polymarket
              then PrimFloat.add fees
                     (PrimFloat.mul
                        (PrimFloat.mul (PrimFloat.sub PrimFloat.one sellPrice) quantity)
                        (ofQ (2 # 100)))
              else fees in
  let fees := if Platform_eqb sellPlatform Kalshi
              then let potentialProfit :=
                     PrimFloat.mul (PrimFloat.sub PrimFloat.one sellPrice) quantity in
                   PrimFloat.add fees
                     (mathMin (PrimFloat.mul potentialProfit (ofQ (7 # 100)))
                              (PrimFloat.mul (ofQ (7 # 100)) quantity))
              else fees in
  fees.

(** [levels[0]?.price || d] and [levels[0]?.size || d] *)
Definition bestPrice (levels : list OrderBookLevel.t) (d : PrimFloat.float) : PrimFloat.float :=
  match levels with
  | [] => d
  | l :: _ => orElse (ofQ (OrderBookLevel.price l)) d
  end.

Definition bestSize (levels : list OrderBookLevel.t) (d : PrimFloat.float) : PrimFloat.float :=
  match levels with
  | [] => d
  | l :: _ => orElse (ofQ (OrderBookLevel.size l)) d
  end.

(** The numeric fields of an opportunity. *)
Record Opportunity := mkOpportunity {
  buyPlatform : Platform;
  buyPrice : PrimFloat.float;
  buyQuantity : PrimFloat.float;
  sellPlatform : Platform;
  sellPrice : PrimFloat.float;
  sellQuantity : PrimFloat.float;
  grossSpread : PrimFloat.float;
  estimatedFees : PrimFloat.float;
  netProfit : PrimFloat.float;
  maxQuantity : PrimFloat.float;
  executionRisk : PrimFloat.float }.

Definition calculateExecutionRisk (cfg : Config.t) (quantity price : PrimFloat.float) : PrimFloat.float :=
  let depth := ofQ (Config.minLiquidityDepth (Config.risk cfg)) in
  if geb quantity (PrimFloat.mul depth (ofZ 2)) then ofQ (1 # 10)
  else if geb quantity depth then ofQ (3 # 10)
  else ofQ (6 # 10).

Definition createOpportunity (cfg : Config.t)
  (buyPlatform : Platform) (buyPrice buyQuantity : PrimFloat.float)
  (sellPlatform : Platform) (sellPrice sellQuantity : PrimFloat.float)
  (grossSpread estimatedFees maxQuantity : PrimFloat.float) : Opportunity :=
  {| buyPlatform := buyPlatform;
     buyPrice := buyPrice;
     buyQuantity := buyQuantity;
     sellPlatform := sellPlatform;
     sellPrice := sellPrice;
     sellQuantity := sellQuantity;
     grossSpread := grossSpread;
     estimatedFees := estimatedFees;
     netProfit := PrimFloat.sub grossSpread estimatedFees;
     maxQuantity := maxQuantity;
     executionRisk := calculateExecutionRisk cfg maxQuantity buyPrice |}.

(** Case 1 of [detectArbitrage]: buy on Polymarket, sell on Kalshi. *)
Definition case1 (cfg : Config.t) (polymarketBook kalshiBook : OrderBook.t)
  : option Opportunity :=
  let polyYesAsk := bestPrice (OrderBook.asks polymarketBook) PrimFloat.one in
  let kalshiYesBid := bestPrice (OrderBook.bids kalshiBook) PrimFloat.zero in
  let polyAskSize := bestSize (OrderBook.asks polymarketBook) PrimFloat.zero in
  let kalshiBidSize := bestSize (OrderBook.bids kalshiBook) PrimFloat.zero in
  if PrimFloat.ltb polyYesAsk kalshiYesBid then
    let spread := PrimFloat.sub kalshiYesBid polyYesAsk in
    let maxQuantity := mathMin polyAskSize kalshiBidSize in
    let fees := estimateFees Polymarket Kalshi polyYesAsk kalshiYesBid PrimFloat.one in
    if gtb spread
           (PrimFloat.add fees
              (PrimFloat.mul (ofQ (Config.t_minProfitThreshold (Config.trading cfg)))
                             polyYesAsk))
    then Some (createOpportunity cfg Polymarket polyYesAsk polyAskSize
                 Kalshi kalshiYesBid kalshiBidSize spread fees maxQuantity)
    else None
  else None.

(** Case 2 of [detectArbitrage]: buy on Kalshi, sell on Polymarket. *)
Definition case2 (cfg : Config.t) (polymarketBook kalshiBook : OrderBook.t)
  : option Opportunity :=
  let polyYesBid := bestPrice (OrderBook.bids polymarketBook) PrimFloat.zero in
  let kalshiYesAsk := bestPrice (OrderBook.asks kalshiBook) PrimFloat.one in
  let polyBidSize := bestSize (OrderBook.bids polymarketBook) PrimFloat.zero in
  let kalshiAskSize := bestSize (OrderBook.asks kalshiBook) PrimFloat.zero in
  if PrimFloat.ltb kalshiYesAsk polyYesBid then
    let spread := PrimFloat.sub polyYesBid kalshiYesAsk in
    let maxQuantity := mathMin kalshiAskSize polyBidSize in
    let fees := estimateFees Kalshi Polymarket kalshiYesAsk polyYesBid PrimFloat.one in
    if gtb spread
           (PrimFloat.add fees
              (PrimFloat.mul (ofQ (Config.t_minProfitThreshold (Config.trading cfg)))
                             kalshiYesAsk))
    then Some (createOpportunity cfg Kalshi kalshiYesAsk kalshiAskSize
                 Polymarket polyYesBid polyBidSize spread fees maxQuantity)
    else None
  else None.

(** The value of [opportunity] after both cases. *)
Definition candidate (cfg : Config.t) (polymarketBook kalshiBook : OrderBook.t)
  : option Opportunity :=
  let opportunity := case1 cfg polymarketBook kalshiBook in
  match case2 cfg polymarketBook kalshiBook with
  | Some newOpportunity =>
      match opportunity with
      | None => Some newOpportunity
      | Some old =>
          if gtb (netProfit newOpportunity) (netProfit old)
          then Some newOpportunity else Some old
      end
  | None => opportunity
  end.

(** What [detectArbitrage] returns, as far as its numbers go. *)
Definition detectArbitrage (cfg : Config.t) (polymarketBook kalshiBook : OrderBook.t)
  : option Opportunity :=
  match candidate cfg polymarketBook kalshiBook with
  | Some opportunity =>
      let profitPct := PrimFloat.div (netProfit opportunity) (buyPrice opportunity) in
      if PrimFloat.ltb profitPct (ofQ (Config.t_minProfitThreshold (Config.trading cfg)))
      then None
      else if PrimFloat.ltb (maxQuantity opportunity)
                (ofQ (Config.minLiquidityDepth (Config.risk cfg)))
      then None
      else Some opportunity
  | None => None
  end.

(** Check 6 of [validateTrade]:
    [opportunity.netProfit / opportunity.buyPrice < config.risk.minProfitThreshold]. *)
Definition belowProfitThreshold (cfg : Config.t) (netProfit buyPrice : PrimFloat.float) : bool :=
  PrimFloat.ltb (PrimFloat.div netProfit buyPrice)
                (ofQ (Config.minProfitThreshold (Config.risk cfg))).
End Binary64.

(* ================================================================== *)
(** * Vocabulary of the properties *)

Module FailureRuns.
Import CircuitBreaker.

(** A run of [recordFailure] calls. *)
Definition recordFailures (cfg : Config.t) (now : Z) (types : list FailureType)
  (c : Ctx) : Ctx :=
  fold_left (fun c type => recordFailure cfg now type c) types c.
End FailureRuns.

Module DetectorSpec.
Import ArbitrageDetector ArbitrageOpportunity.

(** A direction qualifies: its price inequality holds and the spread
    exceeds the fee for one contract plus the profit floor. *)
Definition qualifies (cfg : Config.t) (buyVenue sellVenue : Platform)
  (buy sell : number) : Prop :=
  buy < sell
  /\ estimateFees buyVenue sellVenue buy sell 1
     + Config.t_minProfitThreshold (Config.trading cfg) * buy < sell - buy.

(** What every opportunity built by a case of [detectArbitrage] satisfies. *)
Definition profitable (cfg : Config.t) (o : ArbitrageOpportunity.t) : Prop :=
  buyPlatform o <> sellPlatform o
  /\ grossSpread o = sellPrice o - buyPrice o
  /\ estimatedFees o = estimateFees (buyPlatform o) (sellPlatform o) (buyPrice o) (sellPrice o) 1
  /\ netProfit o = grossSpread o - estimatedFees o
  /\ qualifies cfg (buyPlatform o) (sellPlatform o) (buyPrice o) (sellPrice o).
End DetectorSpec.

(** Prices of a book lie in [0, 1], the canonical scale of the data model. *)
Definition unitPrices (b : OrderBook.t) : Prop :=
  Forall (fun l => 0 <= OrderBookLevel.price l <= 1) (OrderBook.bids b)
  /\ Forall (fun l => 0 <= OrderBookLevel.price l <= 1) (OrderBook.asks b).

Module LedgerSpec.
Import RiskManager.

(** Sum over positions of quantity times average price. *)
Definition exposure (l : list Position.t) : number :=
  fold_right (fun pos acc => Position.quantity pos * Position.avgPrice pos + acc) 0 l.

(** All positions of the ledger, event after event. *)
Definition ledger (rm : t) : list Position.t := List.concat (JsMap.values (positions rm)).

(** The writes to the ledger: [addPosition] and [updatePositions]. *)
Inductive LedgerOp :=
| ApplyFill (position : Position.t)
| Reconcile (venuePositions : list Position.t).

Definition step (rm : t) (op : LedgerOp) : t :=
  match op with
  | ApplyFill p => addPosition p rm
  | Reconcile X => updatePositions X rm
  end.

Definition run (ops : list LedgerOp) : t := fold_left step ops new.

Definition consistent (rm : t) : Prop := totalExposure rm == exposure (ledger rm).
End LedgerSpec.

Module EngineSpec.
Import ExecutionEngine.

(** [execute] gets as far as placing the two orders: the breaker is not
    paused, the risk check approves, revalidation succeeds and the mode is
    live. *)
Definition reachesFire (cfg : Config.t) (o : Oracle)
  (opportunity : ArbitrageOpportunity.t) (w : World) : Prop :=
  CircuitBreaker.isPaused (breaker w) = false
  /\ RiskCheck.approved
       (RiskManager.validateTrade cfg (breaker w) (state w) (riskManager w) opportunity
          (RiskManager.calculateOptimalQuantity cfg (riskManager w) opportunity)) = true
  /\ fst (ArbitrageDetector.validateOpportunity cfg (detectId1 o) (detectId2 o) (now o)
            (freshBooks o) opportunity (detector w)) = true
  /\ Config.mode (Config.operatingMode cfg) = Live.

(** Exactly one leg reports a fill. *)
Definition oneLegFilled (o : Oracle) : Prop :=
  succeeded (buyResult o) = negb (succeeded (sellResult o)).
End EngineSpec.

Module EngineRuns.
Import ExecutionEngine.

(** The first three steps of [execute] let the opportunity through: the
    breaker is not paused, the risk check approves and revalidation
    succeeds. *)
Definition passesChecks (cfg : Config.t) (o : Oracle)
  (opportunity : ArbitrageOpportunity.t) (w : World) : Prop :=
  CircuitBreaker.isPaused (breaker w) = false
  /\ RiskCheck.approved
       (RiskManager.validateTrade cfg (breaker w) (state w) (riskManager w) opportunity
          (RiskManager.calculateOptimalQuantity cfg (riskManager w) opportunity)) = true
  /\ fst (ArbitrageDetector.validateOpportunity cfg (detectId1 o) (detectId2 o) (now o)
            (freshBooks o) opportunity (detector w)) = true.

(** [finalQuantity] as [execute] computes it. *)
Definition finalQuantity (cfg : Config.t) (opportunity : ArbitrageOpportunity.t)
  (w : World) : number :=
  let quantity := RiskManager.calculateOptimalQuantity cfg (riskManager w) opportunity in
  match RiskCheck.suggestedQuantity
          (RiskManager.validateTrade cfg (breaker w) (state w) (riskManager w)
             opportunity quantity) with
  | Some q => orElse q quantity
  | None => quantity
  end.

(** The world after revalidation: only the detector cache may differ. *)
Definition revalidated (cfg : Config.t) (o : Oracle)
  (opportunity : ArbitrageOpportunity.t) (w : World) : World :=
  mkWorld (breaker w) (state w) (riskManager w)
    (snd (ArbitrageDetector.validateOpportunity cfg (detectId1 o) (detectId2 o) (now o)
            (freshBooks o) opportunity (detector w)))
    (trace w).

Definition isPlaceOrder (e : Event) : bool :=
  match e with EvPlaceOrder _ => true | _ => false end.

(** The two orders of an execution. *)
Definition buyOrder (opportunity : ArbitrageOpportunity.t) (q : number) : LimitOrder.t :=
  LimitOrder.mk (ArbitrageOpportunity.buyPlatform opportunity)
    (marketIdFor (ArbitrageOpportunity.buyPlatform opportunity) opportunity)
    Buy (ArbitrageOpportunity.buyPrice opportunity) q FOK.

Definition sellOrder (opportunity : ArbitrageOpportunity.t) (q : number) : LimitOrder.t :=
  LimitOrder.mk (ArbitrageOpportunity.sellPlatform opportunity)
    (marketIdFor (ArbitrageOpportunity.sellPlatform opportunity) opportunity)
    Sell (ArbitrageOpportunity.sellPrice opportunity) q FOK.

(** [t'] extends [t] by events among which no order is placed. *)
Definition quiet (t t' : list Event) : Prop :=
  exists evs, t' = t ++ evs /\ filter isPlaceOrder evs = [].
End EngineRuns.

Module InventorySpec.
(** The quantity of one venue and side among the positions of an event, as
    the loop of [getNetInventory] accumulates it. *)
Definition held (pf : Platform) (sd : YesNo) (l : list Position.t) : Q :=
  fold_left
    (fun acc pos =>
       match Position.platform pos, Position.side pos, pf, sd with
       | Polymarket, Yes, Polymarket, Yes
       | Polymarket, No, Polymarket, No
       | Kalshi, Yes, Kalshi, Yes
       | Kalshi, No, Kalshi, No => acc + Position.quantity pos
       | _, _, _, _ => acc
       end) l 0.
End InventorySpec.

Module MapSpec.
(** Keys of a [Map] are unique. *)
Definition wf {V : Type} (m : JsMap.t V) : Prop := NoDup (JsMap.keys m).
End MapSpec.

Module BookSpec.
(** The best bid of a book does not exceed its best ask (with the
    substitutes of the detector for a missing side). *)
Definition uncrossed (b : OrderBook.t) : Prop :=
  ArbitrageDetector.bestPrice (OrderBook.bids b) 0
  <= ArbitrageDetector.bestPrice (OrderBook.asks b) 1.
End BookSpec.

Module BreakerRuns.
Import CircuitBreaker.

(** The calls that reach the breaker, each with the clock reading at the
    call. *)
Inductive Op :=
| OpPause (reason : string)
| OpResume
| OpFailure (type : FailureType)
| OpSuccess.

Definition apply (cfg : Config.t) (c : Ctx) (call : Z * Op) : Ctx :=
  match snd call with
  | OpPause reason => pause (fst call) reason c
  | OpResume => resume (fst call) c
  | OpFailure type => recordFailure cfg (fst call) type c
  | OpSuccess => withBreaker c (recordSuccess (breaker c))
  end.

Definition run (cfg : Config.t) (calls : list (Z * Op)) (c : Ctx) : Ctx :=
  fold_left (apply cfg) calls c.

Definition isResume (call : Z * Op) : bool :=
  match snd call with OpResume => true | _ => false end.

(** The breaker and the persisted state tell the same flag and reason. *)
Definition agrees (c : Ctx) : Prop :=
  paused (breaker c) = PersistedState.circuitBreakerPaused (state c)
  /\ pauseReason (breaker c) = PersistedState.circuitBreakerReason (state c).

(** The alerts of a trace, oldest first. *)
Definition alerts (tr : list Event) : list AlertCall :=
  flat_map (fun e => match e with EvAlert a => [a] | _ => [] end) tr.

(** A paused breaker holds the reason of the latest alert. *)
Definition announced (c : Ctx) : Prop :=
  paused (breaker c) = true ->
  exists reason,
    pauseReason (breaker c) = Some reason
    /\ last (map Some (alerts (trace c))) None = Some (alertCircuitBreaker reason).
(** The parts of a context that a paused breaker keeps. *)
Definition frozen (c c' : Ctx) : Prop :=
  paused (breaker c') = true
  /\ pauseReason (breaker c') = pauseReason (breaker c)
  /\ pausedAt (breaker c') = pausedAt (breaker c)
  /\ state c' = state c
  /\ trace c' = trace c.

End BreakerRuns.

Module MatrixSpec.
(** Every entry of a row of the Levenshtein matrix, read from column [j]
    on, is at most the larger of its row and column indices. *)
Fixpoint boundedFrom (i j : nat) (row : list nat) : Prop :=
  match row with
  | [] => True
  | x :: rest => (x <= Nat.max i j)%nat /\ boundedFrom i (S j) rest
  end.
End MatrixSpec.

Module RetrySpec.
Import Helpers.

(** [config.retryableErrors.some(errType => message.includes(errType))] *)
Definition retryable (config : RetryPolicy) (message : string) : bool :=
  existsb (fun errType => includes message errType) (retryableErrors config).

(** The sleep after a failed attempt. *)
Definition delay (config : RetryPolicy) (attempt : nat) : number :=
  Qmin (retryDelayMs config * Qpower (backoffMultiplier config) (Z.of_nat attempt))
       (maxRetryDelayMs config).

(** Attempt [j] rejects with an error the policy retries. *)
Definition failsRetryably {A : Type} (operation : nat -> Outcome A)
  (config : RetryPolicy) (j : nat) : Prop :=
  exists message, operation j = Thrown message /\ retryable config message = true.
End RetrySpec.

Module MatchSpec.
Import EventMatcher.

(** The two titles are equal after normalization. *)
Definition exact (polymarket : PolymarketMarket.t) (kalshi : KalshiMarket.t) : bool :=
  String.eqb (Helpers.normalize (PolymarketMarket.title polymarket))
             (Helpers.normalize (KalshiMarket.title kalshi)).

Definition similarity (polymarket : PolymarketMarket.t) (kalshi : KalshiMarket.t) : number :=
  Helpers.levenshteinSimilarity (Helpers.normalize (PolymarketMarket.title polymarket))
                                (Helpers.normalize (KalshiMarket.title kalshi)).

(** The similarity reaches the fuzzy threshold and the guards that are
    switched on hold. *)
Definition fuzzy (cfg : Config.t) (polymarket : PolymarketMarket.t)
  (kalshi : KalshiMarket.t) : bool :=
  (geb (similarity polymarket kalshi) (Config.fuzzyMatchMinSimilarity (Config.matching cfg))
   && (negb (Config.requireDateValidation (Config.matching cfg))
       || Helpers.datesMatch (PolymarketMarket.endDate polymarket)
            (KalshiMarket.expirationTime kalshi) (24 * 60 * 60 * 1000))
   && (negb (Config.requireCategoryMatch (Config.matching cfg))
       || categoriesCompatible (PolymarketMarket.title polymarket)
            (KalshiMarket.category kalshi)))%bool.

Definition accepts (cfg : Config.t) (polymarket : PolymarketMarket.t)
  (kalshi : KalshiMarket.t) : bool :=
  (exact polymarket kalshi || fuzzy cfg polymarket kalshi)%bool.

(** The mapping made for an accepted pair. *)
Definition mappingFor (newId : string) (now : Z)
  (polymarket : PolymarketMarket.t) (kalshi : KalshiMarket.t) : EventMapping.t :=
  if exact polymarket kalshi
  then createMapping newId now polymarket kalshi 1 Exact
  else createMapping newId now polymarket kalshi (similarity polymarket kalshi) Fuzzy.

(** No active mapping is cached for the market. *)
Definition uncached (polymarket : PolymarketMarket.t) (m : EventMatcher.t) : Prop :=
  forall cached,
    getMapping (PolymarketMarket.conditionId polymarket) m = Some cached ->
    EventMapping.isActive cached = false.
End MatchSpec.

Module ReconnectSpec.
Import WebSocketManager.

(** The sleep after the failed attempt number [attempts]. *)
Definition delay (policy : ReconnectionPolicy) (attempts : nat) : number :=
  Qmin (initialDelayMs policy * Qpower (backoffMultiplier policy) (Z.of_nat attempts - 1))
       (maxDelayMs policy).
End ReconnectSpec.

Module LimiterRuns.
Import RateLimiter.

(** Calls of [waitForSlot] made one after the other. *)
Definition run (clocks : list Clock) (rl : t) : t :=
  fold_left (fun rl clock => fst (waitForSlot clock rl)) clocks rl.

(** The clock of one call is truthful: the call starts no earlier than the
    previous one finished, the timestamp is taken after the delays slept,
    and the last reading follows it. *)
Definition timelyCall (clock : Clock) (rl : t) : Prop :=
  (lastRequestTime rl <= now clock
   /\ now clock + fold_right Z.add 0 (snd (waitForSlot clock rl)) <= pushedAt clock
   /\ pushedAt clock <= finishedAt clock)%Z.

Fixpoint timely (clocks : list Clock) (rl : t) : Prop :=
  match clocks with
  | [] => True
  | clock :: rest => timelyCall clock rl /\ timely rest (fst (waitForSlot clock rl))
  end.

(** [b] is within one window after [t]. *)
Definition recent (window b t : Z) : bool := (b - t <? window)%Z.

(** What links the limiter to the timestamps handed out so far. *)
Definition tracks (log : list Z) (rl : t) : Prop :=
  (last log 0%Z <= lastRequestTime rl)%Z
  /\ (forall b, (last log 0%Z <= b)%Z ->
        filter (recent (windowMs rl) b) log = filter (recent (windowMs rl) b) (requests rl))
  /\ (Z.of_nat (List.length (requests rl)) <= maxRequests rl)%Z.
End LimiterRuns.

(* ================================================================== *)
(** * Scenario data: the seed scenarios of the specification and the
    inputs of the repository's tests *)

Definition freshCtx : CircuitBreaker.Ctx :=
  CircuitBreaker.mkCtx CircuitBreaker.new
    (StateManager.createInitialState "2025-01-01" 0) [].

Definition inactiveMapping : EventMapping.t :=
  {| EventMapping.id := "test-1";
     EventMapping.polymarketConditionId := "poly-1";
     EventMapping.kalshiTicker := "KALSHI-1";
     EventMapping.eventDescription := "Test";
     EventMapping.matchConfidence := 1;
     EventMapping.resolutionDate := 0;
     EventMapping.matchMethod := Manual;
     EventMapping.outcomeMapping := [];
     EventMapping.isActive := false;
     EventMapping.createdAt := 0;
     EventMapping.updatedAt := 0 |}.

(** The markets of the test "should reject exact match when dates do not
    align": same title, end dates 2025-12-31 and 2026-06-30. *)
Definition polyBitcoin : PolymarketMarket.t :=
  {| PolymarketMarket.id := "poly-1";
     PolymarketMarket.title := "Will Bitcoin reach $100k by end of 2025?";
     PolymarketMarket.endDate := 1767139200000;
     PolymarketMarket.volume := 100000;
     PolymarketMarket.conditionId := "condition-123";
     PolymarketMarket.questionId := "question-456";
     PolymarketMarket.liquidity := 50000 |}.

Definition kalshiBitcoinLate : KalshiMarket.t :=
  {| KalshiMarket.id := "kalshi-1";
     KalshiMarket.title := "Will Bitcoin reach $100k by end of 2025?";
     KalshiMarket.endDate := 1767139200000;
     KalshiMarket.volume := 80000;
     KalshiMarket.ticker := "BTC-100K-2025";
     KalshiMarket.category := "crypto";
     KalshiMarket.yesPrice := 55 # 100;
     KalshiMarket.noPrice := 45 # 100;
     KalshiMarket.openInterest := 10000;
     KalshiMarket.expirationTime := 1782777600000;
     KalshiMarket.settlementTime := 1767225600000 |}.

Definition level (p s : number) : OrderBookLevel.t := OrderBookLevel.mk p s.

Definition testMapping : EventMapping.t :=
  {| EventMapping.id := "test-mapping-1";
     EventMapping.polymarketConditionId := "poly-123";
     EventMapping.kalshiTicker := "KALSHI-TEST";
     EventMapping.eventDescription := "Test Event";
     EventMapping.matchConfidence := 1;
     EventMapping.resolutionDate := 1767139200000;
     EventMapping.matchMethod := Exact;
     EventMapping.outcomeMapping := EventMatcher.defaultOutcomeMapping;
     EventMapping.isActive := true;
     EventMapping.createdAt := 0;
     EventMapping.updatedAt := 0 |}.

(** Scenario 1 of the specification: Polymarket 0.40/0.42, Kalshi 0.50/0.52,
    100 contracts on every side. *)
Definition polyBook1 : OrderBook.t :=
  OrderBook.mk [level (40 # 100) 100] [level (42 # 100) 100] 0.
Definition kalshiBook1 : OrderBook.t :=
  OrderBook.mk [level (50 # 100) 100] [level (52 # 100) 100] 0.

(** Scenario 2: Polymarket 0.48/0.50, Kalshi 0.49/0.51. *)
Definition polyBook2 : OrderBook.t :=
  OrderBook.mk [level (48 # 100) 100] [level (50 # 100) 100] 0.
Definition kalshiBook2 : OrderBook.t :=
  OrderBook.mk [level (49 # 100) 100] [level (51 # 100) 100] 0.


(** Scenario 1 with the Polymarket bid side removed. *)
Definition polyBookNoBids : OrderBook.t :=
  OrderBook.mk [] [level (42 # 100) 100] 0.

(** The opportunity of Scenario 1, detected at time 0. *)
Definition opportunity1 : ArbitrageOpportunity.t :=
  ArbitrageDetector.createOpportunity (Config.loadConfig Live) "opp-1" 0 testMapping
    Polymarket (42 # 100) 100 Kalshi (50 # 100) 100 (8 # 100)
    (ArbitrageDetector.estimateFees Polymarket Kalshi (42 # 100) (50 # 100) 1) 100.

Definition buyFilled : OrderResult.t :=
  OrderResult.mk true "order-buy" (Some (42 # 100)) (Some 50) (Some 0) 1200 None.

Definition sellRejected : OrderResult.t :=
  OrderResult.mk false "order-sell" None None None 1200 (Some "FOK order not filled"%string).

(** Scenario 5: the books are unchanged at revalidation, the buy leg fills
    and the sell leg is rejected; the database accepts every insert. *)
Definition oracle5 : ExecutionEngine.Oracle :=
  ExecutionEngine.mkOracle 1000 (Some (polyBook1, kalshiBook1)) "id-a" "id-b"
    (Fulfilled buyFilled) (Fulfilled sellRejected)
    "pos-buy" "pos-sell" "exec-1" "dry-buy" "dry-sell" true true.

Definition world0 : ExecutionEngine.World :=
  ExecutionEngine.mkWorld CircuitBreaker.new
    (StateManager.createInitialState "2025-01-01" 0)
    RiskManager.new ArbitrageDetector.new [].

Definition sellFilled : OrderResult.t :=
  OrderResult.mk true "order-sell" (Some (50 # 100)) (Some 50) (Some (35 # 100)) 1200 None.

Definition buyRejected : OrderResult.t :=
  OrderResult.mk false "order-buy" None None None 1200 (Some "FOK order not filled"%string).

(** Scenario 1 executed: both legs fill. *)
Definition oracleBothFilled : ExecutionEngine.Oracle :=
  ExecutionEngine.mkOracle 1000 (Some (polyBook1, kalshiBook1)) "id-a" "id-b"
    (Fulfilled buyFilled) (Fulfilled sellFilled)
    "pos-buy" "pos-sell" "exec-1" "dry-buy" "dry-sell" true true.

(** Both legs rejected, the sell leg by a rejected promise. *)
Definition oracleBothRejected : ExecutionEngine.Oracle :=
  ExecutionEngine.mkOracle 1000 (Some (polyBook1, kalshiBook1)) "id-a" "id-b"
    (Fulfilled buyRejected) Rejected
    "pos-buy" "pos-sell" "exec-1" "dry-buy" "dry-sell" true true.

(** An opportunity of 300 contracts bought at 0.50 and sold at 0.60. *)
Definition largeOpportunity : ArbitrageOpportunity.t :=
  ArbitrageDetector.createOpportunity (Config.loadConfig Live) "opp-2" 0 testMapping
    Polymarket (50 # 100) 300 Kalshi (60 # 100) 300 (10 # 100) (4 # 100) 300.

(** A matcher holding the mapping of the tests, and a scan that fetches
    the books of the first detector scenario for it. *)
Definition scanMatcher1 : EventMatcher.t :=
  EventMatcher.mk JsMap.empty
    (JsMap.set (EventMapping.polymarketConditionId testMapping) testMapping JsMap.empty).

Definition scanOracle1 : ArbitrageDetector.ScanOracle :=
  {| ArbitrageDetector.scanBooks := fun _ => Some (polyBook1, kalshiBook1);
     ArbitrageDetector.scanIds := fun _ => ("id1", "id2")%string;
     ArbitrageDetector.scanNow := fun _ => 0%Z |}.

(** The [api] retry policy of the shipped configuration, and an operation
    that times out twice before it resolves. *)
Definition apiRetryPolicy : Helpers.RetryPolicy :=
  {| Helpers.maxRetries := 3;
     Helpers.retryDelayMs := 1000;
     Helpers.backoffMultiplier := 2;
     Helpers.maxRetryDelayMs := 8000;
     Helpers.retryableErrors :=
       ["NETWORK_TIMEOUT"; "RATE_LIMIT_SOFT"; "CONNECTION_RESET";
        "HTTP_500"; "HTTP_502"; "HTTP_503"; "HTTP_504"]%string |}.

Definition flakyOperation (attempt : nat) : Helpers.Outcome nat :=
  match attempt with
  | 0%nat | 1%nat => Helpers.Thrown "NETWORK_TIMEOUT after 5000ms"%string
  | _ => Helpers.Resolved 42%nat
  end.

(** A Kalshi market on another subject, listed before the Bitcoin one. *)
Definition kalshiElection : KalshiMarket.t :=
  {| KalshiMarket.id := "kalshi-2";
     KalshiMarket.title := "Who will win the 2028 presidential election?";
     KalshiMarket.endDate := 1767139200000;
     KalshiMarket.volume := 80000;
     KalshiMarket.ticker := "PRES-2028";
     KalshiMarket.category := "politics";
     KalshiMarket.yesPrice := 55 # 100;
     KalshiMarket.noPrice := 45 # 100;
     KalshiMarket.openInterest := 10000;
     KalshiMarket.expirationTime := 1782777600000;
     KalshiMarket.settlementTime := 1767225600000 |}.

Definition freshMatcher : EventMatcher.Ctx := EventMatcher.mkCtx EventMatcher.new [].

(** The crash-recovery settings of the shipped configuration. *)
Definition crashRecovery : Main.CrashRecovery :=
  {| Main.requireManualReview := true; Main.maxStateAgeMinutes := 60 |}.

(** A state saved on 2025-01-01 after a loss of 25 dollars. *)
Definition lossState : PersistedState.t :=
  StateManager.updateDailyPnL (- 25) (StateManager.createInitialState "2025-01-01" 0).

(** The reconnection policy of the shipped configuration. *)
Definition reconnectionPolicy : WebSocketManager.ReconnectionPolicy :=
  {| WebSocketManager.maxAttempts := 5;
     WebSocketManager.initialDelayMs := 1000;
     WebSocketManager.maxDelayMs := 30000;
     WebSocketManager.backoffMultiplier := 2 |}.

(** A limiter of 2 requests per second, at least 100 ms apart, and three
    calls arriving at 1000, 1050 and 1300 ms. *)
Definition limiter2 : RateLimiter.t := RateLimiter.new 2 1 100.

Definition threeCalls : list RateLimiter.Clock :=
  [ RateLimiter.mkClock 1000 1000 1000;
    RateLimiter.mkClock 1050 1100 1100;
    RateLimiter.mkClock 1300 2000 2000 ]%Z.





(* ================================================================== *)
(** * Properties *)

(** ** Comparisons *)

Lemma ltb_lt (x y : Q) : ltb x y = true <-> x < y.
Proof.
  unfold ltb. rewrite negb_true_iff, <- not_true_iff_false, Qle_bool_iff.
  split; [apply Qnot_le_lt | apply Qlt_not_le].
Qed.

Lemma ltb_ge (x y : Q) : ltb x y = false <-> y <= x.
Proof.
  unfold ltb. rewrite negb_false_iff. apply Qle_bool_iff.
Qed.

Lemma geb_le (x y : Q) : geb x y = true <-> y <= x.
Proof. unfold geb, leb. apply Qle_bool_iff. Qed.

Lemma geb_lt (x y : Q) : geb x y = false <-> x < y.
Proof.
  unfold geb, leb. rewrite <- not_true_iff_false, Qle_bool_iff.
  split; [apply Qnot_le_lt | apply Qlt_not_le].
Qed.

Lemma gtb_lt (x y : Q) : gtb x y = true <-> y < x.
Proof. unfold gtb. apply ltb_lt. Qed.

Lemma gtb_le (x y : Q) : gtb x y = false <-> x <= y.
Proof. unfold gtb. apply ltb_ge. Qed.

Lemma Qnat_le (n m : nat) : (n <= m)%nat -> Qnat n <= Qnat m.
Proof.
  intros H. unfold Qnat. rewrite <- Zle_Qle. lia.
Qed.

Lemma Qnat_S_ge_1 (n : nat) : 1 <= Qnat (S n).
Proof.
  change 1 with (Qnat 1). apply Qnat_le. lia.
Qed.

(* ================================================================== *)
(** ** Circuit breaker *)

Module CircuitBreakerFacts.
Import CircuitBreaker FailureRuns.

Lemma pause_paused now reason c : paused (breaker (pause now reason c)) = true.
Proof.
  unfold pause. destruct (paused (breaker c)) eqn:E; simpl; auto.
Qed.

Lemma pause_when_paused now reason c :
  paused (breaker c) = true -> pause now reason c = c.
Proof.
  intros H. unfold pause. now rewrite H.
Qed.

Lemma pause_counters now reason c :
  consecutiveFailures (breaker (pause now reason c)) = consecutiveFailures (breaker c)
  /\ asymmetricExecutions (breaker (pause now reason c)) = asymmetricExecutions (breaker c).
Proof.
  unfold pause. destruct (paused (breaker c)); simpl; auto.
Qed.

(** Nothing in [recordFailure] clears the flag. *)
Lemma recordFailure_stays_paused cfg now type c :
  paused (breaker c) = true ->
  paused (breaker (recordFailure cfg now type c)) = true.
Proof.
  intros H.
  assert (step : forall (b : bool) r c0,
             paused (breaker c0) = true ->
             paused (breaker (if b then pause now r c0 else c0)) = true).
  { intros [] r c0 H0; [rewrite pause_when_paused|]; auto. }
  unfold recordFailure. cbv zeta. repeat apply step.
  destruct (FailureType_eqb type ASYMMETRIC_EXECUTION); simpl; exact H.
Qed.

Lemma recordFailures_stay_paused cfg now types c :
  paused (breaker c) = true ->
  paused (breaker (recordFailures cfg now types c)) = true.
Proof.
  revert c. induction types as [|ty types IH]; intros c H; simpl; auto.
  apply IH. now apply recordFailure_stays_paused.
Qed.

(** One [RATE_LIMIT_EXCEEDED] failure on a running breaker. *)
Lemma recordFailure_rate_limit cfg now c :
  paused (breaker c) = false ->
  Qnat (asymmetricExecutions (breaker c)) < Config.maxAsymmetricExecutions (Config.risk cfg) ->
  let c' := recordFailure cfg now RATE_LIMIT_EXCEEDED c in
  consecutiveFailures (breaker c') = S (consecutiveFailures (breaker c))
  /\ asymmetricExecutions (breaker c') = asymmetricExecutions (breaker c)
  /\ paused (breaker c') =
       geb (Qnat (S (consecutiveFailures (breaker c))))
           (Config.maxConsecutiveFailures (Config.risk cfg)).
Proof.
  intros Hp Ha. unfold recordFailure. simpl.
  destruct (geb (Qnat (S (consecutiveFailures (breaker c)))) _) eqn:E1.
  - pose proof (pause_counters now
      (decimal (S (consecutiveFailures (breaker c))) ++ " consecutive failures")
      (withBreaker c (mk (paused (breaker c)) (pauseReason (breaker c))
                         (pausedAt (breaker c)) (S (consecutiveFailures (breaker c)))
                         (asymmetricExecutions (breaker c))))) as [Hc Hs].
    simpl in Hc, Hs.
    match goal with
    | |- context [geb (Qnat (asymmetricExecutions (breaker ?p))) ?m] =>
        assert (Hg : geb (Qnat (asymmetricExecutions (breaker p))) m = false)
          by (apply geb_lt; rewrite Hs; exact Ha);
        rewrite Hg
    end.
    rewrite Hc, Hs. repeat split. apply pause_paused.
  - simpl.
    assert (Hg : geb (Qnat (asymmetricExecutions (breaker c)))
                     (Config.maxAsymmetricExecutions (Config.risk cfg)) = false)
      by (apply geb_lt; exact Ha).
    rewrite Hg. simpl. auto.
Qed.
End CircuitBreakerFacts.

(** C6, as stated, fails on the code: with the shipped configuration a fresh
    breaker is paused by three [RATE_LIMIT_EXCEEDED] failures, because
    [recordFailure] counts every failure type in [consecutiveFailures]. *)
Lemma C6_rate_limit_counterexample :
  CircuitBreaker.paused (CircuitBreaker.breaker freshCtx) = false
  /\ CircuitBreaker.paused
       (CircuitBreaker.breaker
          (FailureRuns.recordFailures (Config.loadConfig Live) 0
             [RATE_LIMIT_EXCEEDED; RATE_LIMIT_EXCEEDED; RATE_LIMIT_EXCEEDED] freshCtx))
     = true
  /\ CircuitBreaker.pauseReason
       (CircuitBreaker.breaker
          (FailureRuns.recordFailures (Config.loadConfig Live) 0
             [RATE_LIMIT_EXCEEDED; RATE_LIMIT_EXCEEDED; RATE_LIMIT_EXCEEDED] freshCtx))
     = Some "3 consecutive failures"%string.
Proof. repeat split. Qed.

(** C6 (amended): [RATE_LIMIT_EXCEEDED] has no pause rule of its own, but it
    is counted as a consecutive failure.  From a running breaker whose
    asymmetric count is below its maximum, a run of [n] such failures leaves
    the breaker running exactly when [n = 0] or the consecutive-failure
    counter, advanced by [n], is still below [maxConsecutiveFailures]. *)
Theorem C6_rate_limit_pauses_only_at_threshold :
  forall (cfg : Config.t) (now : Z) (n : nat) (c : CircuitBreaker.Ctx),
    CircuitBreaker.paused (CircuitBreaker.breaker c) = false ->
    Qnat (CircuitBreaker.asymmetricExecutions (CircuitBreaker.breaker c))
      < Config.maxAsymmetricExecutions (Config.risk cfg) ->
    (CircuitBreaker.paused
       (CircuitBreaker.breaker
          (FailureRuns.recordFailures cfg now (repeat RATE_LIMIT_EXCEEDED n) c))
     = false
     <-> n = 0%nat
         \/ Qnat (CircuitBreaker.consecutiveFailures (CircuitBreaker.breaker c) + n)
            < Config.maxConsecutiveFailures (Config.risk cfg)).
Proof.
  intros cfg now n. induction n as [|n IH]; intros c Hp Ha.
  - simpl. split; auto.
  - simpl repeat. unfold FailureRuns.recordFailures. simpl fold_left.
    fold (FailureRuns.recordFailures cfg now (repeat RATE_LIMIT_EXCEEDED n)
            (CircuitBreaker.recordFailure cfg now RATE_LIMIT_EXCEEDED c)).
    destruct (CircuitBreakerFacts.recordFailure_rate_limit cfg now c Hp Ha)
      as (Hc & Hs & Hpaused).
    set (c' := CircuitBreaker.recordFailure cfg now RATE_LIMIT_EXCEEDED c) in *.
    destruct (CircuitBreaker.paused (CircuitBreaker.breaker c')) eqn:E.
    + rewrite CircuitBreakerFacts.recordFailures_stay_paused by exact E.
      symmetry in Hpaused. apply geb_le in Hpaused.
      split; [discriminate|]. intros [H|H]; [discriminate|].
      exfalso. apply (Qlt_not_le _ _ H).
      eapply Qle_trans; [exact Hpaused|]. apply Qnat_le. lia.
    + symmetry in Hpaused. apply geb_lt in Hpaused.
      rewrite (IH c' E) by (rewrite Hs; exact Ha).
      rewrite Hc. replace (S (CircuitBreaker.consecutiveFailures (CircuitBreaker.breaker c)) + n)%nat
        with (CircuitBreaker.consecutiveFailures (CircuitBreaker.breaker c) + S n)%nat by lia.
      split.
      * intros [->|H]; right; [|exact H].
        replace (CircuitBreaker.consecutiveFailures (CircuitBreaker.breaker c) + 1)%nat
          with (S (CircuitBreaker.consecutiveFailures (CircuitBreaker.breaker c))) by lia.
        exact Hpaused.
      * intros [H|H]; [discriminate|]. right. exact H.
Qed.

(** Two rate-limit failures on a fresh breaker under the shipped
    configuration: still running. *)
Lemma C6_rate_limit_witness :
  CircuitBreaker.paused
    (CircuitBreaker.breaker
       (FailureRuns.recordFailures (Config.loadConfig Live) 0
          (repeat RATE_LIMIT_EXCEEDED 2) freshCtx))
  = false.
Proof.
  apply (C6_rate_limit_pauses_only_at_threshold (Config.loadConfig Live) 0 2 freshCtx).
  - reflexivity.
  - reflexivity.
  - right. reflexivity.
Defined.

(** C7, as stated, fails on the code: [resume] returns at once on a breaker
    that is not paused, so a failure counted before it stays counted. *)
Lemma C7_resume_counterexample :
  let c := CircuitBreaker.recordFailure (Config.loadConfig Live) 0 EXECUTION_FAILURE freshCtx in
  CircuitBreaker.paused (CircuitBreaker.breaker c) = false
  /\ CircuitBreaker.consecutiveFailures
       (CircuitBreaker.breaker (CircuitBreaker.resume 1 c)) = 1%nat.
Proof. split; reflexivity. Qed.

(** C7 (amended): on a paused breaker [pause(r)] changes nothing (the stored
    reason and timestamp in particular) and [resume()] clears the flag, the
    reason, the timestamp and both counters; on a breaker that is not paused
    [resume()] changes nothing. *)
Theorem C7_pause_idempotent_resume_clears :
  forall (now : Z) (r : string) (c : CircuitBreaker.Ctx),
    (CircuitBreaker.paused (CircuitBreaker.breaker c) = true ->
       CircuitBreaker.pause now r c = c
       /\ CircuitBreaker.pauseReason (CircuitBreaker.breaker (CircuitBreaker.pause now r c))
          = CircuitBreaker.pauseReason (CircuitBreaker.breaker c)
       /\ CircuitBreaker.pausedAt (CircuitBreaker.breaker (CircuitBreaker.pause now r c))
          = CircuitBreaker.pausedAt (CircuitBreaker.breaker c)
       /\ CircuitBreaker.breaker (CircuitBreaker.resume now c)
          = CircuitBreaker.mk false None None 0 0)
    /\ (CircuitBreaker.paused (CircuitBreaker.breaker c) = false ->
          CircuitBreaker.resume now c = c).
Proof.
  intros now r c. split; intros H.
  - rewrite (CircuitBreakerFacts.pause_when_paused now r c H).
    repeat split. unfold CircuitBreaker.resume. now rewrite H.
  - unfold CircuitBreaker.resume. now rewrite H.
Qed.

(** A breaker paused at time 5 for "First pause", then paused again and
    resumed at time 9; and [resume] on a fresh breaker. *)
Lemma C7_pause_idempotent_witness :
  let c := CircuitBreaker.pause 5 "First pause" freshCtx in
  CircuitBreaker.pauseReason (CircuitBreaker.breaker (CircuitBreaker.pause 9 "Second pause" c))
  = Some "First pause"%string
  /\ CircuitBreaker.pausedAt (CircuitBreaker.breaker (CircuitBreaker.pause 9 "Second pause" c))
     = Some 5%Z
  /\ CircuitBreaker.breaker (CircuitBreaker.resume 9 c) = CircuitBreaker.mk false None None 0 0
  /\ CircuitBreaker.resume 9 freshCtx = freshCtx.
Proof.
  intros c.
  destruct (C7_pause_idempotent_resume_clears 9 "Second pause" c) as [Hpaused _].
  destruct (Hpaused eq_refl) as (_ & Hr & Ht & Hres).
  destruct (C7_pause_idempotent_resume_clears 9 "Second pause" freshCtx) as [_ Hrunning].
  rewrite Hr, Ht, Hres, (Hrunning eq_refl). repeat split.
Defined.

(* ================================================================== *)
(** ** Event matcher *)

(** C2, as stated, fails on the code: [canTradeOnMapping] never reads
    [isActive], so an inactive mapping of confidence 1 is tradable. *)
Lemma C2_inactive_counterexample :
  EventMapping.isActive inactiveMapping = false
  /\ EventMatcher.canTradeOnMapping (Config.loadConfig Live) inactiveMapping = true.
Proof. split; reflexivity. Qed.

(** C2 (amended): [canTradeOnMapping(m)] is true exactly when the confidence
    of [m] is at least [minConfidenceThreshold], whatever [m.isActive] is. *)
Theorem C2_can_trade_iff_confidence :
  forall (cfg : Config.t) (m : EventMapping.t),
    EventMatcher.canTradeOnMapping cfg m = true
    <-> Config.minConfidenceThreshold (Config.matching cfg) <= EventMapping.matchConfidence m.
Proof.
  intros cfg m. unfold EventMatcher.canTradeOnMapping.
  destruct (ltb (EventMapping.matchConfidence m)
                (Config.minConfidenceThreshold (Config.matching cfg))) eqn:E.
  - apply ltb_lt in E. split; [discriminate|].
    intros H. exfalso. exact (Qlt_not_le _ _ E H).
  - apply ltb_ge in E. split; auto.
Qed.

(** C3 does not hold of the code: on the input of the repository's own test
    the dates are 181 days apart and date validation is on, yet
    [findKalshiEquivalent] returns an exact mapping of confidence 1 and
    caches it.  The date guard sits inside the fuzzy branch only. *)
Theorem C3_exact_match_skips_date_guard :
  let cfg := Config.loadConfig Live in
  let c := EventMatcher.mkCtx EventMatcher.new [] in
  let r := EventMatcher.findKalshiEquivalent cfg "m-1" 0 true polyBitcoin [kalshiBitcoinLate] c in
  Config.requireDateValidation (Config.matching cfg) = true
  /\ Helpers.normalize (PolymarketMarket.title polyBitcoin)
     = Helpers.normalize (KalshiMarket.title kalshiBitcoinLate)
  /\ Helpers.datesMatch (PolymarketMarket.endDate polyBitcoin)
       (KalshiMarket.expirationTime kalshiBitcoinLate) (24 * 60 * 60 * 1000) = false
  /\ fst r = Some (EventMatcher.createMapping "m-1" 0 polyBitcoin kalshiBitcoinLate 1 Exact)
  /\ EventMatcher.getMapping "condition-123" (EventMatcher.matcher (snd r))
     = Some (EventMatcher.createMapping "m-1" 0 polyBitcoin kalshiBitcoinLate 1 Exact).
Proof. vm_compute. repeat split. Qed.

(** The same holds for every first candidate with an equal normalized title:
    the exact branch returns before any guard is consulted. *)
Lemma exact_match_returns_unconditionally :
  forall cfg newId now dbOk polymarket kalshi rest c,
    EventMatcher.getMapping (PolymarketMarket.conditionId polymarket) (EventMatcher.matcher c)
      = None ->
    Helpers.normalize (PolymarketMarket.title polymarket)
      = Helpers.normalize (KalshiMarket.title kalshi) ->
    fst (EventMatcher.findKalshiEquivalent cfg newId now dbOk polymarket (kalshi :: rest) c)
    = Some (EventMatcher.createMapping newId now polymarket kalshi 1 Exact).
Proof.
  intros cfg newId now dbOk polymarket kalshi rest c Hc Ht.
  unfold EventMatcher.findKalshiEquivalent, EventMatcher.getMapping in *.
  rewrite Hc. simpl. rewrite Ht, String.eqb_refl. reflexivity.
Qed.

(* ================================================================== *)
(** ** Arbitrage detector *)

Module DetectorFacts.
Import ArbitrageDetector ArbitrageOpportunity DetectorSpec.

Lemma case1_spec cfg newId now pb kb m :
  let ask := bestPrice (OrderBook.asks pb) 1 in
  let bid := bestPrice (OrderBook.bids kb) 0 in
  (qualifies cfg Polymarket Kalshi ask bid ->
     case1 cfg newId now pb kb m
     = Some (createOpportunity cfg newId now m
               Polymarket ask (bestSize (OrderBook.asks pb) 0)
               Kalshi bid (bestSize (OrderBook.bids kb) 0)
               (bid - ask) (estimateFees Polymarket Kalshi ask bid 1)
               (Qmin (bestSize (OrderBook.asks pb) 0) (bestSize (OrderBook.bids kb) 0))))
  /\ (~ qualifies cfg Polymarket Kalshi ask bid -> case1 cfg newId now pb kb m = None).
Proof.
  intros ask bid. unfold case1, qualifies. fold ask. fold bid.
  destruct (ltb ask bid) eqn:E1.
  - destruct (gtb (bid - ask) _) eqn:E2.
    + split; [reflexivity|]. intros H. exfalso. apply H.
      split; [now apply ltb_lt | now apply gtb_lt].
    + split; [|reflexivity]. intros [_ H]. apply gtb_lt in H. congruence.
  - split; [|reflexivity]. intros [H _]. apply ltb_lt in H. congruence.
Qed.

Lemma case2_spec cfg newId now pb kb m :
  let ask := bestPrice (OrderBook.asks kb) 1 in
  let bid := bestPrice (OrderBook.bids pb) 0 in
  (qualifies cfg Kalshi Polymarket ask bid ->
     case2 cfg newId now pb kb m
     = Some (createOpportunity cfg newId now m
               Kalshi ask (bestSize (OrderBook.asks kb) 0)
               Polymarket bid (bestSize (OrderBook.bids pb) 0)
               (bid - ask) (estimateFees Kalshi Polymarket ask bid 1)
               (Qmin (bestSize (OrderBook.asks kb) 0) (bestSize (OrderBook.bids pb) 0))))
  /\ (~ qualifies cfg Kalshi Polymarket ask bid -> case2 cfg newId now pb kb m = None).
Proof.
  intros ask bid. unfold case2, qualifies. fold ask. fold bid.
  destruct (ltb ask bid) eqn:E1.
  - destruct (gtb (bid - ask) _) eqn:E2.
    + split; [reflexivity|]. intros H. exfalso. apply H.
      split; [now apply ltb_lt | now apply gtb_lt].
    + split; [|reflexivity]. intros [_ H]. apply gtb_lt in H. congruence.
  - split; [|reflexivity]. intros [H _]. apply ltb_lt in H. congruence.
Qed.

Lemma qualifies_dec cfg bv sv buy sell :
  qualifies cfg bv sv buy sell \/ ~ qualifies cfg bv sv buy sell.
Proof.
  unfold qualifies.
  destruct (Qlt_le_dec buy sell) as [H1|H1].
  - destruct (Qlt_le_dec (estimateFees bv sv buy sell 1
                          + Config.t_minProfitThreshold (Config.trading cfg) * buy)
                         (sell - buy)) as [H2|H2].
    + left; auto.
    + right. intros [_ H]. exact (Qlt_not_le _ _ H H2).
  - right. intros [H _]. exact (Qlt_not_le _ _ H H1).
Qed.

Lemma case1_profitable cfg newId now pb kb m o :
  case1 cfg newId now pb kb m = Some o -> profitable cfg o.
Proof.
  intros H. destruct (case1_spec cfg newId now pb kb m) as [Hq Hn].
  destruct (qualifies_dec cfg Polymarket Kalshi
              (bestPrice (OrderBook.asks pb) 1) (bestPrice (OrderBook.bids kb) 0)) as [Q|Q].
  - rewrite (Hq Q) in H. injection H as <-. unfold profitable; simpl.
    repeat split; try discriminate; apply Q.
  - rewrite (Hn Q) in H. discriminate.
Qed.

Lemma case2_profitable cfg newId now pb kb m o :
  case2 cfg newId now pb kb m = Some o -> profitable cfg o.
Proof.
  intros H. destruct (case2_spec cfg newId now pb kb m) as [Hq Hn].
  destruct (qualifies_dec cfg Kalshi Polymarket
              (bestPrice (OrderBook.asks kb) 1) (bestPrice (OrderBook.bids pb) 0)) as [Q|Q].
  - rewrite (Hq Q) in H. injection H as <-. unfold profitable; simpl.
    repeat split; try discriminate; apply Q.
  - rewrite (Hn Q) in H. discriminate.
Qed.

(** The value of [opportunity] before the final checks, from the two cases. *)
Lemma candidate_cases cfg id1 id2 now pb kb m :
  candidate cfg id1 id2 now pb kb m
  = match case1 cfg id1 now pb kb m, case2 cfg id2 now pb kb m with
    | Some o1, Some o2 => if gtb (netProfit o2) (netProfit o1) then Some o2 else Some o1
    | Some o1, None => Some o1
    | None, Some o2 => Some o2
    | None, None => None
    end.
Proof.
  unfold candidate.
  destruct (case1 cfg id1 now pb kb m), (case2 cfg id2 now pb kb m); reflexivity.
Qed.

Lemma candidate_profitable cfg id1 id2 now pb kb m o :
  candidate cfg id1 id2 now pb kb m = Some o -> profitable cfg o.
Proof.
  rewrite candidate_cases.
  destruct (case1 cfg id1 now pb kb m) as [o1|] eqn:E1;
    destruct (case2 cfg id2 now pb kb m) as [o2|] eqn:E2; try discriminate.
  - destruct (gtb (netProfit o2) (netProfit o1)); intros H; injection H as <-.
    + eapply case2_profitable; eauto.
    + eapply case1_profitable; eauto.
  - intros H; injection H as <-. eapply case1_profitable; eauto.
  - intros H; injection H as <-. eapply case2_profitable; eauto.
Qed.

(** [detectArbitrage] returns its candidate or nothing. *)
Lemma detectArbitrage_result cfg id1 id2 now pb kb m d :
  fst (detectArbitrage cfg id1 id2 now pb kb m d)
  = match candidate cfg id1 id2 now pb kb m with
    | Some o =>
        if (divLt (netProfit o) (buyPrice o) (Config.t_minProfitThreshold (Config.trading cfg))
            || ltb (maxQuantity o) (Config.minLiquidityDepth (Config.risk cfg)))%bool
        then None else Some o
    | None => None
    end.
Proof.
  unfold detectArbitrage.
  destruct (candidate cfg id1 id2 now pb kb m) as [o|]; [|reflexivity].
  destruct (divLt _ _ _); [reflexivity|].
  destruct (ltb _ _); reflexivity.
Qed.
End DetectorFacts.

(** In decimal arithmetic the algorithm of [detectArbitrage] is the one the
    specification asks for: an opportunity returned buys and sells on
    different venues, its spread [sellPrice - buyPrice] strictly exceeds the
    estimated fees plus [minProfitThreshold * buyPrice], and its quantity
    reaches [minLiquidityDepth]; when neither direction satisfies the
    inequality on the best prices, the result is [null]. *)
Theorem decimal_detector_emits_only_profitable :
  forall (cfg : Config.t) (id1 id2 : string) (now : Z)
         (pb kb : OrderBook.t) (m : EventMapping.t) (d : ArbitrageDetector.t),
    (forall o,
       fst (ArbitrageDetector.detectArbitrage cfg id1 id2 now pb kb m d) = Some o ->
       ArbitrageOpportunity.buyPlatform o <> ArbitrageOpportunity.sellPlatform o
       /\ ArbitrageOpportunity.grossSpread o
          = ArbitrageOpportunity.sellPrice o - ArbitrageOpportunity.buyPrice o
       /\ ArbitrageOpportunity.estimatedFees o
          = ArbitrageDetector.estimateFees
              (ArbitrageOpportunity.buyPlatform o) (ArbitrageOpportunity.sellPlatform o)
              (ArbitrageOpportunity.buyPrice o) (ArbitrageOpportunity.sellPrice o) 1
       /\ ArbitrageOpportunity.estimatedFees o
          + Config.t_minProfitThreshold (Config.trading cfg) * ArbitrageOpportunity.buyPrice o
          < ArbitrageOpportunity.sellPrice o - ArbitrageOpportunity.buyPrice o
       /\ Config.minLiquidityDepth (Config.risk cfg) <= ArbitrageOpportunity.maxQuantity o)
    /\ (~ DetectorSpec.qualifies cfg Polymarket Kalshi
            (ArbitrageDetector.bestPrice (OrderBook.asks pb) 1)
            (ArbitrageDetector.bestPrice (OrderBook.bids kb) 0) ->
        ~ DetectorSpec.qualifies cfg Kalshi Polymarket
            (ArbitrageDetector.bestPrice (OrderBook.asks kb) 1)
            (ArbitrageDetector.bestPrice (OrderBook.bids pb) 0) ->
        fst (ArbitrageDetector.detectArbitrage cfg id1 id2 now pb kb m d) = None).
Proof.
  intros cfg id1 id2 now pb kb m d. rewrite DetectorFacts.detectArbitrage_result. split.
  - intros o H.
    destruct (ArbitrageDetector.candidate cfg id1 id2 now pb kb m) as [o'|] eqn:E;
      [|discriminate].
    destruct (divLt _ _ _) eqn:E1; [discriminate|].
    destruct (ltb _ _) eqn:E2; [discriminate|].
    simpl in H. injection H as <-.
    destruct (DetectorFacts.candidate_profitable _ _ _ _ _ _ _ _ E)
      as (Hv & Hg & Hf & _ & _ & Hq).
    repeat split; auto.
    + rewrite Hf. exact Hq.
    + now apply ltb_ge.
  - intros H1 H2. rewrite DetectorFacts.candidate_cases.
    rewrite (proj2 (DetectorFacts.case1_spec cfg id1 now pb kb m) H1).
    rewrite (proj2 (DetectorFacts.case2_spec cfg id2 now pb kb m) H2).
    reflexivity.
Qed.

(** Scenario 1 yields an opportunity with the stated properties; Scenario 2
    yields none. *)
Lemma decimal_detector_witness :
  (exists o,
     fst (ArbitrageDetector.detectArbitrage (Config.loadConfig Live) "id1" "id2" 0
            polyBook1 kalshiBook1 testMapping ArbitrageDetector.new) = Some o
     /\ ArbitrageOpportunity.buyPlatform o <> ArbitrageOpportunity.sellPlatform o
     /\ ArbitrageOpportunity.estimatedFees o
        + Config.t_minProfitThreshold (Config.trading (Config.loadConfig Live))
          * ArbitrageOpportunity.buyPrice o
        < ArbitrageOpportunity.sellPrice o - ArbitrageOpportunity.buyPrice o
     /\ Config.minLiquidityDepth (Config.risk (Config.loadConfig Live))
        <= ArbitrageOpportunity.maxQuantity o)
  /\ fst (ArbitrageDetector.detectArbitrage (Config.loadConfig Live) "id1" "id2" 0
            polyBook2 kalshiBook2 testMapping ArbitrageDetector.new) = None.
Proof.
  split.
  - eexists. split; [reflexivity|].
    destruct (decimal_detector_emits_only_profitable (Config.loadConfig Live) "id1" "id2" 0
                polyBook1 kalshiBook1 testMapping ArbitrageDetector.new) as [Hsome _].
    destruct (Hsome _ eq_refl) as (Hv & _ & _ & Hs & Hl).
    repeat split; assumption.
  - apply (decimal_detector_emits_only_profitable (Config.loadConfig Live) "id1" "id2" 0
             polyBook2 kalshiBook2 testMapping ArbitrageDetector.new).
    + intros [_ H]. vm_compute in H. discriminate.
    + intros [H _]. vm_compute in H. discriminate.
Defined.


(** The profit check of [validateTrade] parts from its decimal reading in
    the same way: a net profit of 0.0162 at a buy price of 0.54 is exactly
    3% in decimals and passes, while on doubles the quotient is
    0.029999999999999995 and the trade is rejected. *)
Lemma profit_check_rounds_below_threshold :
  divLt (162 # 10000) (54 # 100)
        (Config.minProfitThreshold (Config.risk (Config.loadConfig Live))) = false
  /\ Binary64.belowProfitThreshold (Config.loadConfig Live)
       (Binary64.ofQ (162 # 10000)) (Binary64.ofQ (54 # 100)) = true.
Proof. split; vm_compute; reflexivity. Qed.




Module DegenerateBooks.
Import ArbitrageDetector.

Lemma bestBid_range levels :
  Forall (fun l => 0 <= OrderBookLevel.price l <= 1) levels ->
  0 <= bestPrice levels 0 <= 1.
Proof.
  intros H. destruct levels as [|l rest]; simpl.
  - split; [apply Qle_refl | discriminate].
  - inversion H as [|? ? Hl _]; subst. unfold orElse.
    destruct (Qeq_bool (OrderBookLevel.price l) 0); [|exact Hl].
    split; [apply Qle_refl | discriminate].
Qed.

Lemma bestAsk_range levels :
  Forall (fun l => 0 <= OrderBookLevel.price l <= 1) levels ->
  0 < bestPrice levels 1 <= 1.
Proof.
  intros H. destruct levels as [|l rest]; simpl.
  - split; [reflexivity | apply Qle_refl].
  - inversion H as [|? ? [Hl Hu] _]; subst. unfold orElse.
    destruct (Qeq_bool (OrderBookLevel.price l) 0) eqn:E.
    + split; [reflexivity | apply Qle_refl].
    + apply Qeq_bool_neq in E. split; [|exact Hu].
      apply Qle_lteq in Hl. destruct Hl as [Hl|Hl]; [exact Hl|].
      exfalso. apply E. symmetry. exact Hl.
Qed.

(** A direction with a missing side does not pass its price test. *)
Lemma case1_missing_side cfg newId now pb kb m :
  unitPrices pb -> unitPrices kb ->
  OrderBook.asks pb = [] \/ OrderBook.bids kb = [] ->
  case1 cfg newId now pb kb m = None.
Proof.
  intros [_ Hpa] [Hkb _] Hmiss.
  apply (DetectorFacts.case1_spec cfg newId now pb kb m). intros [Hlt _].
  pose proof (bestAsk_range _ Hpa) as [Ha0 Ha1].
  pose proof (bestBid_range _ Hkb) as [Hb0 Hb1].
  destruct Hmiss as [E|E]; rewrite E in *; simpl in *; lra.
Qed.

Lemma case2_missing_side cfg newId now pb kb m :
  unitPrices pb -> unitPrices kb ->
  OrderBook.asks kb = [] \/ OrderBook.bids pb = [] ->
  case2 cfg newId now pb kb m = None.
Proof.
  intros [Hpb _] [_ Hka] Hmiss.
  apply (DetectorFacts.case2_spec cfg newId now pb kb m). intros [Hlt _].
  pose proof (bestAsk_range _ Hka) as [Ha0 Ha1].
  pose proof (bestBid_range _ Hpb) as [Hb0 Hb1].
  destruct Hmiss as [E|E]; rewrite E in *; simpl in *; lra.
Qed.
End DegenerateBooks.

(** C10, as stated, fails on the code: an empty bid side on Polymarket does
    not stop the Polymarket-buy direction, which needs the Polymarket ask and
    the Kalshi bid only. *)
Lemma C10_one_empty_side_counterexample :
  OrderBook.bids polyBookNoBids = []
  /\ unitPrices polyBookNoBids /\ unitPrices kalshiBook1
  /\ exists o,
       fst (ArbitrageDetector.detectArbitrage (Config.loadConfig Live) "id1" "id2" 0
              polyBookNoBids kalshiBook1 testMapping ArbitrageDetector.new) = Some o
       /\ ArbitrageOpportunity.buyPlatform o = Polymarket
       /\ ArbitrageOpportunity.buyPrice o == 42 # 100
       /\ ArbitrageOpportunity.sellPrice o == 50 # 100.
Proof.
  split; [reflexivity|].
  split.
  { split; repeat constructor; simpl; discriminate. }
  split.
  { split; repeat constructor; simpl; discriminate. }
  eexists. split; [reflexivity|]. repeat split.
Qed.

(** C10 (amended): [detectArbitrage] is a total function; a missing best bid
    reads as price 0 and size 0, a missing best ask as price 1 and size 0.
    With book prices in [0, 1], a direction whose ask side or bid side is
    missing fails its price test.  Hence the result is [null], and the cache
    is untouched, whenever each of the two directions has a missing side;
    a direction whose two sides are both present is unaffected by gaps
    elsewhere. *)
Theorem C10_missing_sides_give_null :
  forall (cfg : Config.t) (id1 id2 : string) (now : Z)
         (pb kb : OrderBook.t) (m : EventMapping.t) (d : ArbitrageDetector.t),
    unitPrices pb -> unitPrices kb ->
    (ArbitrageDetector.bestPrice [] 0 = 0
     /\ ArbitrageDetector.bestPrice [] 1 = 1
     /\ ArbitrageDetector.bestSize [] 0 = 0)
    /\ (OrderBook.asks pb = [] \/ OrderBook.bids kb = [] ->
        ArbitrageDetector.case1 cfg id1 now pb kb m = None)
    /\ (OrderBook.asks kb = [] \/ OrderBook.bids pb = [] ->
        ArbitrageDetector.case2 cfg id2 now pb kb m = None)
    /\ (OrderBook.asks pb = [] \/ OrderBook.bids kb = [] ->
        OrderBook.asks kb = [] \/ OrderBook.bids pb = [] ->
        ArbitrageDetector.detectArbitrage cfg id1 id2 now pb kb m d = (None, d)).
Proof.
  intros cfg id1 id2 now pb kb m d Hp Hk.
  split; [repeat split|]. split; [|split].
  - now apply DegenerateBooks.case1_missing_side.
  - now apply DegenerateBooks.case2_missing_side.
  - intros H1 H2. unfold ArbitrageDetector.detectArbitrage.
    rewrite DetectorFacts.candidate_cases.
    rewrite (DegenerateBooks.case1_missing_side cfg id1 now pb kb m Hp Hk H1).
    rewrite (DegenerateBooks.case2_missing_side cfg id2 now pb kb m Hp Hk H2).
    reflexivity.
Qed.

(** Kalshi has no book at all, Polymarket is as in Scenario 1. *)
Lemma C10_missing_sides_witness :
  ArbitrageDetector.detectArbitrage (Config.loadConfig Live) "id1" "id2" 0
    polyBook1 (OrderBook.mk [] [] 0) testMapping ArbitrageDetector.new
  = (None, ArbitrageDetector.new).
Proof.
  apply (C10_missing_sides_give_null (Config.loadConfig Live) "id1" "id2" 0
           polyBook1 (OrderBook.mk [] [] 0) testMapping ArbitrageDetector.new).
  - split; repeat constructor; simpl; discriminate.
  - split; constructor.
  - right. reflexivity.
  - left. reflexivity.
Defined.

(** C8: with a non-negative buy price and a sell price of at most 1 (prices
    are in [0, 1]) the fee estimate is monotone non-decreasing in the
    quantity; when the sell leg is on Kalshi the estimate is the buy-leg fee
    plus [min (0.07 * (1 - sellPrice) * q) (0.07 * q)] and, for a
    non-negative quantity, is monotone non-decreasing in [1 - sellPrice]. *)
Theorem C8_fee_monotone :
  (forall (buyVenue sellVenue : Platform) (buyPrice sellPrice q1 q2 : number),
     0 <= buyPrice -> sellPrice <= 1 -> q1 <= q2 ->
     ArbitrageDetector.estimateFees buyVenue sellVenue buyPrice sellPrice q1
     <= ArbitrageDetector.estimateFees buyVenue sellVenue buyPrice sellPrice q2)
  /\ (forall (buyVenue : Platform) (buyPrice sell1 sell2 q : number),
        0 <= q -> 1 - sell1 <= 1 - sell2 ->
        ArbitrageDetector.estimateFees buyVenue Kalshi buyPrice sell1 q
        <= ArbitrageDetector.estimateFees buyVenue Kalshi buyPrice sell2 q)
  /\ (forall (buyVenue : Platform) (buyPrice sellPrice q : number),
        ArbitrageDetector.estimateFees buyVenue Kalshi buyPrice sellPrice q
        == (match buyVenue with
            | Polymarket => buyPrice * q * (2 # 100)
            | Kalshi => 0
            end)
           + Qmin ((7 # 100) * ((1 - sellPrice) * q)) ((7 # 100) * q)).
Proof.
  split; [|split].
  - intros bv sv bp sp q1 q2 Hb Hs Hq.
    assert (Hmin : Qmin ((1 - sp) * q1 * (7 # 100)) ((7 # 100) * q1)
                   <= Qmin ((1 - sp) * q2 * (7 # 100)) ((7 # 100) * q2))
      by (apply Q.min_le_compat; nra).
    destruct bv, sv; unfold ArbitrageDetector.estimateFees; simpl; nra.
  - intros bv bp s1 s2 q Hq Hs.
    assert (Hmin : Qmin ((1 - s1) * q * (7 # 100)) ((7 # 100) * q)
                   <= Qmin ((1 - s2) * q * (7 # 100)) ((7 # 100) * q))
      by (apply Q.min_le_compat_r; nra).
    destruct bv; unfold ArbitrageDetector.estimateFees; simpl; lra.
  - intros bv bp sp q.
    assert (Hmin : Qmin ((1 - sp) * q * (7 # 100)) ((7 # 100) * q)
                   == Qmin ((7 # 100) * ((1 - sp) * q)) ((7 # 100) * q)).
    { apply Q.min_compat; [ring | reflexivity]. }
    destruct bv; unfold ArbitrageDetector.estimateFees; simpl; rewrite Hmin; ring.
Qed.

(** Fees from 10 to 20 contracts at prices 0.42 / 0.50, and from a sell
    price of 0.50 down to 0.40 on 10 contracts. *)
Lemma C8_fee_monotone_witness :
  ArbitrageDetector.estimateFees Polymarket Kalshi (42 # 100) (50 # 100) 10
  <= ArbitrageDetector.estimateFees Polymarket Kalshi (42 # 100) (50 # 100) 20
  /\ ArbitrageDetector.estimateFees Polymarket Kalshi (42 # 100) (50 # 100) 10
     <= ArbitrageDetector.estimateFees Polymarket Kalshi (42 # 100) (40 # 100) 10.
Proof.
  destruct C8_fee_monotone as (Hq & Hs & _). split.
  - apply Hq; discriminate.
  - apply Hs; discriminate.
Defined.

(* ================================================================== *)
(** ** Risk manager ledger *)

Module LedgerFacts.
Import RiskManager LedgerSpec.

Lemma get_set_same {V} k (v : V) m : JsMap.get k (JsMap.set k v m) = Some v.
Proof.
  induction m as [|[k' v'] m IH]; simpl.
  - now rewrite String.eqb_refl.
  - destruct (String.eqb k k') eqn:E; simpl; rewrite E; auto.
Qed.

Lemma get_set_other {V} k k2 (v : V) m :
  k <> k2 -> JsMap.get k2 (JsMap.set k v m) = JsMap.get k2 m.
Proof.
  intros Hne. induction m as [|[k' v'] m IH]; simpl.
  - destruct (String.eqb k2 k) eqn:E; [|reflexivity].
    apply String.eqb_eq in E. congruence.
  - destruct (String.eqb k k') eqn:E; simpl.
    + apply String.eqb_eq in E. subst k'.
      destruct (String.eqb k2 k) eqn:E2; [|reflexivity].
      apply String.eqb_eq in E2. congruence.
    + destruct (String.eqb k2 k'); auto.
Qed.

Lemma pushPosition_cons p k l rest :
  pushPosition p ((k, l) :: rest)
  = if String.eqb (Position.eventId p) k
    then (k, l ++ [p]) :: rest
    else (k, l) :: pushPosition p rest.
Proof.
  unfold pushPosition. simpl.
  destruct (String.eqb (Position.eventId p) k); reflexivity.
Qed.

Lemma pushPosition_ledger p m :
  Permutation (List.concat (JsMap.values (pushPosition p m)))
              (List.concat (JsMap.values m) ++ [p]).
Proof.
  induction m as [|[k l] m IH].
  - apply Permutation_refl.
  - rewrite pushPosition_cons. destruct (String.eqb (Position.eventId p) k).
    + cbn [JsMap.values map snd List.concat]. rewrite <- !app_assoc.
      apply Permutation_app_head, Permutation_app_comm.
    + cbn [JsMap.values map snd List.concat] in *. rewrite <- app_assoc.
      now apply Permutation_app_head.
Qed.

Lemma pushPosition_get p e m :
  JsMap.get e (pushPosition p m)
  = if String.eqb (Position.eventId p) e
    then Some (match JsMap.get e m with Some l => l | None => [] end ++ [p])
    else JsMap.get e m.
Proof.
  unfold pushPosition. destruct (String.eqb (Position.eventId p) e) eqn:E.
  - apply String.eqb_eq in E. subst e. apply get_set_same.
  - apply get_set_other. intros H. rewrite H, String.eqb_refl in E. discriminate.
Qed.

Lemma pushAll_ledger X m :
  Permutation (List.concat (JsMap.values (fold_left (fun m pos => pushPosition pos m) X m)))
              (List.concat (JsMap.values m) ++ X).
Proof.
  revert m. induction X as [|p X IH]; intros m; simpl.
  - rewrite app_nil_r. apply Permutation_refl.
  - eapply Permutation_trans; [apply IH|].
    eapply Permutation_trans;
      [apply Permutation_app_tail, pushPosition_ledger|].
    rewrite <- app_assoc. apply Permutation_refl.
Qed.

Lemma pushAll_get X e m :
  match JsMap.get e (fold_left (fun m pos => pushPosition pos m) X m) with
  | Some l => l
  | None => []
  end
  = match JsMap.get e m with Some l => l | None => [] end
    ++ filter (fun p => String.eqb (Position.eventId p) e) X.
Proof.
  revert m. induction X as [|p X IH]; intros m; simpl.
  - now rewrite app_nil_r.
  - rewrite IH, pushPosition_get.
    destruct (String.eqb (Position.eventId p) e); [|reflexivity].
    now rewrite <- app_assoc.
Qed.

Lemma exposure_app l1 l2 : exposure (l1 ++ l2) == exposure l1 + exposure l2.
Proof.
  induction l1 as [|p l1 IH]; simpl.
  - ring.
  - rewrite IH. ring.
Qed.

Lemma exposure_perm l1 l2 : Permutation l1 l2 -> exposure l1 == exposure l2.
Proof.
  induction 1; simpl.
  - reflexivity.
  - now rewrite IHPermutation.
  - ring.
  - now rewrite IHPermutation1.
Qed.

(** The inner loop of [recalculateTotalExposure]. *)
Lemma inner_loop l total :
  fold_left (fun total pos => total + Position.quantity pos * Position.avgPrice pos) l total
  == total + exposure l.
Proof.
  revert total. induction l as [|p l IH]; intros total; simpl.
  - ring.
  - rewrite IH. ring.
Qed.

Lemma outer_loop ls total :
  fold_left
    (fun total positions =>
       fold_left (fun total pos => total + Position.quantity pos * Position.avgPrice pos)
                 positions total) ls total
  == total + exposure (List.concat ls).
Proof.
  revert total. induction ls as [|l ls IH]; intros total; simpl.
  - ring.
  - rewrite IH, inner_loop, exposure_app. ring.
Qed.

Lemma recalculate_exposure rm :
  totalExposure (recalculateTotalExposure rm) == exposure (ledger rm).
Proof.
  unfold recalculateTotalExposure, ledger. simpl. rewrite outer_loop. ring.
Qed.

Lemma recalculate_ledger rm : ledger (recalculateTotalExposure rm) = ledger rm.
Proof. reflexivity. Qed.

Lemma step_consistent rm op : consistent (step rm op).
Proof.
  destruct op; unfold consistent, step, addPosition, updatePositions;
    rewrite recalculate_exposure, recalculate_ledger; reflexivity.
Qed.

Lemma run_consistent ops rm : consistent rm -> consistent (fold_left step ops rm).
Proof.
  revert rm. induction ops as [|op ops IH]; intros rm H; simpl; auto.
  apply IH, step_consistent.
Qed.
End LedgerFacts.

(** C9: after any sequence of [addPosition] and [updatePositions] calls on a
    new risk manager, [totalExposure] equals the sum over the ledger of
    quantity times average price.  After [updatePositions(X)] the ledger
    holds exactly the positions of [X], each event listing its positions in
    the order of [X], and [totalExposure] is the sum over [X]. *)
Theorem C9_ledger_consistency :
  (forall ops : list LedgerSpec.LedgerOp,
     RiskManager.totalExposure (LedgerSpec.run ops)
     == LedgerSpec.exposure (LedgerSpec.ledger (LedgerSpec.run ops)))
  /\ (forall (X : list Position.t) (rm : RiskManager.t),
        Permutation (LedgerSpec.ledger (RiskManager.updatePositions X rm)) X
        /\ (forall e : string,
              RiskManager.positionsOf e (RiskManager.updatePositions X rm)
              = filter (fun p => String.eqb (Position.eventId p) e) X)
        /\ RiskManager.totalExposure (RiskManager.updatePositions X rm)
           == LedgerSpec.exposure X).
Proof.
  split.
  - intros ops. apply LedgerFacts.run_consistent. reflexivity.
  - intros X rm.
    assert (HP : Permutation (LedgerSpec.ledger (RiskManager.updatePositions X rm)) X).
    { unfold RiskManager.updatePositions. rewrite LedgerFacts.recalculate_ledger.
      unfold LedgerSpec.ledger. simpl. apply (LedgerFacts.pushAll_ledger X JsMap.empty). }
    split; [exact HP|]. split.
    + intros e. unfold RiskManager.positionsOf, RiskManager.updatePositions. simpl.
      apply (LedgerFacts.pushAll_get X e JsMap.empty).
    + unfold RiskManager.updatePositions.
      rewrite LedgerFacts.recalculate_exposure.
      apply LedgerFacts.exposure_perm. exact HP.
Qed.

(* ================================================================== *)
(** ** Execution engine *)

Module EngineFacts.
Import ExecutionEngine EngineSpec.

Lemma execute_fires cfg o opportunity w :
  reachesFire cfg o opportunity w ->
  exists q d,
    execute cfg o opportunity w
    = fire cfg o opportunity q (mkWorld (breaker w) (state w) (riskManager w) d (trace w)).
Proof.
  intros (Hp & Ha & Hv & Hm). unfold execute. rewrite Hp, Ha. simpl.
  destruct (ArbitrageDetector.validateOpportunity _ _ _ _ _ _ _) as [ok d].
  simpl in Hv. subst ok. simpl. rewrite Hm. eauto.
Qed.

Lemma fire_asymmetric cfg o opportunity q w :
  oneLegFilled o ->
  fire cfg o opportunity q w
  = asymmetric cfg o opportunity
      (emit [EvPlaceOrder
               (LimitOrder.mk (ArbitrageOpportunity.buyPlatform opportunity)
                  (marketIdFor (ArbitrageOpportunity.buyPlatform opportunity) opportunity)
                  Buy (ArbitrageOpportunity.buyPrice opportunity) q FOK);
             EvPlaceOrder
               (LimitOrder.mk (ArbitrageOpportunity.sellPlatform opportunity)
                  (marketIdFor (ArbitrageOpportunity.sellPlatform opportunity) opportunity)
                  Sell (ArbitrageOpportunity.sellPrice opportunity) q FOK)] w).
Proof.
  unfold oneLegFilled, fire, filled, succeeded. intros H.
  destruct (buyResult o) as [bv|], (sellResult o) as [sv|];
    try destruct (OrderResult.success bv); try destruct (OrderResult.success sv);
    try discriminate H; reflexivity.
Qed.

Lemma pause_trace now reason c :
  exists evs, CircuitBreaker.trace (CircuitBreaker.pause now reason c)
              = CircuitBreaker.trace c ++ evs.
Proof.
  unfold CircuitBreaker.pause. destruct (CircuitBreaker.paused (CircuitBreaker.breaker c)).
  - exists []. now rewrite app_nil_r.
  - simpl. eauto.
Qed.

Lemma pause_persists now reason c :
  CircuitBreaker.paused (CircuitBreaker.breaker c) = false ->
  PersistedState.circuitBreakerPaused (CircuitBreaker.state (CircuitBreaker.pause now reason c))
  = true.
Proof.
  intros H. unfold CircuitBreaker.pause. now rewrite H.
Qed.

(** [recordFailure('ASYMMETRIC_EXECUTION')] when one asymmetric execution
    is already too many. *)
Lemma recordFailure_asymmetric cfg now c :
  Config.maxAsymmetricExecutions (Config.risk cfg) <= 1 ->
  let c' := CircuitBreaker.recordFailure cfg now ASYMMETRIC_EXECUTION c in
  CircuitBreaker.paused (CircuitBreaker.breaker c') = true
  /\ CircuitBreaker.asymmetricExecutions (CircuitBreaker.breaker c')
     = S (CircuitBreaker.asymmetricExecutions (CircuitBreaker.breaker c))
  /\ (CircuitBreaker.paused (CircuitBreaker.breaker c) = false ->
      PersistedState.circuitBreakerPaused (CircuitBreaker.state c') = true)
  /\ exists evs, CircuitBreaker.trace c' = CircuitBreaker.trace c ++ evs.
Proof.
  intros Hmax. unfold CircuitBreaker.recordFailure. simpl.
  set (b1 := CircuitBreaker.mk _ _ _ _ _).
  set (c1 := CircuitBreaker.withBreaker c b1).
  set (r1 := (CircuitBreaker.decimal _ ++ " consecutive failures")%string).
  set (c2 := if geb _ _ then CircuitBreaker.pause now r1 c1 else c1).
  assert (Hc2 : CircuitBreaker.asymmetricExecutions (CircuitBreaker.breaker c2)
                = S (CircuitBreaker.asymmetricExecutions (CircuitBreaker.breaker c))).
  { subst c2. destruct (geb _ _); [|reflexivity].
    now rewrite (proj2 (CircuitBreakerFacts.pause_counters now r1 c1)). }
  assert (Hg : geb (Qnat (CircuitBreaker.asymmetricExecutions (CircuitBreaker.breaker c2)))
                   (Config.maxAsymmetricExecutions (Config.risk cfg)) = true).
  { apply geb_le. rewrite Hc2. eapply Qle_trans; [exact Hmax | apply Qnat_S_ge_1]. }
  rewrite Hg. split; [apply CircuitBreakerFacts.pause_paused|]. split; [|split].
  - now rewrite (proj2 (CircuitBreakerFacts.pause_counters now _ c2)).
  - intros Hp. destruct (CircuitBreaker.paused (CircuitBreaker.breaker c2)) eqn:E2.
    + rewrite CircuitBreakerFacts.pause_when_paused by exact E2.
      subst c2. destruct (geb _ _).
      * now apply pause_persists.
      * simpl in E2. congruence.
    + now apply pause_persists.
  - destruct (pause_trace now
                (CircuitBreaker.decimal
                   (CircuitBreaker.asymmetricExecutions (CircuitBreaker.breaker c2))
                 ++ " asymmetric executions - manual review required")%string c2)
      as [evs2 H2].
    rewrite H2. subst c2. destruct (geb _ _).
    + destruct (pause_trace now r1 c1) as [evs1 H1]. rewrite H1. simpl.
      exists (evs1 ++ evs2). now rewrite app_assoc.
    + simpl. eauto.
Qed.
End EngineFacts.

(** C1, as stated, fails on the code: in Scenario 5 the buy leg fills 50
    contracts and the sell leg is rejected, the breaker ends paused, and the
    position ledger of the risk manager is as empty as before.  Only the
    both-filled path calls [recordPositions]. *)
Lemma C1_no_position_counterexample :
  let r := ExecutionEngine.execute (Config.loadConfig Live) oracle5 opportunity1 world0 in
  ExecutionEngine.succeeded (ExecutionEngine.buyResult oracle5) = true
  /\ ExecutionEngine.succeeded (ExecutionEngine.sellResult oracle5) = false
  /\ CircuitBreaker.paused (ExecutionEngine.breaker (snd r)) = true
  /\ RiskManager.positions (ExecutionEngine.riskManager (snd r)) = []
  /\ PersistedState.openPositions (ExecutionEngine.state (snd r)) = [].
Proof. vm_compute. repeat split. Qed.

(** C1 (amended): in live mode, when [execute] places the orders and exactly
    one leg reports a fill, it returns a failure flagged
    [circuitBreakerTriggered]; it calls
    [recordFailure('ASYMMETRIC_EXECUTION')], which counts the event and, for
    [maxAsymmetricExecutions <= 1] (the shipped value is 1), leaves the
    breaker paused and the pause recorded in the state manager; it calls the
    critical-level alert [alertAsymmetricExecution]; and, once the
    opportunity row is accepted, it issues the insert of an execution row
    with status [failed].  The position ledger of the risk manager is left
    as it was. *)
Theorem C1_asymmetric_execution :
  forall (cfg : Config.t) (o : ExecutionEngine.Oracle)
         (opportunity : ArbitrageOpportunity.t) (w : ExecutionEngine.World),
    EngineSpec.reachesFire cfg o opportunity w ->
    EngineSpec.oneLegFilled o ->
    Config.maxAsymmetricExecutions (Config.risk cfg) <= 1 ->
    let r := ExecutionEngine.execute cfg o opportunity w in
    let alert :=
      alertAsymmetricExecution
        (ExecutionEngine.filledOrRejected (ExecutionEngine.succeeded (ExecutionEngine.buyResult o)))
        (ExecutionEngine.filledOrRejected (ExecutionEngine.succeeded (ExecutionEngine.sellResult o)))
        (ArbitrageOpportunity.buyPlatform opportunity)
        (ArbitrageOpportunity.sellPlatform opportunity) in
    ExecutionResult.success (fst r) = false
    /\ ExecutionResult.circuitBreakerTriggered (fst r) = true
    /\ CircuitBreaker.paused (ExecutionEngine.breaker (snd r)) = true
    /\ CircuitBreaker.asymmetricExecutions (ExecutionEngine.breaker (snd r))
       = S (CircuitBreaker.asymmetricExecutions (ExecutionEngine.breaker w))
    /\ PersistedState.circuitBreakerPaused (ExecutionEngine.state (snd r)) = true
    /\ In (EvAlert alert) (ExecutionEngine.trace (snd r))
    /\ alertLevel alert = Critical
    /\ (ExecutionEngine.insertOpportunityOk o = true ->
        exists row,
          In (EvQuery (InsertExecution row) (ExecutionEngine.insertExecutionOk o))
             (ExecutionEngine.trace (snd r))
          /\ ExecutionRow.status row = StFailed
          /\ ExecutionRow.opportunity_id row = ArbitrageOpportunity.id opportunity
          /\ ExecutionRow.is_dry_run row = false)
    /\ ExecutionEngine.riskManager (snd r) = ExecutionEngine.riskManager w.
Proof.
  intros cfg o opportunity w Hreach Hone Hmax r alert.
  destruct (EngineFacts.execute_fires cfg o opportunity w Hreach) as (q & d & Hex).
  subst r. rewrite Hex, (EngineFacts.fire_asymmetric cfg o opportunity q _ Hone).
  unfold ExecutionEngine.asymmetric.
  match goal with
  | |- context [CircuitBreaker.recordFailure cfg ?n ASYMMETRIC_EXECUTION ?c] =>
      destruct (EngineFacts.recordFailure_asymmetric cfg n c Hmax)
        as (Hpaused & Hcount & Hstate & evs & Htrace);
      set (c' := CircuitBreaker.recordFailure cfg n ASYMMETRIC_EXECUTION c) in *
  end.
  simpl in Hcount, Hstate, Htrace.
  destruct Hreach as (Hunpaused & _).
  cbn [fst snd ExecutionEngine.saveExecution ExecutionEngine.emit ExecutionEngine.failure
       ExecutionEngine.breaker ExecutionEngine.state ExecutionEngine.riskManager
       ExecutionEngine.trace ExecutionResult.success ExecutionResult.circuitBreakerTriggered].
  repeat split; auto.
  - apply in_or_app. left. apply in_or_app. right. left. reflexivity.
  - intros Hok. rewrite Hok. eexists. split.
    + apply in_or_app. right. right. left. reflexivity.
    + repeat split.
Qed.

(** Scenario 5 under the shipped configuration. *)
Lemma C1_asymmetric_witness :
  let r := ExecutionEngine.execute (Config.loadConfig Live) oracle5 opportunity1 world0 in
  CircuitBreaker.paused (ExecutionEngine.breaker (snd r)) = true
  /\ PersistedState.circuitBreakerPaused (ExecutionEngine.state (snd r)) = true
  /\ In (EvAlert (alertAsymmetricExecution "FILLED" "REJECTED" Polymarket Kalshi))
        (ExecutionEngine.trace (snd r))
  /\ (exists row,
        In (EvQuery (InsertExecution row) true) (ExecutionEngine.trace (snd r))
        /\ ExecutionRow.status row = StFailed)
  /\ ExecutionEngine.riskManager (snd r) = RiskManager.new.
Proof.
  intros r.
  assert (Hreach : EngineSpec.reachesFire (Config.loadConfig Live) oracle5 opportunity1 world0)
    by (repeat split).
  assert (Hone : EngineSpec.oneLegFilled oracle5) by reflexivity.
  assert (Hmax : Config.maxAsymmetricExecutions (Config.risk (Config.loadConfig Live)) <= 1)
    by discriminate.
  destruct (C1_asymmetric_execution (Config.loadConfig Live) oracle5 opportunity1 world0
              Hreach Hone Hmax) as (_ & _ & Hp & _ & Hs & Ha & _ & Hrow & Hr).
  destruct (Hrow eq_refl) as (row & Hin & Hst & _).
  repeat split; try assumption.
  exists row. split; assumption.
Defined.

(* ================================================================== *)
(** ** Helpers: string distance and retries *)

Module LevenshteinFacts.
Import Helpers MatrixSpec.

Lemma nextRow_length bc a : forall prev left,
  List.length prev = S (List.length a) ->
  List.length (nextRow bc a prev left) = List.length a.
Proof.
  induction a as [|ac a IH]; intros prev left H; [reflexivity|].
  destruct prev as [|diag [|up prev]]; simpl in H; try discriminate.
  simpl. f_equal. apply IH. simpl. lia.
Qed.

Lemma nextRow_bounded bc a : forall prev left i j,
  boundedFrom i j prev ->
  (left <= Nat.max (S i) j)%nat ->
  boundedFrom (S i) (S j) (nextRow bc a prev left).
Proof.
  induction a as [|ac a IH]; intros prev left i j Hprev Hleft; [exact I|].
  destruct prev as [|diag [|up prev]]; try exact I.
  simpl in Hprev. destruct Hprev as (Hd & Hu & Hrest).
  cbn [nextRow].
  set (v := if Ascii.eqb bc ac then diag
            else Nat.min (diag + 1) (Nat.min (left + 1) (up + 1))).
  assert (Hv : (v <= Nat.max (S i) (S j))%nat).
  { subst v. destruct (Ascii.eqb bc ac); lia. }
  split; [exact Hv|].
  apply IH; [split; assumption | lia].
Qed.

Lemma seq_bounded n j : boundedFrom 0%nat j (seq j n).
Proof.
  revert j. induction n as [|n IH]; intros j; simpl; [exact I|].
  split; [lia | apply IH].
Qed.

Lemma bounded_last i : forall row j,
  boundedFrom i j row -> row <> [] ->
  (last row 0%nat <= Nat.max i (j + List.length row - 1))%nat.
Proof.
  induction row as [|x row IH]; intros j H Hne; [congruence|].
  destruct row as [|y rest].
  - simpl in *. destruct H. lia.
  - destruct H as [_ H]. specialize (IH (S j) H ltac:(discriminate)).
    change (last (x :: y :: rest) 0%nat) with (last (y :: rest) 0%nat).
    simpl List.length in *. lia.
Qed.

Lemma rows_bounded b a : forall i prev,
  List.length prev = S (List.length a) ->
  boundedFrom i 0%nat prev ->
  (last (rows b a i prev) 0%nat <= Nat.max (i + List.length b) (List.length a))%nat.
Proof.
  induction b as [|bc b IH]; intros i prev Hlen Hb.
  - simpl. pose proof (bounded_last i prev 0%nat Hb) as H.
    assert (Hne : prev <> []) by (destruct prev; [discriminate|discriminate]).
    specialize (H Hne). rewrite Hlen in H. lia.
  - simpl rows. simpl List.length.
    replace (i + S (List.length b))%nat with (S i + List.length b)%nat by lia.
    apply IH.
    + simpl. f_equal. now apply nextRow_length.
    + split; [lia|]. apply nextRow_bounded; [exact Hb|lia].
Qed.

Lemma length_list_ascii s : List.length (list_ascii_of_string s) = String.length s.
Proof. induction s; simpl; congruence. Qed.

Lemma distance_le_max a b :
  (levenshteinDistance a b <= Nat.max (String.length a) (String.length b))%nat.
Proof.
  unfold levenshteinDistance. cbv zeta.
  pose proof (rows_bounded (list_ascii_of_string b) (list_ascii_of_string a) 0%nat
                (seq 0%nat (S (List.length (list_ascii_of_string a))))) as H.
  rewrite length_seq in H. specialize (H eq_refl (seq_bounded _ _)).
  rewrite <- !length_list_ascii. cbn [Nat.add] in H. lia.
Qed.

(** Entry [j] of a new row. *)
Lemma nextRow_nth bc a : forall prev left j,
  List.length prev = S (List.length a) ->
  (j < List.length a)%nat ->
  Ascii.eqb bc (nth j a bc) = true ->
  nth j (nextRow bc a prev left) 0%nat = nth j prev 0%nat.
Proof.
  induction a as [|ac a IH]; intros prev left j Hlen Hj Heq; [simpl in Hj; lia|].
  destruct prev as [|diag [|up prev]]; simpl in Hlen; try discriminate.
  cbn [nextRow]. destruct j as [|j].
  - simpl in Heq. simpl. now rewrite Heq.
  - simpl in Heq. cbn [nth]. rewrite IH; [reflexivity| simpl; lia | simpl in Hj; lia | exact Heq].
Qed.

Lemma rows_diagonal : forall (b pre a : list ascii) prev,
  a = pre ++ b ->
  List.length prev = S (List.length a) ->
  nth (List.length pre) prev 0%nat = 0%nat ->
  last (rows b a (List.length pre) prev) 0%nat = 0%nat.
Proof.
  induction b as [|bc b IH]; intros pre a prev Ha Hlen Hd.
  - simpl. rewrite app_nil_r in Ha. subst a.
    destruct prev as [|x prev] using rev_ind; [discriminate|].
    rewrite last_last. rewrite length_app in Hlen. simpl in Hlen.
    assert (Hl : List.length prev = List.length pre) by lia.
    rewrite <- Hl, nth_middle in Hd. exact Hd.
  - simpl rows.
    assert (Ha' : a = (pre ++ [bc]) ++ b) by (rewrite <- app_assoc; exact Ha).
    pose proof (IH (pre ++ [bc]) a
                  (S (List.length pre) :: nextRow bc a prev (S (List.length pre))) Ha') as H.
    rewrite length_app in H. simpl in H.
    replace (List.length pre + 1)%nat with (S (List.length pre)) in H by lia.
    apply H.
    + f_equal. now apply nextRow_length.
    + rewrite nextRow_nth; [exact Hd | exact Hlen | |].
      * subst a. rewrite length_app. simpl. lia.
      * subst a. rewrite nth_middle. apply Ascii.eqb_refl.
Qed.

Lemma distance_same a : levenshteinDistance a a = 0%nat.
Proof.
  unfold levenshteinDistance. cbv zeta.
  apply (rows_diagonal (list_ascii_of_string a) [] (list_ascii_of_string a)).
  - reflexivity.
  - apply length_seq.
  - reflexivity.
Qed.

Lemma last_row0 n : last (seq 0%nat (S n)) 0%nat = n.
Proof. rewrite seq_S, last_last. reflexivity. Qed.

Lemma rows_empty b : forall i, last (rows b [] i [i]) 0%nat = (i + List.length b)%nat.
Proof.
  induction b as [|bc b IH]; intros i; simpl; [lia|].
  rewrite IH. lia.
Qed.

Lemma similarity_range a b : 0 <= levenshteinSimilarity a b <= 1.
Proof.
  unfold levenshteinSimilarity. cbv zeta.
  destruct (Nat.eqb _ 0) eqn:E; [split; discriminate|].
  apply Nat.eqb_neq in E.
  pose proof (distance_le_max a b) as Hle.
  set (m := Nat.max (String.length a) (String.length b)) in *.
  assert (Hm : 0 < Qnat m).
  { destruct m; [congruence|]. pose proof (Qnat_S_ge_1 m). lra. }
  assert (Hd : 0 <= Qnat (levenshteinDistance a b))
    by (unfold Qnat; change 0 with (inject_Z 0); rewrite <- Zle_Qle; lia).
  assert (Hq : Qnat (levenshteinDistance a b) <= Qnat m) by now apply Qnat_le.
  assert (H0 : 0 <= Qnat (levenshteinDistance a b) / Qnat m).
  { apply Qle_shift_div_l; [exact Hm|]. lra. }
  assert (H1 : Qnat (levenshteinDistance a b) / Qnat m <= 1).
  { apply Qle_shift_div_r; [exact Hm|]. lra. }
  split; lra.
Qed.
End LevenshteinFacts.

(** The Levenshtein distance of two strings is at most the length of the
    longer one, it is 0 between a string and itself, and against the empty
    string it is the length of the other string.  The similarity therefore
    lies between 0 and 1, and it is 1 between a string and itself. *)
Theorem levenshtein_distance_and_similarity_range :
  forall (a b : string),
    (Helpers.levenshteinDistance a b <= Nat.max (String.length a) (String.length b))%nat
    /\ Helpers.levenshteinDistance a a = 0%nat
    /\ Helpers.levenshteinDistance a EmptyString = String.length a
    /\ Helpers.levenshteinDistance EmptyString b = String.length b
    /\ 0 <= Helpers.levenshteinSimilarity a b <= 1
    /\ Helpers.levenshteinSimilarity a a == 1.
Proof.
  intros a b.
  pose proof (LevenshteinFacts.distance_le_max a b) as Hle.
  pose proof (LevenshteinFacts.distance_same a) as Hsame.
  split; [exact Hle|]. split; [exact Hsame|]. split; [|split; [|split]].
  - unfold Helpers.levenshteinDistance. cbv zeta.
    cbn [list_ascii_of_string Helpers.rows].
    rewrite LevenshteinFacts.last_row0. apply LevenshteinFacts.length_list_ascii.
  - unfold Helpers.levenshteinDistance. cbv zeta.
    cbn [list_ascii_of_string List.length seq].
    rewrite LevenshteinFacts.rows_empty, LevenshteinFacts.length_list_ascii. reflexivity.
  - apply LevenshteinFacts.similarity_range.
  - unfold Helpers.levenshteinSimilarity. cbv zeta.
    destruct (Nat.eqb _ 0); [reflexivity|].
    rewrite Hsame. unfold Qnat. simpl. unfold Qdiv. ring.
Qed.

Module RetryFacts.
Import Helpers RetrySpec.

Lemma withRetryFrom_run {A} (operation : nat -> Outcome A) config :
  forall k remaining attempt,
    (k <= remaining)%nat ->
    (forall j, (j < k)%nat -> failsRetryably operation config (attempt + j)) ->
    withRetryFrom operation config attempt remaining
    = (fst (withRetryFrom operation config (attempt + k) (remaining - k)),
       map (delay config) (seq attempt k)
       ++ snd (withRetryFrom operation config (attempt + k) (remaining - k))).
Proof.
  induction k as [|k IH]; intros remaining attempt Hk Hfail.
  - rewrite Nat.add_0_r, Nat.sub_0_r. simpl. now destruct (withRetryFrom _ _ _ _).
  - destruct remaining as [|remaining]; [lia|].
    destruct (Hfail 0%nat ltac:(lia)) as (message & Hop & Hret).
    rewrite Nat.add_0_r in Hop. unfold retryable in Hret.
    cbn [withRetryFrom]. rewrite Hop, Hret. cbn [negb fst snd].
    rewrite (IH remaining (S attempt)); [| lia |].
    + replace (S attempt + k)%nat with (attempt + S k)%nat by lia.
      replace (S remaining - S k)%nat with (remaining - k)%nat by lia.
      reflexivity.
    + intros j Hj. replace (S attempt + j)%nat with (attempt + S j)%nat by lia.
      apply Hfail. lia.
Qed.
End RetryFacts.

(** When the first [k] attempts reject with retryable errors and [k] does
    not exceed [maxRetries], the outcome of [withRetry] is that of attempt
    [k]: its value when it resolves, and its error when it rejects with an
    error that is not retryable or when [k] is [maxRetries].  In each case
    exactly [k] sleeps were taken, the one after attempt [j] lasting
    [min(retryDelayMs * backoffMultiplier^j, maxRetryDelayMs)]. *)
Theorem withRetry_outcome :
  forall (A : Type) (operation : nat -> Helpers.Outcome A) (config : Helpers.RetryPolicy)
         (k : nat),
    (k <= Helpers.maxRetries config)%nat ->
    (forall j, (j < k)%nat -> RetrySpec.failsRetryably operation config j) ->
    (forall value,
       operation k = Helpers.Resolved value ->
       Helpers.withRetry operation config
       = (Helpers.Resolved value, map (RetrySpec.delay config) (seq 0 k)))
    /\ (forall message,
          operation k = Helpers.Thrown message ->
          k = Helpers.maxRetries config \/ RetrySpec.retryable config message = false ->
          Helpers.withRetry operation config
          = (Helpers.Thrown message, map (RetrySpec.delay config) (seq 0 k))).
Proof.
  intros A operation config k Hk Hfail. unfold Helpers.withRetry.
  rewrite (RetryFacts.withRetryFrom_run operation config k _ 0%nat Hk Hfail).
  cbn [Nat.add]. split.
  - intros value Hop.
    destruct (Helpers.maxRetries config - k)%nat; cbn [Helpers.withRetryFrom];
      rewrite Hop; cbn [fst snd]; rewrite app_nil_r; reflexivity.
  - intros message Hop Hstop.
    destruct (Helpers.maxRetries config - k)%nat eqn:E; cbn [Helpers.withRetryFrom];
      rewrite Hop; cbn [fst snd]; [rewrite app_nil_r; reflexivity|].
    destruct Hstop as [Hmax|Hnon]; [lia|].
    unfold RetrySpec.retryable in Hnon. rewrite Hnon. cbn [negb fst snd].
    rewrite app_nil_r. reflexivity.
Qed.

Lemma withRetry_outcome_witness :
  Helpers.withRetry flakyOperation apiRetryPolicy = (Helpers.Resolved 42%nat, [1000; 2000]).
Proof.
  assert (H : forall j, (j < 2)%nat ->
                RetrySpec.failsRetryably flakyOperation apiRetryPolicy j).
  { intros j Hj. exists "NETWORK_TIMEOUT after 5000ms"%string.
    destruct j as [|[|j]]; [split; reflexivity | split; reflexivity | lia]. }
  exact (proj1 (withRetry_outcome nat flakyOperation apiRetryPolicy 2
                  ltac:(simpl; lia) H) 42%nat eq_refl).
Defined.

(* ================================================================== *)
(** ** Event matcher: what a lookup returns *)

Module MatchFacts.
Import EventMatcher MatchSpec.

(** The loop of [findKalshiEquivalent] stops at the first accepted market. *)
Lemma findLoop_find cfg newId now dbOk polymarket kalshiMarkets c :
  findLoop cfg newId now dbOk polymarket
    (Helpers.normalize (PolymarketMarket.title polymarket)) kalshiMarkets c
  = match find (accepts cfg polymarket) kalshiMarkets with
    | Some kalshi =>
        (Some (mappingFor newId now polymarket kalshi),
         saveMapping dbOk (mappingFor newId now polymarket kalshi) c)
    | None => (None, c)
    end.
Proof.
  induction kalshiMarkets as [|kalshi rest IH]; [reflexivity|].
  cbn [findLoop find]. cbv zeta.
  change (String.eqb (Helpers.normalize (PolymarketMarket.title polymarket))
                     (Helpers.normalize (KalshiMarket.title kalshi)))
    with (exact polymarket kalshi).
  change (Helpers.levenshteinSimilarity
            (Helpers.normalize (PolymarketMarket.title polymarket))
            (Helpers.normalize (KalshiMarket.title kalshi)))
    with (similarity polymarket kalshi).
  rewrite IH.
  destruct (accepts cfg polymarket kalshi) eqn:Ea; unfold accepts, fuzzy in Ea;
    destruct (exact polymarket kalshi) eqn:E1;
    destruct (geb (similarity polymarket kalshi)
                  (Config.fuzzyMatchMinSimilarity (Config.matching cfg))) eqn:E2;
    destruct (Config.requireDateValidation (Config.matching cfg)) eqn:E3;
    destruct (Helpers.datesMatch (PolymarketMarket.endDate polymarket)
                (KalshiMarket.expirationTime kalshi) (24 * 60 * 60 * 1000)) eqn:E4;
    destruct (Config.requireCategoryMatch (Config.matching cfg)) eqn:E5;
    destruct (categoriesCompatible (PolymarketMarket.title polymarket)
                (KalshiMarket.category kalshi)) eqn:E6;
    cbn [andb orb negb] in Ea |- *; try discriminate;
    unfold mappingFor; rewrite ?E1; reflexivity.
Qed.

Lemma findKalshiEquivalent_uncached cfg newId now dbOk polymarket kalshiMarkets c :
  uncached polymarket (matcher c) ->
  findKalshiEquivalent cfg newId now dbOk polymarket kalshiMarkets c
  = findLoop cfg newId now dbOk polymarket
      (Helpers.normalize (PolymarketMarket.title polymarket)) kalshiMarkets c.
Proof.
  unfold uncached, getMapping, findKalshiEquivalent. intros H.
  destruct (JsMap.get _ _) as [cached|]; [|reflexivity].
  now rewrite (H cached eq_refl).
Qed.

Lemma mappingFor_fields cfg newId now polymarket kalshi :
  accepts cfg polymarket kalshi = true ->
  EventMapping.polymarketConditionId (mappingFor newId now polymarket kalshi)
  = PolymarketMarket.conditionId polymarket
  /\ EventMapping.kalshiTicker (mappingFor newId now polymarket kalshi)
     = KalshiMarket.ticker kalshi
  /\ EventMapping.isActive (mappingFor newId now polymarket kalshi) = true
  /\ (EventMapping.matchMethod (mappingFor newId now polymarket kalshi) = Exact
      /\ EventMapping.matchConfidence (mappingFor newId now polymarket kalshi) = 1
      \/ EventMapping.matchMethod (mappingFor newId now polymarket kalshi) = Fuzzy
         /\ Config.fuzzyMatchMinSimilarity (Config.matching cfg)
            <= EventMapping.matchConfidence (mappingFor newId now polymarket kalshi)
            <= 1).
Proof.
  unfold accepts, mappingFor. intros H.
  destruct (exact polymarket kalshi); cbn [orb] in H.
  - repeat split. left. split; reflexivity.
  - repeat split. right. split; [reflexivity|].
    unfold fuzzy in H. apply andb_prop in H. destruct H as [H _].
    apply andb_prop in H. destruct H as [H _]. apply geb_le in H.
    cbn [createMapping EventMapping.matchConfidence]. split; [exact H|].
    apply LevenshteinFacts.similarity_range.
Qed.

(** The mapping returned does not depend on the matcher's state. *)
Lemma findLoop_result cfg newId now dbOk polymarket title kalshiMarkets c1 c2 :
  fst (findLoop cfg newId now dbOk polymarket title kalshiMarkets c1)
  = fst (findLoop cfg newId now dbOk polymarket title kalshiMarkets c2).
Proof.
  induction kalshiMarkets as [|kalshi rest IH]; [reflexivity|].
  cbn [findLoop]. cbv zeta.
  destruct (String.eqb _ _); [reflexivity|].
  destruct (geb _ _); [|exact IH].
  destruct (_ && _)%bool; [exact IH|].
  destruct (_ && _)%bool; [exact IH|reflexivity].
Qed.

Lemma findLoop_some cfg newId now dbOk polymarket title kalshiMarkets c m c' :
  findLoop cfg newId now dbOk polymarket title kalshiMarkets c = (Some m, c') ->
  c' = saveMapping dbOk m c
  /\ EventMapping.polymarketConditionId m = PolymarketMarket.conditionId polymarket
  /\ EventMapping.isActive m = true.
Proof.
  induction kalshiMarkets as [|kalshi rest IH]; [discriminate|].
  cbn [findLoop]. cbv zeta.
  destruct (String.eqb _ _).
  { intros H. injection H as <- <-. repeat split. }
  destruct (geb _ _); [|exact IH].
  destruct (_ && _)%bool; [exact IH|].
  destruct (_ && _)%bool; [exact IH|].
  intros H. injection H as <- <-. repeat split.
Qed.
End MatchFacts.

(** With no active mapping cached for the market, [findKalshiEquivalent]
    takes the first Kalshi market of the list that is accepted, an exact
    title match or a fuzzy one that passes the guards switched on, and not
    the best one: it returns the mapping made for that market and issues
    one insert for it, or returns [null] and does nothing when no market is
    accepted.  The mapping made is active, carries the market's ticker and
    has confidence 1 when exact, and between the fuzzy threshold and 1 when
    fuzzy. *)
Theorem findKalshiEquivalent_takes_first_accepted :
  forall (cfg : Config.t) (newId : string) (now : Z) (dbOk : bool)
         (polymarket : PolymarketMarket.t) (kalshiMarkets : list KalshiMarket.t)
         (c : EventMatcher.Ctx),
    MatchSpec.uncached polymarket (EventMatcher.matcher c) ->
    match find (MatchSpec.accepts cfg polymarket) kalshiMarkets with
    | Some kalshi =>
        let m := MatchSpec.mappingFor newId now polymarket kalshi in
        EventMatcher.findKalshiEquivalent cfg newId now dbOk polymarket kalshiMarkets c
        = (Some m, EventMatcher.saveMapping dbOk m c)
        /\ EventMapping.kalshiTicker m = KalshiMarket.ticker kalshi
        /\ EventMapping.isActive m = true
        /\ (EventMapping.matchMethod m = Exact /\ EventMapping.matchConfidence m = 1
            \/ EventMapping.matchMethod m = Fuzzy
               /\ Config.fuzzyMatchMinSimilarity (Config.matching cfg)
                  <= EventMapping.matchConfidence m <= 1)
    | None =>
        EventMatcher.findKalshiEquivalent cfg newId now dbOk polymarket kalshiMarkets c
        = (None, c)
    end.
Proof.
  intros cfg newId now dbOk polymarket kalshiMarkets c Hun.
  rewrite (MatchFacts.findKalshiEquivalent_uncached _ _ _ _ _ _ _ Hun),
    MatchFacts.findLoop_find.
  destruct (find (MatchSpec.accepts cfg polymarket) kalshiMarkets) as [kalshi|] eqn:E;
    [|reflexivity].
  apply find_some in E. destruct E as [_ Hacc].
  destruct (MatchFacts.mappingFor_fields cfg newId now polymarket kalshi Hacc)
    as (_ & Ht & Ha & Hc).
  cbv zeta. auto.
Qed.

Lemma findKalshiEquivalent_first_accepted_witness :
  EventMatcher.findKalshiEquivalent (Config.loadConfig Live) "m-1" 0 true polyBitcoin
    [kalshiElection; kalshiBitcoinLate] freshMatcher
  = (Some (MatchSpec.mappingFor "m-1" 0 polyBitcoin kalshiBitcoinLate),
     EventMatcher.saveMapping true
       (MatchSpec.mappingFor "m-1" 0 polyBitcoin kalshiBitcoinLate) freshMatcher).
Proof.
  assert (Hun : MatchSpec.uncached polyBitcoin (EventMatcher.matcher freshMatcher))
    by (intros cached H; discriminate).
  pose proof (findKalshiEquivalent_takes_first_accepted (Config.loadConfig Live)
                "m-1" 0 true polyBitcoin [kalshiElection; kalshiBitcoinLate]
                freshMatcher Hun) as H.
  assert (E : find (MatchSpec.accepts (Config.loadConfig Live) polyBitcoin)
                [kalshiElection; kalshiBitcoinLate] = Some kalshiBitcoinLate)
    by (vm_compute; reflexivity).
  rewrite E in H. exact (proj1 H).
Defined.

(** Once [findKalshiEquivalent] has returned a mapping whose insert the
    database accepted, every later call for the same Polymarket market
    returns that mapping from the cache: it does not look at the Kalshi
    markets offered, creates nothing and issues no query. *)
Theorem matched_market_is_served_from_cache :
  forall (cfg cfg' : Config.t) (newId newId' : string) (now now' : Z) (dbOk' : bool)
         (polymarket : PolymarketMarket.t) (kalshiMarkets kalshiMarkets' : list KalshiMarket.t)
         (c c' : EventMatcher.Ctx) (m : EventMapping.t),
    EventMatcher.findKalshiEquivalent cfg newId now true polymarket kalshiMarkets c
    = (Some m, c') ->
    EventMatcher.findKalshiEquivalent cfg' newId' now' dbOk' polymarket kalshiMarkets' c'
    = (Some m, c').
Proof.
  intros cfg cfg' newId newId' now now' dbOk' polymarket ks ks' c c' m H.
  assert (Hget : JsMap.get (PolymarketMarket.conditionId polymarket)
                   (EventMatcher.cachedMappings (EventMatcher.matcher c')) = Some m
                 /\ EventMapping.isActive m = true).
  { unfold EventMatcher.findKalshiEquivalent in H.
    destruct (JsMap.get (PolymarketMarket.conditionId polymarket)
                (EventMatcher.cachedMappings (EventMatcher.matcher c)))
      as [cached|] eqn:Eg.
    - destruct (EventMapping.isActive cached) eqn:Ea.
      + injection H as <- <-. auto.
      + destruct (MatchFacts.findLoop_some _ _ _ _ _ _ _ _ _ _ H) as (-> & Hid & Hact).
        cbn. rewrite <- Hid. split; [apply LedgerFacts.get_set_same|exact Hact].
    - destruct (MatchFacts.findLoop_some _ _ _ _ _ _ _ _ _ _ H) as (-> & Hid & Hact).
      cbn. rewrite <- Hid. split; [apply LedgerFacts.get_set_same|exact Hact]. }
  destruct Hget as [Hget Hact].
  unfold EventMatcher.findKalshiEquivalent. rewrite Hget, Hact. reflexivity.
Qed.

Lemma matched_market_cache_witness :
  match EventMatcher.findKalshiEquivalent (Config.loadConfig Live) "m-1" 0 true polyBitcoin
          [kalshiBitcoinLate] freshMatcher with
  | (Some m, c') =>
      EventMatcher.findKalshiEquivalent (Config.loadConfig Live) "m-2" 9 true polyBitcoin
        [] c' = (Some m, c')
  | (None, _) => False
  end.
Proof.
  destruct (EventMatcher.findKalshiEquivalent (Config.loadConfig Live) "m-1" 0 true
              polyBitcoin [kalshiBitcoinLate] freshMatcher) as [[m|] c'] eqn:H.
  - exact (matched_market_is_served_from_cache _ _ _ _ _ _ _ _ _ _ _ _ _ H).
  - vm_compute in H. discriminate.
Defined.

(** A manual mapping whose insert the database accepted is what
    [findKalshiEquivalent] returns for its market from then on, with
    confidence 1, whatever the titles and dates of the markets are.  When
    the insert failed the manual mapping is recorded in [manualMappings]
    only, which matching never reads: the result of
    [findKalshiEquivalent] is the same as before the call. *)
Theorem manual_mapping_served_only_if_saved :
  forall (cfg : Config.t) (newId newId' : string) (now now' : Z) (dbOk dbOk' : bool)
         (kalshiTicker : string) (description : option string)
         (polymarket : PolymarketMarket.t) (kalshiMarkets : list KalshiMarket.t)
         (c : EventMatcher.Ctx),
    let r := EventMatcher.addManualMapping newId now dbOk
               (PolymarketMarket.conditionId polymarket) kalshiTicker description c in
    EventMapping.matchConfidence (fst r) = 1
    /\ EventMapping.matchMethod (fst r) = Manual
    /\ (dbOk = true ->
        EventMatcher.findKalshiEquivalent cfg newId' now' dbOk' polymarket kalshiMarkets (snd r)
        = (Some (fst r), snd r))
    /\ (dbOk = false ->
        fst (EventMatcher.findKalshiEquivalent cfg newId' now' dbOk' polymarket
               kalshiMarkets (snd r))
        = fst (EventMatcher.findKalshiEquivalent cfg newId' now' dbOk' polymarket
                 kalshiMarkets c)).
Proof.
  intros cfg newId newId' now now' dbOk dbOk' ticker description polymarket ks c r.
  subst r. split; [reflexivity|]. split; [reflexivity|]. split; intros ->.
  - unfold EventMatcher.findKalshiEquivalent, EventMatcher.addManualMapping,
      EventMatcher.saveMapping.
    cbn [fst snd EventMatcher.matcher EventMatcher.cachedMappings
         EventMapping.polymarketConditionId].
    rewrite LedgerFacts.get_set_same. reflexivity.
  - unfold EventMatcher.findKalshiEquivalent, EventMatcher.addManualMapping,
      EventMatcher.saveMapping.
    cbn [fst snd EventMatcher.matcher EventMatcher.cachedMappings].
    destruct (JsMap.get _ _) as [cached|]; [|apply MatchFacts.findLoop_result].
    destruct (EventMapping.isActive cached); [reflexivity|apply MatchFacts.findLoop_result].
Qed.

Lemma manual_mapping_witness :
  let r := EventMatcher.addManualMapping "m-1" 0 true "condition-123" "PRES-2028" None
             freshMatcher in
  EventMatcher.findKalshiEquivalent (Config.loadConfig Live) "m-2" 9 true polyBitcoin
    [kalshiBitcoinLate] (snd r) = (Some (fst r), snd r).
Proof.
  intros r.
  exact (proj1 (proj2 (proj2
           (manual_mapping_served_only_if_saved (Config.loadConfig Live) "m-1" "m-2" 0 9
              true true "PRES-2028" None polyBitcoin [kalshiBitcoinLate] freshMatcher)))
           eq_refl).
Defined.

(* ================================================================== *)
(** ** Circuit breaker: runs of calls *)

Module BreakerRunFacts.
Import CircuitBreaker BreakerRuns.

Lemma frozen_refl c : paused (breaker c) = true -> frozen c c.
Proof. intros H. repeat split. exact H. Qed.

Lemma frozen_trans c1 c2 c3 : frozen c1 c2 -> frozen c2 c3 -> frozen c1 c3.
Proof.
  intros (_ & H1 & H2 & H3 & H4) (Hp & G1 & G2 & G3 & G4).
  repeat split; try congruence.
Qed.

Lemma frozen_pause_if (b : bool) now reason c0 c :
  frozen c0 c -> frozen c0 (if b then pause now reason c else c).
Proof.
  intros H. destruct b; [|exact H].
  rewrite CircuitBreakerFacts.pause_when_paused; [exact H|apply H].
Qed.

Lemma recordFailure_frozen cfg now type c :
  paused (breaker c) = true -> frozen c (recordFailure cfg now type c).
Proof.
  intros H. unfold recordFailure. cbv zeta.
  repeat apply frozen_pause_if.
  destruct (FailureType_eqb type ASYMMETRIC_EXECUTION); repeat split; exact H.
Qed.

Lemma apply_frozen cfg c call :
  paused (breaker c) = true -> isResume call = false -> frozen c (apply cfg c call).
Proof.
  intros H Hr. destruct call as [now op]. unfold apply, isResume in *. simpl in *.
  destruct op; try discriminate.
  - rewrite CircuitBreakerFacts.pause_when_paused by exact H. now apply frozen_refl.
  - now apply recordFailure_frozen.
  - repeat split. exact H.
Qed.

Lemma pause_agrees now reason c : agrees c -> agrees (pause now reason c).
Proof.
  intros H. unfold pause.
  destruct (paused (breaker c)); [exact H|].
  split; reflexivity.
Qed.

Lemma pause_if_agrees (b : bool) now reason c :
  agrees c -> agrees (if b then pause now reason c else c).
Proof. destruct b; [apply pause_agrees|auto]. Qed.

Lemma recordFailure_agrees cfg now type c : agrees c -> agrees (recordFailure cfg now type c).
Proof.
  intros H. unfold recordFailure. cbv zeta.
  repeat apply pause_if_agrees.
  destruct (FailureType_eqb type ASYMMETRIC_EXECUTION); exact H.
Qed.

Lemma apply_agrees cfg c call : agrees c -> agrees (apply cfg c call).
Proof.
  intros H. destruct call as [now op]. unfold apply. simpl.
  destruct op.
  - now apply pause_agrees.
  - unfold resume.
    destruct (paused (breaker c)); simpl; [split; reflexivity|exact H].
  - now apply recordFailure_agrees.
  - exact H.
Qed.

Lemma alerts_app l1 l2 : alerts (l1 ++ l2) = alerts l1 ++ alerts l2.
Proof. unfold alerts. apply flat_map_app. Qed.

Lemma last_snoc {A} (l : list A) x d : last (l ++ [x]) d = x.
Proof. apply last_last. Qed.

Lemma pause_announced now reason c : announced c -> announced (pause now reason c).
Proof.
  unfold announced, pause. destruct (paused (breaker c)) eqn:E; [auto|].
  intros _ _. simpl. exists reason. split; [reflexivity|].
  rewrite alerts_app, map_app. simpl. apply last_snoc.
Qed.

Lemma pause_if_announced (b : bool) now reason c :
  announced c -> announced (if b then pause now reason c else c).
Proof. destruct b; [apply pause_announced|auto]. Qed.

Lemma recordFailure_announced cfg now type c :
  announced c -> announced (recordFailure cfg now type c).
Proof.
  intros H. unfold recordFailure. cbv zeta.
  repeat apply pause_if_announced.
  destruct (FailureType_eqb type ASYMMETRIC_EXECUTION); exact H.
Qed.

Lemma apply_announced cfg c call : announced c -> announced (apply cfg c call).
Proof.
  intros H. destruct call as [now op]. unfold apply. simpl.
  destruct op.
  - now apply pause_announced.
  - unfold announced, resume in *. destruct (paused (breaker c)) eqn:E; simpl.
    + discriminate.
    + rewrite E. discriminate.
  - now apply recordFailure_announced.
  - exact H.
Qed.
End BreakerRunFacts.

(** A paused breaker is latched: whatever is paused, recorded as a failure
    or as a success afterwards, as long as nobody calls [resume], the
    breaker stays paused with the reason and the timestamp of the first
    pause, the persisted state is not written again and no further alert or
    save goes out. *)
Theorem paused_breaker_is_latched :
  forall (cfg : Config.t) (calls : list (Z * BreakerRuns.Op)) (c : CircuitBreaker.Ctx),
    CircuitBreaker.paused (CircuitBreaker.breaker c) = true ->
    forallb (fun call => negb (BreakerRuns.isResume call)) calls = true ->
    let c' := BreakerRuns.run cfg calls c in
    CircuitBreaker.paused (CircuitBreaker.breaker c') = true
    /\ CircuitBreaker.pauseReason (CircuitBreaker.breaker c')
       = CircuitBreaker.pauseReason (CircuitBreaker.breaker c)
    /\ CircuitBreaker.pausedAt (CircuitBreaker.breaker c')
       = CircuitBreaker.pausedAt (CircuitBreaker.breaker c)
    /\ CircuitBreaker.state c' = CircuitBreaker.state c
    /\ CircuitBreaker.trace c' = CircuitBreaker.trace c.
Proof.
  intros cfg calls. induction calls as [|call calls IH]; intros c Hp Hall c'.
  - subst c'. simpl. auto.
  - simpl in Hall. apply andb_prop in Hall. destruct Hall as [Hr Hall].
    apply negb_true_iff in Hr.
    pose proof (BreakerRunFacts.apply_frozen cfg c call Hp Hr) as Hf.
    assert (Hp' : CircuitBreaker.paused
                    (CircuitBreaker.breaker (BreakerRuns.apply cfg c call)) = true)
      by apply Hf.
    exact (BreakerRunFacts.frozen_trans _ _ _ Hf (IH _ Hp' Hall)).
Qed.

Lemma paused_breaker_latched_witness :
  let c := CircuitBreaker.pause 5 "First pause" freshCtx in
  let c' := BreakerRuns.run (Config.loadConfig Live)
              [(6, BreakerRuns.OpFailure CONNECTION_LOST);
               (7, BreakerRuns.OpPause "Second pause");
               (8, BreakerRuns.OpSuccess)]%Z c in
  CircuitBreaker.pauseReason (CircuitBreaker.breaker c') = Some "First pause"%string
  /\ CircuitBreaker.trace c' = CircuitBreaker.trace c.
Proof.
  intros c c'.
  destruct (paused_breaker_is_latched (Config.loadConfig Live)
              [(6, BreakerRuns.OpFailure CONNECTION_LOST);
               (7, BreakerRuns.OpPause "Second pause");
               (8, BreakerRuns.OpSuccess)]%Z c eq_refl eq_refl)
    as (_ & Hr & _ & _ & Ht).
  split; [exact Hr | exact Ht].
Defined.

(** After [initialize], and after any run of [pause], [resume],
    [recordFailure] and [recordSuccess] calls that follows, the breaker
    and the persisted state tell the same paused flag and the same
    reason. *)
Theorem breaker_agrees_with_persisted_state :
  forall (cfg : Config.t) (s : PersistedState.t) (b : CircuitBreaker.t)
         (tr : list Event) (calls : list (Z * BreakerRuns.Op)),
    BreakerRuns.agrees
      (BreakerRuns.run cfg calls
         (CircuitBreaker.mkCtx (CircuitBreaker.initialize s b) s tr)).
Proof.
  intros cfg s b tr calls.
  assert (H0 : BreakerRuns.agrees
                 (CircuitBreaker.mkCtx (CircuitBreaker.initialize s b) s tr))
    by (split; reflexivity).
  revert H0. generalize (CircuitBreaker.mkCtx (CircuitBreaker.initialize s b) s tr).
  induction calls as [|call calls IH]; intros c H; [exact H|].
  apply IH. now apply BreakerRunFacts.apply_agrees.
Qed.

(** Started from a breaker that is not paused, after any run of calls a
    paused breaker holds the reason carried by the latest circuit-breaker
    alert handed to the alerter: every pause is announced, and with its
    own reason. *)
Theorem paused_breaker_reason_was_alerted :
  forall (cfg : Config.t) (calls : list (Z * BreakerRuns.Op)) (c : CircuitBreaker.Ctx),
    CircuitBreaker.paused (CircuitBreaker.breaker c) = false ->
    BreakerRuns.announced (BreakerRuns.run cfg calls c).
Proof.
  intros cfg calls c Hp.
  assert (H0 : BreakerRuns.announced c)
    by (unfold BreakerRuns.announced; rewrite Hp; discriminate).
  clear Hp. revert c H0.
  induction calls as [|call calls IH]; intros c H; [exact H|].
  apply IH. now apply BreakerRunFacts.apply_announced.
Qed.

Lemma paused_breaker_reason_witness :
  BreakerRuns.announced
    (BreakerRuns.run (Config.loadConfig Live)
       [(1, BreakerRuns.OpFailure EXECUTION_FAILURE);
        (2, BreakerRuns.OpFailure CONNECTION_LOST);
        (3, BreakerRuns.OpResume);
        (4, BreakerRuns.OpFailure DAILY_LOSS_LIMIT)]%Z freshCtx).
Proof.
  apply paused_breaker_reason_was_alerted. reflexivity.
Defined.

(* ================================================================== *)
(** ** Arbitrage detector: cache, scan and revalidation *)

Module MapFacts.
Import MapSpec.

Lemma get_not_in {V} k (m : JsMap.t V) : ~ In k (JsMap.keys m) -> JsMap.get k m = None.
Proof.
  induction m as [|[k' v] m IH]; simpl; intros H; [reflexivity|].
  destruct (String.eqb k k') eqn:E.
  - apply String.eqb_eq in E. subst. exfalso. apply H. now left.
  - apply IH. intros Hin. apply H. now right.
Qed.

Lemma get_in {V} k (v : V) m : JsMap.get k m = Some v -> In (k, v) m.
Proof.
  induction m as [|[k' v'] m IH]; simpl; [discriminate|].
  destruct (String.eqb k k') eqn:E.
  - apply String.eqb_eq in E. subst. intros H. injection H as ->. now left.
  - intros H. right. now apply IH.
Qed.

Lemma get_delete_same {V} k (m : JsMap.t V) : wf m -> JsMap.get k (JsMap.delete k m) = None.
Proof.
  unfold wf. induction m as [|[k' v] m IH]; simpl; intros H; [reflexivity|].
  inversion H as [|? ? Hnin Hnd]; subst.
  destruct (String.eqb k k') eqn:E.
  - apply String.eqb_eq in E. subst. now apply get_not_in.
  - simpl. rewrite E. now apply IH.
Qed.

Lemma get_filter {V} (f : string * V -> bool) k (m : JsMap.t V) :
  wf m ->
  JsMap.get k (filter f m)
  = match JsMap.get k m with
    | Some v => if f (k, v) then Some v else None
    | None => None
    end.
Proof.
  unfold wf. induction m as [|[k' v] m IH]; simpl; intros H; [reflexivity|].
  inversion H as [|? ? Hnin Hnd]; subst.
  destruct (String.eqb k k') eqn:E.
  - apply String.eqb_eq in E. subst k'.
    destruct (f (k, v)); simpl.
    + now rewrite String.eqb_refl.
    + apply get_not_in. intros Hin. apply Hnin.
      unfold JsMap.keys in *. rewrite in_map_iff in *.
      destruct Hin as (x & Hx & Hxin). exists x. split; [exact Hx|].
      apply filter_In in Hxin. tauto.
  - destruct (f (k', v)); simpl; [rewrite E|]; now apply IH.
Qed.

Lemma keys_set {V} k (v : V) m k' :
  In k' (JsMap.keys (JsMap.set k v m)) -> k' = k \/ In k' (JsMap.keys m).
Proof.
  induction m as [|[k2 v2] m IH]; simpl.
  - intros [H|[]]; auto.
  - destruct (String.eqb k k2); simpl; intros [H|H]; auto.
    destruct (IH H); auto.
Qed.

Lemma set_wf {V} k (v : V) m : wf m -> wf (JsMap.set k v m).
Proof.
  unfold wf. induction m as [|[k2 v2] m IH]; simpl; intros H.
  - constructor; [intros []|constructor].
  - inversion H as [|? ? Hnin Hnd]; subst.
    destruct (String.eqb k k2) eqn:E; simpl.
    + constructor; assumption.
    + constructor; [|now apply IH].
      intros Hin. destruct (keys_set _ _ _ _ Hin) as [->|Hin']; [|contradiction].
      now rewrite String.eqb_refl in E.
Qed.
End MapFacts.

Module CacheFacts.
Import ArbitrageDetector ArbitrageOpportunity.

Lemma case1_shape cfg newId now pb kb m o :
  case1 cfg newId now pb kb m = Some o ->
  eventMapping o = m /\ timestamp o = now /\ expirationTime o = (now + 5000)%Z
  /\ executionRisk o = calculateExecutionRisk cfg (maxQuantity o) (buyPrice o).
Proof.
  unfold case1. destruct (ltb _ _); [|discriminate].
  destruct (gtb _ _); [|discriminate].
  intros H. injection H as <-. repeat split.
Qed.

Lemma case2_shape cfg newId now pb kb m o :
  case2 cfg newId now pb kb m = Some o ->
  eventMapping o = m /\ timestamp o = now /\ expirationTime o = (now + 5000)%Z
  /\ executionRisk o = calculateExecutionRisk cfg (maxQuantity o) (buyPrice o).
Proof.
  unfold case2. destruct (ltb _ _); [|discriminate].
  destruct (gtb _ _); [|discriminate].
  intros H. injection H as <-. repeat split.
Qed.

Lemma candidate_shape cfg id1 id2 now pb kb m o :
  candidate cfg id1 id2 now pb kb m = Some o ->
  eventMapping o = m /\ timestamp o = now /\ expirationTime o = (now + 5000)%Z
  /\ executionRisk o = calculateExecutionRisk cfg (maxQuantity o) (buyPrice o).
Proof.
  rewrite DetectorFacts.candidate_cases.
  destruct (case1 cfg id1 now pb kb m) as [o1|] eqn:E1;
    destruct (case2 cfg id2 now pb kb m) as [o2|] eqn:E2; try discriminate.
  - destruct (gtb _ _); intros H; injection H as <-;
      [eapply case2_shape | eapply case1_shape]; eauto.
  - intros H; injection H as <-. eapply case1_shape; eauto.
  - intros H; injection H as <-. eapply case2_shape; eauto.
Qed.

(** What a successful detection returns and what it leaves in the cache. *)
Lemma detectArbitrage_some cfg id1 id2 now pb kb m d o d' :
  detectArbitrage cfg id1 id2 now pb kb m d = (Some o, d') ->
  candidate cfg id1 id2 now pb kb m = Some o
  /\ ltb (maxQuantity o) (Config.minLiquidityDepth (Config.risk cfg)) = false
  /\ d' = ArbitrageDetector.mk (JsMap.set (EventMapping.id m) o (lastOpportunities d)).
Proof.
  unfold detectArbitrage.
  destruct (candidate cfg id1 id2 now pb kb m) as [c|]; [|discriminate].
  destruct (divLt _ _ _); [discriminate|].
  destruct (ltb _ _) eqn:E; [discriminate|].
  intros H. injection H as <- <-. auto.
Qed.
End CacheFacts.

(** An opportunity returned by [detectArbitrage] expires 5000 ms after its
    detection and is what [getLastOpportunity] returns for its mapping up
    to that instant.  A later read returns [null] and evicts the entry, so
    that it is gone from the cache. *)
Theorem detected_opportunity_cached_until_expiry :
  forall (cfg : Config.t) (id1 id2 : string) (now later : Z)
         (pb kb : OrderBook.t) (m : EventMapping.t)
         (d d' : ArbitrageDetector.t) (o : ArbitrageOpportunity.t),
    MapSpec.wf (ArbitrageDetector.lastOpportunities d) ->
    ArbitrageDetector.detectArbitrage cfg id1 id2 now pb kb m d = (Some o, d') ->
    ArbitrageOpportunity.expirationTime o = (now + 5000)%Z
    /\ ((later <= now + 5000)%Z ->
        ArbitrageDetector.getLastOpportunity later (EventMapping.id m) d' = (Some o, d'))
    /\ ((now + 5000 < later)%Z ->
        fst (ArbitrageDetector.getLastOpportunity later (EventMapping.id m) d') = None
        /\ JsMap.get (EventMapping.id m)
             (ArbitrageDetector.lastOpportunities
                (snd (ArbitrageDetector.getLastOpportunity later (EventMapping.id m) d')))
           = None).
Proof.
  intros cfg id1 id2 now later pb kb m d d' o Hwf H.
  destruct (CacheFacts.detectArbitrage_some _ _ _ _ _ _ _ _ _ _ H) as (Hc & _ & ->).
  destruct (CacheFacts.candidate_shape _ _ _ _ _ _ _ _ Hc) as (_ & _ & Hexp & _).
  split; [exact Hexp|].
  unfold ArbitrageDetector.getLastOpportunity. cbn [ArbitrageDetector.lastOpportunities].
  rewrite LedgerFacts.get_set_same, Hexp. split; intros Hl.
  - assert (E : (now + 5000 <? later)%Z = false) by (apply Z.ltb_ge; lia).
    rewrite E. reflexivity.
  - assert (E : (now + 5000 <? later)%Z = true) by (apply Z.ltb_lt; lia).
    rewrite E. cbn [fst snd ArbitrageDetector.lastOpportunities]. split; [reflexivity|].
    apply MapFacts.get_delete_same, MapFacts.set_wf, Hwf.
Qed.

(** Scenario 1 detected at time 0, read back at times 5000 and 5001. *)
Lemma detected_opportunity_cached_witness :
  match ArbitrageDetector.detectArbitrage (Config.loadConfig Live) "id1" "id2" 0
          polyBook1 kalshiBook1 testMapping ArbitrageDetector.new with
  | (Some o, d') =>
      ArbitrageDetector.getLastOpportunity 5000 "test-mapping-1" d' = (Some o, d')
      /\ fst (ArbitrageDetector.getLastOpportunity 5001 "test-mapping-1" d') = None
  | (None, _) => False
  end.
Proof.
  assert (Hwf : MapSpec.wf (ArbitrageDetector.lastOpportunities ArbitrageDetector.new))
    by constructor.
  destruct (ArbitrageDetector.detectArbitrage (Config.loadConfig Live) "id1" "id2" 0
              polyBook1 kalshiBook1 testMapping ArbitrageDetector.new)
    as [[o|] d'] eqn:H.
  - destruct (detected_opportunity_cached_until_expiry _ _ _ _ 5000 _ _ _ _ _ _ Hwf H)
      as (_ & Hin & _).
    destruct (detected_opportunity_cached_until_expiry _ _ _ _ 5001 _ _ _ _ _ _ Hwf H)
      as (_ & _ & Hout).
    split; [apply Hin; lia | apply Hout; lia].
  - vm_compute in H. discriminate.
Defined.

(** [clearExpired] drops exactly the entries a read at the same instant
    would refuse: after the sweep, [getLastOpportunity] returns for each
    mapping what it returned before, and no longer has anything to evict. *)
Theorem clearExpired_agrees_with_reads :
  forall (now : Z) (mappingId : string) (d : ArbitrageDetector.t),
    MapSpec.wf (ArbitrageDetector.lastOpportunities d) ->
    ArbitrageDetector.getLastOpportunity now mappingId (ArbitrageDetector.clearExpired now d)
    = (fst (ArbitrageDetector.getLastOpportunity now mappingId d),
       ArbitrageDetector.clearExpired now d).
Proof.
  intros now k d Hwf. unfold ArbitrageDetector.getLastOpportunity, ArbitrageDetector.clearExpired.
  cbn [ArbitrageDetector.lastOpportunities].
  rewrite (MapFacts.get_filter _ k _ Hwf). cbn [snd].
  destruct (JsMap.get k (ArbitrageDetector.lastOpportunities d)) as [o|]; [|reflexivity].
  destruct (ArbitrageOpportunity.expirationTime o <? now)%Z eqn:E; simpl.
  - reflexivity.
  - rewrite E. reflexivity.
Qed.

Lemma clearExpired_witness :
  match ArbitrageDetector.detectArbitrage (Config.loadConfig Live) "id1" "id2" 0
          polyBook1 kalshiBook1 testMapping ArbitrageDetector.new with
  | (_, d') =>
      fst (ArbitrageDetector.getLastOpportunity 6000 "test-mapping-1"
             (ArbitrageDetector.clearExpired 6000 d'))
      = fst (ArbitrageDetector.getLastOpportunity 6000 "test-mapping-1" d')
  end.
Proof.
  destruct (ArbitrageDetector.detectArbitrage (Config.loadConfig Live) "id1" "id2" 0
              polyBook1 kalshiBook1 testMapping ArbitrageDetector.new)
    as [o d'] eqn:H.
  rewrite clearExpired_agrees_with_reads; [reflexivity|].
  vm_compute in H. injection H as _ <-. repeat constructor. intros [].
Defined.

(** On books that are not crossed at most one direction qualifies: the two
    cases of [detectArbitrage] never both build an opportunity, so the
    choice between two candidates is never exercised. *)
Theorem uncrossed_books_one_direction :
  forall (cfg : Config.t) (id1 id2 : string) (now : Z)
         (pb kb : OrderBook.t) (m : EventMapping.t),
    BookSpec.uncrossed pb -> BookSpec.uncrossed kb ->
    ArbitrageDetector.case1 cfg id1 now pb kb m = None
    \/ ArbitrageDetector.case2 cfg id2 now pb kb m = None.
Proof.
  intros cfg id1 id2 now pb kb m Hp Hk. unfold BookSpec.uncrossed in *.
  destruct (DetectorFacts.case1_spec cfg id1 now pb kb m) as [_ H1].
  destruct (DetectorFacts.case2_spec cfg id2 now pb kb m) as [_ H2].
  destruct (DetectorFacts.qualifies_dec cfg Polymarket Kalshi
              (ArbitrageDetector.bestPrice (OrderBook.asks pb) 1)
              (ArbitrageDetector.bestPrice (OrderBook.bids kb) 0)) as [Q1|Q1];
    [|left; now apply H1].
  right. apply H2. intros [Q2 _]. destruct Q1 as [Q1 _]. lra.
Qed.

Lemma uncrossed_books_witness :
  ArbitrageDetector.case1 (Config.loadConfig Live) "id1" 0 polyBook1 kalshiBook1 testMapping
  = None
  \/ ArbitrageDetector.case2 (Config.loadConfig Live) "id2" 0 polyBook1 kalshiBook1 testMapping
     = None.
Proof.
  apply uncrossed_books_one_direction; unfold BookSpec.uncrossed; simpl; discriminate.
Defined.

(** An opportunity that comes out of [detectArbitrage] draws no warning
    from [validateTrade]: its quantity reaches the liquidity floor and its
    execution risk is 0.1 or 0.3.  With a positive buy price it also passes
    the risk manager's profit-threshold check whenever the risk threshold
    does not exceed the detector's. *)
Theorem detected_opportunity_draws_no_warning :
  forall (cfg : Config.t) (id1 id2 : string) (now : Z)
         (pb kb : OrderBook.t) (m : EventMapping.t) (d : ArbitrageDetector.t)
         (o : ArbitrageOpportunity.t)
         (breaker : CircuitBreaker.t) (state : PersistedState.t) (rm : RiskManager.t)
         (quantity : number),
    fst (ArbitrageDetector.detectArbitrage cfg id1 id2 now pb kb m d) = Some o ->
    (ArbitrageOpportunity.executionRisk o == 1 # 10
     \/ ArbitrageOpportunity.executionRisk o == 3 # 10)
    /\ RiskCheck.warnings (RiskManager.validateTrade cfg breaker state rm o quantity) = None
    /\ (0 < ArbitrageOpportunity.buyPrice o ->
        Config.minProfitThreshold (Config.risk cfg)
        <= Config.t_minProfitThreshold (Config.trading cfg) ->
        divLt (ArbitrageOpportunity.netProfit o) (ArbitrageOpportunity.buyPrice o)
              (Config.minProfitThreshold (Config.risk cfg)) = false).
Proof.
  intros cfg id1 id2 now pb kb m d o breaker state rm quantity H.
  destruct (ArbitrageDetector.detectArbitrage cfg id1 id2 now pb kb m d) as [r d'] eqn:E.
  simpl in H. subst r.
  destruct (CacheFacts.detectArbitrage_some _ _ _ _ _ _ _ _ _ _ E) as (Hc & Hliq & _).
  destruct (CacheFacts.candidate_shape _ _ _ _ _ _ _ _ Hc) as (_ & _ & _ & Hrisk).
  destruct (DetectorFacts.candidate_profitable _ _ _ _ _ _ _ _ Hc)
    as (_ & Hg & Hf & Hn & _ & Hq).
  assert (Hr : ArbitrageOpportunity.executionRisk o == 1 # 10
               \/ ArbitrageOpportunity.executionRisk o == 3 # 10).
  { rewrite Hrisk. unfold ArbitrageDetector.calculateExecutionRisk.
    destruct (geb _ _); [left; reflexivity|].
    apply ltb_ge, geb_le in Hliq. rewrite Hliq. right; reflexivity. }
  split; [exact Hr|]. split.
  - unfold RiskManager.validateTrade. cbv zeta. cbn [RiskCheck.warnings].
    rewrite Hliq.
    assert (Hg5 : gtb (ArbitrageOpportunity.executionRisk o) (1 # 2) = false).
    { apply gtb_le. destruct Hr as [-> | ->]; discriminate. }
    rewrite Hg5. reflexivity.
  - intros Hprice Hthr. unfold divLt.
    destruct (Qeq_bool (ArbitrageOpportunity.buyPrice o) 0) eqn:E0.
    + apply Qeq_bool_iff in E0. rewrite E0 in Hprice. discriminate.
    + apply ltb_ge.
      assert (Hne : ~ ArbitrageOpportunity.buyPrice o == 0)
        by (intros Ez; rewrite Ez in Hprice; discriminate).
      apply Qle_shift_div_l; [exact Hprice|].
      rewrite Hn, Hg, Hf. nra.
Qed.

Lemma detected_opportunity_no_warning_witness :
  match fst (ArbitrageDetector.detectArbitrage (Config.loadConfig Live) "id1" "id2" 0
               polyBook1 kalshiBook1 testMapping ArbitrageDetector.new) with
  | Some o =>
      RiskCheck.warnings
        (RiskManager.validateTrade (Config.loadConfig Live) CircuitBreaker.new
           (StateManager.createInitialState "2025-01-01" 0) RiskManager.new o 50)
      = None
  | None => False
  end.
Proof.
  destruct (fst (ArbitrageDetector.detectArbitrage (Config.loadConfig Live) "id1" "id2" 0
                   polyBook1 kalshiBook1 testMapping ArbitrageDetector.new))
    as [o|] eqn:H.
  - exact (proj1 (proj2 (detected_opportunity_draws_no_warning _ _ _ _ _ _ _ _ _
                           CircuitBreaker.new
                           (StateManager.createInitialState "2025-01-01" 0)
                           RiskManager.new 50 H))).
  - vm_compute in H. discriminate.
Defined.

(** The fee breakdown of [calculateProfitDetails] adds up to the estimate
    of [estimateFees] for the same trade; the net profit is the gross
    profit less that estimate and the gas cost; a trade across the two
    venues always carries twice the estimated gas cost; and the profit
    percentage is 0 when the trade value is not positive. *)
Theorem calculateProfitDetails_matches_estimateFees :
  forall (cfg : Config.t) (buy sell : Platform) (buyPrice sellPrice quantity : number),
    let p := ArbitrageDetector.calculateProfitDetails cfg buy sell buyPrice sellPrice quantity in
    ArbitrageDetector.polymarketFees p + ArbitrageDetector.kalshiFees p
    == ArbitrageDetector.estimateFees buy sell buyPrice sellPrice quantity
    /\ ArbitrageDetector.pc_netProfit p
       == (sellPrice - buyPrice) * quantity
          - ArbitrageDetector.estimateFees buy sell buyPrice sellPrice quantity
          - ArbitrageDetector.gasCost p
    /\ (buy <> sell ->
        ArbitrageDetector.gasCost p
        = Config.estimatedGasCostUsd (Config.smallPosition cfg) * 2)
    /\ (buyPrice * quantity <= 0 -> ArbitrageDetector.profitPercentage p = 0).
Proof.
  intros cfg buy sell bp sp q p. subst p.
  unfold ArbitrageDetector.calculateProfitDetails, ArbitrageDetector.estimateFees.
  cbv zeta. cbn [ArbitrageDetector.polymarketFees ArbitrageDetector.kalshiFees
                 ArbitrageDetector.pc_netProfit ArbitrageDetector.gasCost
                 ArbitrageDetector.profitPercentage].
  split; [|split; [|split]].
  - destruct buy, sell; simpl; ring.
  - destruct buy, sell; simpl; ring.
  - intros Hne. destruct buy, sell; try reflexivity; congruence.
  - intros Hle. apply gtb_le in Hle. rewrite Hle. reflexivity.
Qed.

Lemma calculateProfitDetails_witness :
  ArbitrageDetector.gasCost
    (ArbitrageDetector.calculateProfitDetails (Config.loadConfig Live)
       Polymarket Kalshi (45 # 100) (55 # 100) 10)
  = (1 # 100) * 2.
Proof.
  apply (calculateProfitDetails_matches_estimateFees (Config.loadConfig Live)
           Polymarket Kalshi (45 # 100) (55 # 100) 10).
  discriminate.
Defined.

(** When [validateOpportunity] answers true, the opportunity had not
    expired, both order books were fetched, and a fresh detection on them
    succeeded; the fresh opportunity is then the one cached for the
    mapping, and for an opportunity of positive net profit the fresh net
    profit is at least [(1 - maxSlippage)] of the original one. *)
Theorem validateOpportunity_sound :
  forall (cfg : Config.t) (id1 id2 : string) (now : Z)
         (freshBooks : option (OrderBook.t * OrderBook.t))
         (opportunity : ArbitrageOpportunity.t) (d d' : ArbitrageDetector.t),
    ArbitrageDetector.validateOpportunity cfg id1 id2 now freshBooks opportunity d
    = (true, d') ->
    (now <= ArbitrageOpportunity.expirationTime opportunity)%Z
    /\ exists polyBook kalshiBook freshOpportunity,
         freshBooks = Some (polyBook, kalshiBook)
         /\ ArbitrageDetector.detectArbitrage cfg id1 id2 now polyBook kalshiBook
              (ArbitrageOpportunity.eventMapping opportunity) d
            = (Some freshOpportunity, d')
         /\ ArbitrageDetector.getLastOpportunity now
              (EventMapping.id (ArbitrageOpportunity.eventMapping opportunity)) d'
            = (Some freshOpportunity, d')
         /\ (0 < ArbitrageOpportunity.netProfit opportunity ->
             (1 - Config.maxSlippage (Config.trading cfg))
             * ArbitrageOpportunity.netProfit opportunity
             <= ArbitrageOpportunity.netProfit freshOpportunity).
Proof.
  intros cfg id1 id2 now books opp d d'. unfold ArbitrageDetector.validateOpportunity.
  destruct (ArbitrageOpportunity.expirationTime opp <? now)%Z eqn:Eexp; [discriminate|].
  apply Z.ltb_ge in Eexp. destruct books as [[pb kb]|]; [|discriminate].
  destruct (ArbitrageDetector.detectArbitrage cfg id1 id2 now pb kb
              (ArbitrageOpportunity.eventMapping opp) d) as [[fresh|] d1] eqn:Ed;
    [|discriminate].
  destruct (divLt _ _ _) eqn:Ediv; [discriminate|].
  intros H. injection H as <-. split; [exact Eexp|].
  exists pb, kb, fresh. split; [reflexivity|]. split; [exact Ed|].
  destruct (CacheFacts.detectArbitrage_some _ _ _ _ _ _ _ _ _ _ Ed) as (Hc & _ & Hd1).
  destruct (CacheFacts.candidate_shape _ _ _ _ _ _ _ _ Hc) as (_ & _ & Hexp & _).
  split.
  - subst d1. unfold ArbitrageDetector.getLastOpportunity.
    cbn [ArbitrageDetector.lastOpportunities].
    rewrite LedgerFacts.get_set_same, Hexp.
    assert (E : (now + 5000 <? now)%Z = false) by (apply Z.ltb_ge; lia).
    rewrite E. reflexivity.
  - intros Hpos. unfold divLt in Ediv.
    destruct (Qeq_bool (ArbitrageOpportunity.netProfit opp) 0) eqn:E0.
    + apply Qeq_bool_iff in E0. rewrite E0 in Hpos. discriminate.
    + apply ltb_ge in Ediv.
      assert (Hne : ~ ArbitrageOpportunity.netProfit opp == 0)
        by (intros Ez; rewrite Ez in Hpos; discriminate).
      setoid_replace (ArbitrageOpportunity.netProfit fresh)
        with (ArbitrageOpportunity.netProfit fresh / ArbitrageOpportunity.netProfit opp
              * ArbitrageOpportunity.netProfit opp) by (field; exact Hne).
      apply Qmult_le_compat_r; [exact Ediv | apply Qlt_le_weak; exact Hpos].
Qed.

Lemma validateOpportunity_witness :
  match ArbitrageDetector.validateOpportunity (Config.loadConfig Live) "id1" "id2" 1000
          (Some (polyBook1, kalshiBook1)) opportunity1 ArbitrageDetector.new with
  | (true, d') =>
      (1000 <= ArbitrageOpportunity.expirationTime opportunity1)%Z
  | (false, _) => False
  end.
Proof.
  destruct (ArbitrageDetector.validateOpportunity (Config.loadConfig Live) "id1" "id2" 1000
              (Some (polyBook1, kalshiBook1)) opportunity1 ArbitrageDetector.new)
    as [[|] d'] eqn:H.
  - exact (proj1 (validateOpportunity_sound _ _ _ _ _ _ _ _ H)).
  - vm_compute in H. discriminate.
Defined.

Module ScanFacts.
Import ArbitrageDetector.

Lemma scanLoop_members cfg o mappings :
  forall d opp,
    In opp (fst (scanLoop cfg o mappings d)) ->
    exists m polyBook kalshiBook d0,
      In m mappings
      /\ EventMatcher.canTradeOnMapping cfg m = true
      /\ scanBooks o m = Some (polyBook, kalshiBook)
      /\ fst (detectArbitrage cfg (fst (scanIds o m)) (snd (scanIds o m)) (scanNow o m)
                polyBook kalshiBook m d0) = Some opp.
Proof.
  induction mappings as [|m rest IH]; simpl; intros d opp Hin; [contradiction|].
  destruct (EventMatcher.canTradeOnMapping cfg m) eqn:Ecan; simpl in Hin.
  - destruct (scanBooks o m) as [[pb kb]|] eqn:Eb.
    + simpl in Hin.
      destruct (fst (detectArbitrage cfg (fst (scanIds o m)) (snd (scanIds o m))
                       (scanNow o m) pb kb m d)) as [found|] eqn:Ed.
      * destruct Hin as [<-|Hin].
        -- exists m, pb, kb, d. auto.
        -- destruct (IH _ _ Hin) as (m' & pb' & kb' & d0 & Hm & H).
           exists m', pb', kb', d0. split; [now right|exact H].
      * destruct (IH _ _ Hin) as (m' & pb' & kb' & d0 & Hm & H).
        exists m', pb', kb', d0. split; [now right|exact H].
    + destruct (IH _ _ Hin) as (m' & pb' & kb' & d0 & Hm & H).
      exists m', pb', kb', d0. split; [now right|exact H].
  - destruct (IH _ _ Hin) as (m' & pb' & kb' & d0 & Hm & H).
    exists m', pb', kb', d0. split; [now right|exact H].
Qed.

End ScanFacts.

(** Every opportunity returned by [scanForOpportunities] belongs to a
    cached mapping that is active, whose confidence reaches the configured
    threshold and whose two order books were fetched; it buys on one venue
    and sells on the other, at a buy price below the sell price, and its
    quantity reaches the liquidity floor. *)
Theorem scanForOpportunities_sound :
  forall (cfg : Config.t) (o : ArbitrageDetector.ScanOracle)
         (matcher : EventMatcher.t) (d : ArbitrageDetector.t)
         (opp : ArbitrageOpportunity.t),
    In opp (fst (ArbitrageDetector.scanForOpportunities cfg o matcher d)) ->
    In (ArbitrageOpportunity.eventMapping opp)
       (JsMap.values (EventMatcher.cachedMappings matcher))
    /\ EventMapping.isActive (ArbitrageOpportunity.eventMapping opp) = true
    /\ Config.minConfidenceThreshold (Config.matching cfg)
       <= EventMapping.matchConfidence (ArbitrageOpportunity.eventMapping opp)
    /\ ArbitrageDetector.scanBooks o (ArbitrageOpportunity.eventMapping opp) <> None
    /\ ArbitrageOpportunity.buyPlatform opp <> ArbitrageOpportunity.sellPlatform opp
    /\ ArbitrageOpportunity.buyPrice opp < ArbitrageOpportunity.sellPrice opp
    /\ Config.minLiquidityDepth (Config.risk cfg) <= ArbitrageOpportunity.maxQuantity opp.
Proof.
  intros cfg o matcher d opp Hin. unfold ArbitrageDetector.scanForOpportunities in Hin.
  destruct (ScanFacts.scanLoop_members _ _ _ _ _ Hin)
    as (m & pb & kb & d0 & Hm & Hcan & Hb & Hd).
  unfold EventMatcher.getActiveMappings in Hm. apply filter_In in Hm.
  destruct Hm as [Hm Hact].
  destruct (ArbitrageDetector.detectArbitrage cfg (fst (ArbitrageDetector.scanIds o m))
              (snd (ArbitrageDetector.scanIds o m)) (ArbitrageDetector.scanNow o m)
              pb kb m d0) as [r d1] eqn:Ed.
  simpl in Hd. subst r.
  destruct (CacheFacts.detectArbitrage_some _ _ _ _ _ _ _ _ _ _ Ed) as (Hc & Hliq & _).
  destruct (CacheFacts.candidate_shape _ _ _ _ _ _ _ _ Hc) as (Hev & _).
  rewrite Hev. split; [exact Hm|]. split; [exact Hact|]. split.
  - unfold EventMatcher.canTradeOnMapping in Hcan.
    destruct (ltb _ _) eqn:E; [discriminate|]. now apply ltb_ge in E.
  - split; [rewrite Hb; discriminate|].
    destruct (DetectorFacts.candidate_profitable _ _ _ _ _ _ _ _ Hc)
      as (Hv & _ & _ & _ & Hlt & _).
    split; [exact Hv|]. split; [exact Hlt|]. now apply ltb_ge in Hliq.
Qed.

Lemma scanForOpportunities_witness :
  match fst (ArbitrageDetector.scanForOpportunities (Config.loadConfig Live)
               scanOracle1 scanMatcher1 ArbitrageDetector.new) with
  | opp :: _ => ArbitrageOpportunity.buyPrice opp < ArbitrageOpportunity.sellPrice opp
  | [] => False
  end.
Proof.
  destruct (fst (ArbitrageDetector.scanForOpportunities (Config.loadConfig Live)
                   scanOracle1 scanMatcher1 ArbitrageDetector.new))
    as [|opp rest] eqn:H.
  - vm_compute in H. discriminate.
  - refine (proj1 (proj2 (proj2 (proj2 (proj2 (proj2
             (scanForOpportunities_sound (Config.loadConfig Live)
                scanOracle1 scanMatcher1 ArbitrageDetector.new opp _))))))).
    rewrite H. now left.
Defined.

(* ================================================================== *)
(** ** Risk manager: the checks and the ledger per event *)

Module RiskFacts.
Import RiskManager ArbitrageOpportunity.

Lemma floor_le (x : Q) : floor x <= x.
Proof. apply Qfloor_le. Qed.

Lemma floor_mono (x y : Q) : x <= y -> floor x <= floor y.
Proof.
  intros H. unfold floor. rewrite <- Zle_Qle. now apply Qfloor_resp_le.
Qed.

Lemma div_mul (x y : Q) : ~ y == 0 -> (x / y) * y == x.
Proof. intros H. field. exact H. Qed.
End RiskFacts.

(** The quantity [validateTrade] suggests, when it suggests one, is positive
    and at most the per-trade cap; for a positive buy price it is also at
    most the requested quantity and its cost fits whatever room is left
    under the total and the per-event exposure limits. *)
Theorem validateTrade_suggestion_fits :
  forall (cfg : Config.t) (breaker : CircuitBreaker.t) (state : PersistedState.t)
         (rm : RiskManager.t) (opportunity : ArbitrageOpportunity.t) (quantity s : number),
    RiskCheck.suggestedQuantity
      (RiskManager.validateTrade cfg breaker state rm opportunity quantity) = Some s ->
    let price := ArbitrageOpportunity.buyPrice opportunity in
    let room := Config.maxTotalExposure (Config.risk cfg) - RiskManager.totalExposure rm in
    let eventRoom :=
      Config.maxExposurePerEvent (Config.risk cfg)
      - RiskManager.getEventExposure
          (EventMapping.id (ArbitrageOpportunity.eventMapping opportunity)) rm in
    0 < s
    /\ s <= Config.maxQuantityPerTrade (Config.risk cfg)
    /\ (0 < price ->
        s <= quantity
        /\ (0 < room -> s * price <= room)
        /\ (0 < eventRoom -> s * price <= eventRoom)).
Proof.
  intros cfg breaker state rm opportunity quantity s.
  unfold RiskManager.validateTrade. cbv zeta. cbn [RiskCheck.suggestedQuantity].
  set (price := ArbitrageOpportunity.buyPrice opportunity).
  set (room := Config.maxTotalExposure (Config.risk cfg) - RiskManager.totalExposure rm).
  set (eventRoom := Config.maxExposurePerEvent (Config.risk cfg) - _).
  set (cap := Config.maxQuantityPerTrade (Config.risk cfg)).
  set (s1 := if (gtb room 0 && gtb (quantity * price) room)%bool
             then floor (room / price) else quantity).
  set (s2 := if (gtb eventRoom 0 && gtb (quantity * price) eventRoom)%bool
             then Qmin s1 (floor (eventRoom / price)) else s1).
  destruct (gtb (Qmin s2 cap) 0) eqn:Hpos; [|discriminate].
  intros H. injection H as <-. apply gtb_lt in Hpos.
  split; [exact Hpos|]. split; [apply Q.le_min_r|].
  intros Hprice.
  assert (Hne : ~ price == 0) by (intros E; rewrite E in Hprice; discriminate).
  pose proof (RiskFacts.floor_le (room / price)) as Hf1.
  pose proof (RiskFacts.floor_le (eventRoom / price)) as Hf2.
  pose proof (RiskFacts.div_mul room price Hne) as Hd1.
  pose proof (RiskFacts.div_mul eventRoom price Hne) as Hd2.
  pose proof (Q.le_min_l s2 cap) as Hs2.
  assert (Hs1q : s1 <= quantity /\ (0 < room -> s1 * price <= room)).
  { subst s1. destruct (gtb room 0) eqn:E1; simpl.
    - apply gtb_lt in E1. destruct (gtb (quantity * price) room) eqn:E2.
      + apply gtb_lt in E2. split; [|intros _; nra].
        assert (room / price < quantity); [|lra].
        apply Qnot_le_lt. intros Hc. nra.
      + apply gtb_le in E2. split; [apply Qle_refl | intros _; exact E2].
    - apply gtb_le in E1. split; [apply Qle_refl | intros Hc; lra]. }
  destruct Hs1q as [Hs1q Hs1room].
  assert (Hs2s1 : s2 <= s1 /\ (0 < eventRoom -> s2 * price <= eventRoom)).
  { subst s2. destruct (gtb eventRoom 0) eqn:E1; simpl.
    - apply gtb_lt in E1. destruct (gtb (quantity * price) eventRoom) eqn:E2.
      + split; [apply Q.le_min_l|]. intros _.
        pose proof (Q.le_min_r s1 (floor (eventRoom / price))). nra.
      + apply gtb_le in E2. split; [apply Qle_refl|]. intros _. nra.
    - apply gtb_le in E1. split; [apply Qle_refl | intros Hc; lra]. }
  destruct Hs2s1 as [Hs2s1 Hs2room].
  split; [lra|]. split.
  - intros Hroom. specialize (Hs1room Hroom). nra.
  - intros Hroom. specialize (Hs2room Hroom). nra.
Qed.

(** A request for 300 contracts at 0.50 against a total limit of 100. *)
Lemma validateTrade_suggestion_witness :
  match RiskCheck.suggestedQuantity
          (RiskManager.validateTrade (Config.loadConfig Live) CircuitBreaker.new
             (StateManager.createInitialState "2025-01-01" 0) RiskManager.new
             largeOpportunity 300) with
  | Some s => 0 < s /\ s <= 50
  | None => False
  end.
Proof.
  destruct (RiskCheck.suggestedQuantity
              (RiskManager.validateTrade (Config.loadConfig Live) CircuitBreaker.new
                 (StateManager.createInitialState "2025-01-01" 0) RiskManager.new
                 largeOpportunity 300)) as [s|] eqn:H.
  - destruct (validateTrade_suggestion_fits _ _ _ _ _ _ _ H) as (Hpos & Hcap & _).
    split; [exact Hpos | exact Hcap].
  - vm_compute in H. discriminate.
Defined.

(** [calculateOptimalQuantity] returns a whole number that is at least the
    floor of the minimum trade size and, when that minimum does not exceed
    the per-trade cap, at most the cap.  When the total exposure limit has
    room and the minimum trade size is affordable within it, the cost of
    the returned quantity at a positive buy price fits the room. *)
Theorem calculateOptimalQuantity_bounds :
  forall (cfg : Config.t) (rm : RiskManager.t) (opportunity : ArbitrageOpportunity.t),
    let q := RiskManager.calculateOptimalQuantity cfg rm opportunity in
    let price := ArbitrageOpportunity.buyPrice opportunity in
    let room := Config.maxTotalExposure (Config.risk cfg) - RiskManager.totalExposure rm in
    (exists z : Z, q = inject_Z z)
    /\ floor (Config.minQuantityPerTrade (Config.risk cfg)) <= q
    /\ (Config.minQuantityPerTrade (Config.risk cfg)
        <= Config.maxQuantityPerTrade (Config.risk cfg) ->
        q <= Config.maxQuantityPerTrade (Config.risk cfg))
    /\ (0 < price -> 0 < room ->
        Config.minQuantityPerTrade (Config.risk cfg) * price <= room ->
        q * price <= room).
Proof.
  intros cfg rm opportunity q price room. subst q.
  unfold RiskManager.calculateOptimalQuantity. cbv zeta.
  fold price. fold room.
  set (lo := Config.minQuantityPerTrade (Config.risk cfg)).
  set (cap := Config.maxQuantityPerTrade (Config.risk cfg)).
  set (q0 := Qmin (Qmin (Qmin _ _) _) cap).
  set (q1 := if gtb room 0
             then if Qeq_bool price 0 then q0 else Qmin q0 (floor (room / price))
             else q0).
  assert (Hq0 : q0 <= cap) by apply Q.le_min_r.
  assert (Hq1 : q1 <= q0).
  { subst q1. destruct (gtb room 0); [|apply Qle_refl].
    destruct (Qeq_bool price 0); [apply Qle_refl | apply Q.le_min_l]. }
  split; [eexists; reflexivity|]. split; [|split].
  - apply RiskFacts.floor_mono, Q.le_max_r.
  - intros Hlo. eapply Qle_trans; [apply RiskFacts.floor_le|].
    apply Q.max_lub; lra.
  - intros Hprice Hroom Hmin.
    assert (Hne : ~ price == 0) by (intros E; rewrite E in Hprice; discriminate).
    pose proof (RiskFacts.floor_le (room / price)) as Hf.
    pose proof (RiskFacts.div_mul room price Hne) as Hd.
    pose proof (RiskFacts.floor_le (Qmax q1 lo)) as Hfl.
    assert (Hq1room : q1 * price <= room).
    { subst q1. apply gtb_lt in Hroom. rewrite Hroom.
      destruct (Qeq_bool price 0) eqn:E; [apply Qeq_bool_iff in E; contradiction|].
      pose proof (Q.le_min_r q0 (floor (room / price))). nra. }
    assert (Hmax : Qmax q1 lo * price <= room).
    { destruct (Q.max_spec q1 lo) as [[_ E]|[_ E]]; rewrite E; assumption. }
    nra.
Qed.

(** Scenario 1 under the shipped limits: between 1 and 50 contracts. *)
Lemma calculateOptimalQuantity_witness :
  RiskManager.calculateOptimalQuantity (Config.loadConfig Live) RiskManager.new opportunity1
  <= 50
  /\ RiskManager.calculateOptimalQuantity (Config.loadConfig Live) RiskManager.new opportunity1
     * (42 # 100) <= 100 - 0.
Proof.
  destruct (calculateOptimalQuantity_bounds (Config.loadConfig Live) RiskManager.new
              opportunity1) as (_ & _ & Hcap & Hroom).
  split.
  - apply Hcap. discriminate.
  - apply Hroom; [reflexivity | reflexivity | discriminate].
Defined.

Module ExposureFacts.
Import RiskManager.

Lemma addPosition_positionsOf p e rm :
  positionsOf e (addPosition p rm)
  = if String.eqb (Position.eventId p) e
    then positionsOf e rm ++ [p]
    else positionsOf e rm.
Proof.
  unfold positionsOf, addPosition. simpl. rewrite LedgerFacts.pushPosition_get.
  destruct (String.eqb (Position.eventId p) e); reflexivity.
Qed.

Lemma getEventExposure_sum e rm :
  getEventExposure e rm == LedgerSpec.exposure (positionsOf e rm).
Proof.
  unfold getEventExposure. rewrite LedgerFacts.inner_loop. ring.
Qed.
End ExposureFacts.

(** [addPosition] raises the exposure of the position's own event by
    quantity times average price and leaves the exposure of every other
    event as it was; an event without positions has exposure 0. *)
Theorem addPosition_event_exposure :
  forall (p : Position.t) (e : string) (rm : RiskManager.t),
    RiskManager.getEventExposure e (RiskManager.addPosition p rm)
    == RiskManager.getEventExposure e rm
       + (if String.eqb (Position.eventId p) e
          then Position.quantity p * Position.avgPrice p
          else 0)
    /\ (JsMap.get e (RiskManager.positions rm) = None ->
        RiskManager.getEventExposure e rm == 0).
Proof.
  intros p e rm. split.
  - rewrite !ExposureFacts.getEventExposure_sum, ExposureFacts.addPosition_positionsOf.
    destruct (String.eqb (Position.eventId p) e).
    + rewrite LedgerFacts.exposure_app. simpl. ring.
    + ring.
  - intros H. unfold RiskManager.getEventExposure, RiskManager.positionsOf.
    rewrite H. reflexivity.
Qed.

Lemma addPosition_event_exposure_witness :
  RiskManager.getEventExposure "event-1" RiskManager.new == 0.
Proof.
  apply (addPosition_event_exposure
           (Position.mk "pos-1" Polymarket "event-1" None Yes 10 (1 # 2) (1 # 2) 0 0 0)
           "event-1" RiskManager.new).
  reflexivity.
Defined.

Module InventoryFacts.
Import RiskManager InventorySpec.

Lemma netPosition_held cfg e rm :
  InventoryReport.netPosition (getNetInventory cfg e rm)
  = (held Polymarket Yes (positionsOf e rm) + held Kalshi Yes (positionsOf e rm))
    - (held Polymarket No (positionsOf e rm) + held Kalshi No (positionsOf e rm)).
Proof. reflexivity. Qed.

Lemma held_app pf sd l p :
  held pf sd (l ++ [p])
  = match Position.platform p, Position.side p, pf, sd with
    | Polymarket, Yes, Polymarket, Yes
    | Polymarket, No, Polymarket, No
    | Kalshi, Yes, Kalshi, Yes
    | Kalshi, No, Kalshi, No => held pf sd l + Position.quantity p
    | _, _, _, _ => held pf sd l
    end.
Proof.
  unfold held. rewrite fold_left_app. simpl.
  destruct (Position.platform p), (Position.side p), pf, sd; reflexivity.
Qed.
End InventoryFacts.

(** The two positions recorded for a filled pair cancel in the net
    position of their event: [recordPositions] leaves [netPosition]
    unchanged, whatever the venues, the quantity and the fills. *)
Theorem recordPositions_keeps_net_position :
  forall (cfg : Config.t) (o : ExecutionEngine.Oracle)
         (opportunity : ArbitrageOpportunity.t) (quantity : number)
         (buyExecution sellExecution : OrderResult.t) (rm : RiskManager.t),
    let e := EventMapping.id (ArbitrageOpportunity.eventMapping opportunity) in
    InventoryReport.netPosition
      (RiskManager.getNetInventory cfg e
         (ExecutionEngine.recordPositions o opportunity quantity
            buyExecution sellExecution rm))
    == InventoryReport.netPosition (RiskManager.getNetInventory cfg e rm).
Proof.
  intros cfg o opportunity quantity b s rm e.
  rewrite !InventoryFacts.netPosition_held.
  unfold ExecutionEngine.recordPositions.
  rewrite !ExposureFacts.addPosition_positionsOf.
  cbn [Position.eventId]. fold e. rewrite !String.eqb_refl.
  rewrite !InventoryFacts.held_app. cbn [Position.platform Position.side Position.quantity].
  destruct (ArbitrageOpportunity.buyPlatform opportunity),
           (ArbitrageOpportunity.sellPlatform opportunity);
    rewrite ?InventoryFacts.held_app; cbn [Position.platform Position.side Position.quantity];
    ring.
Qed.

(* ================================================================== *)
(** ** Execution engine: the outcomes of a run *)

Module EngineRunFacts.
Import ExecutionEngine EngineRuns.

Lemma execute_after_checks cfg o opportunity w :
  passesChecks cfg o opportunity w ->
  execute cfg o opportunity w
  = match Config.mode (Config.operatingMode cfg) with
    | DryRun => executeDryRun cfg o opportunity (finalQuantity cfg opportunity w)
                  (revalidated cfg o opportunity w)
    | Live => fire cfg o opportunity (finalQuantity cfg opportunity w)
                (revalidated cfg o opportunity w)
    end.
Proof.
  intros (Hp & Ha & Hv). unfold execute, finalQuantity, revalidated.
  rewrite Hp, Ha. simpl.
  destruct (ArbitrageDetector.validateOpportunity _ _ _ _ _ _ _) as [ok d].
  simpl in Hv. subst ok. reflexivity.
Qed.

(** A run that does not pass the checks issues no call. *)
Lemma execute_blocked cfg o opportunity w :
  ~ passesChecks cfg o opportunity w ->
  breaker (snd (execute cfg o opportunity w)) = breaker w
  /\ state (snd (execute cfg o opportunity w)) = state w
  /\ riskManager (snd (execute cfg o opportunity w)) = riskManager w
  /\ trace (snd (execute cfg o opportunity w)) = trace w
  /\ ExecutionResult.success (fst (execute cfg o opportunity w)) = false.
Proof.
  intros Hn. unfold execute.
  destruct (CircuitBreaker.isPaused (breaker w)) eqn:Hp; [repeat split|].
  destruct (RiskCheck.approved _) eqn:Ha; [|repeat split]. simpl.
  destruct (ArbitrageDetector.validateOpportunity _ _ _ _ _ _ _) as [ok d] eqn:Hv.
  destruct ok; [|repeat split].
  exfalso. apply Hn. unfold passesChecks. rewrite Hp, Ha, Hv. repeat split.
Qed.

Lemma passesChecks_dec cfg o opportunity w :
  passesChecks cfg o opportunity w \/ ~ passesChecks cfg o opportunity w.
Proof.
  unfold passesChecks.
  destruct (CircuitBreaker.isPaused (breaker w));
    [right; intros (H & _); discriminate|].
  destruct (RiskCheck.approved _); [|right; intros (_ & H & _); discriminate].
  destruct (fst _); [left; repeat split | right; intros (_ & _ & H); discriminate].
Qed.

Lemma saveExecution_fields o opportunity status be se ap sl notes dry w :
  breaker (saveExecution o opportunity status be se ap sl notes dry w) = breaker w
  /\ state (saveExecution o opportunity status be se ap sl notes dry w) = state w
  /\ riskManager (saveExecution o opportunity status be se ap sl notes dry w) = riskManager w
  /\ exists evs,
       trace (saveExecution o opportunity status be se ap sl notes dry w) = trace w ++ evs
       /\ filter isPlaceOrder evs = [].
Proof.
  unfold saveExecution, emit. simpl. repeat split.
  eexists. split; [reflexivity|]. simpl. destruct (insertOpportunityOk o); reflexivity.
Qed.

Lemma executeDryRun_fields cfg o opportunity q w :
  breaker (snd (executeDryRun cfg o opportunity q w)) = breaker w
  /\ riskManager (snd (executeDryRun cfg o opportunity q w)) = riskManager w
  /\ exists evs,
       trace (snd (executeDryRun cfg o opportunity q w)) = trace w ++ evs
       /\ filter isPlaceOrder evs = [].
Proof.
  unfold executeDryRun. cbn [snd].
  match goal with
  | |- context [saveExecution ?o ?op ?st ?be ?se ?ap ?sl ?n ?d ?w0] =>
      destruct (saveExecution_fields o op st be se ap sl n d w0) as (Hb & _ & Hr & evs & Ht & Hf)
  end.
  rewrite Hb, Hr, Ht.
  destruct (Config.trackHypotheticalPnL (Config.operatingMode cfg)); simpl; eauto.
Qed.
End EngineRunFacts.

Module QuietTraces.
Import EngineRuns.

Lemma quiet_refl t : quiet t t.
Proof. exists []. now rewrite app_nil_r. Qed.

Lemma quiet_trans t1 t2 t3 : quiet t1 t2 -> quiet t2 t3 -> quiet t1 t3.
Proof.
  intros (e1 & -> & H1) (e2 & -> & H2). exists (e1 ++ e2).
  now rewrite app_assoc, filter_app, H1, H2.
Qed.

Lemma pause_quiet now reason c :
  quiet (CircuitBreaker.trace c) (CircuitBreaker.trace (CircuitBreaker.pause now reason c)).
Proof.
  unfold CircuitBreaker.pause.
  destruct (CircuitBreaker.paused (CircuitBreaker.breaker c)); [apply quiet_refl|].
  simpl. eexists. split; reflexivity.
Qed.

Lemma recordFailure_quiet cfg now type c :
  quiet (CircuitBreaker.trace c)
        (CircuitBreaker.trace (CircuitBreaker.recordFailure cfg now type c)).
Proof.
  assert (step : forall (b : bool) r c0 t,
             quiet t (CircuitBreaker.trace c0) ->
             quiet t (CircuitBreaker.trace (if b then CircuitBreaker.pause now r c0 else c0))).
  { intros [] r c0 t H; [|exact H]. eapply quiet_trans; [exact H | apply pause_quiet]. }
  unfold CircuitBreaker.recordFailure. cbv zeta. repeat apply step.
  apply quiet_refl.
Qed.
End QuietTraces.

Module EngineOutcomes.
Import ExecutionEngine EngineRuns QuietTraces.

Lemma saveExecution_quiet o opportunity status be se ap sl notes dry w :
  quiet (trace w) (trace (saveExecution o opportunity status be se ap sl notes dry w)).
Proof.
  destruct (EngineRunFacts.saveExecution_fields o opportunity status be se ap sl notes dry w)
    as (_ & _ & _ & H). exact H.
Qed.

(** The trace of [fire]: the two orders, then calls that place none. *)
Lemma fire_trace cfg o opportunity q w :
  quiet (trace w ++ [EvPlaceOrder (buyOrder opportunity q);
                     EvPlaceOrder (sellOrder opportunity q)])
        (trace (snd (fire cfg o opportunity q w))).
Proof.
  unfold fire. fold (buyOrder opportunity q). fold (sellOrder opportunity q).
  destruct (filled (buyResult o)) as [b|], (filled (sellResult o)) as [s|].
  - cbn [snd]. unfold emit at 1. cbn [trace].
    eapply quiet_trans; [|exists [EvAlert (alertTradeExecuted
         (ArbitrageOpportunity.buyPlatform opportunity)
         (optOrElse (OrderResult.fillPrice b) (ArbitrageOpportunity.buyPrice opportunity))
         (ArbitrageOpportunity.sellPlatform opportunity)
         (optOrElse (OrderResult.fillPrice s) (ArbitrageOpportunity.sellPrice opportunity))
         (calculateActualProfit b s q))]; split; reflexivity].
    eapply quiet_trans; [|apply saveExecution_quiet]. apply quiet_refl.
  - unfold asymmetric. cbn [snd].
    eapply quiet_trans; [|apply saveExecution_quiet].
    unfold emit at 1. cbn [trace].
    eapply quiet_trans; [|eexists; split; reflexivity].
    apply (recordFailure_quiet cfg (now o) ASYMMETRIC_EXECUTION
             (CircuitBreaker.mkCtx _ _ _)).
  - unfold asymmetric. cbn [snd].
    eapply quiet_trans; [|apply saveExecution_quiet].
    unfold emit at 1. cbn [trace].
    eapply quiet_trans; [|eexists; split; reflexivity].
    apply (recordFailure_quiet cfg (now o) ASYMMETRIC_EXECUTION
             (CircuitBreaker.mkCtx _ _ _)).
  - apply quiet_refl.
Qed.
End EngineOutcomes.

(** Orders leave the process only from a live run that passed the three
    checks, and then as one pair: a FOK buy and a FOK sell of the same
    quantity at the prices of the opportunity.  Every other run of [execute]
    places no order. *)
Theorem execute_places_orders_only_after_checks :
  forall (cfg : Config.t) (o : ExecutionEngine.Oracle)
         (opportunity : ArbitrageOpportunity.t) (w : ExecutionEngine.World),
  exists evs,
    ExecutionEngine.trace (snd (ExecutionEngine.execute cfg o opportunity w))
    = ExecutionEngine.trace w ++ evs
    /\ (filter EngineRuns.isPlaceOrder evs = []
        \/ (EngineRuns.passesChecks cfg o opportunity w
            /\ Config.mode (Config.operatingMode cfg) = Live
            /\ filter EngineRuns.isPlaceOrder evs
               = [EvPlaceOrder (EngineRuns.buyOrder opportunity
                                  (EngineRuns.finalQuantity cfg opportunity w));
                  EvPlaceOrder (EngineRuns.sellOrder opportunity
                                  (EngineRuns.finalQuantity cfg opportunity w))])).
Proof.
  intros cfg o opportunity w.
  destruct (EngineRunFacts.passesChecks_dec cfg o opportunity w) as [Hc|Hc].
  - rewrite (EngineRunFacts.execute_after_checks cfg o opportunity w Hc).
    destruct (Config.mode (Config.operatingMode cfg)) eqn:Hm.
    + destruct (EngineRunFacts.executeDryRun_fields cfg o opportunity
                  (EngineRuns.finalQuantity cfg opportunity w)
                  (EngineRuns.revalidated cfg o opportunity w)) as (_ & _ & evs & Ht & Hf).
      exists evs. split; [exact Ht | left; exact Hf].
    + destruct (EngineOutcomes.fire_trace cfg o opportunity
                  (EngineRuns.finalQuantity cfg opportunity w)
                  (EngineRuns.revalidated cfg o opportunity w)) as (evs & Ht & Hf).
      eexists. split; [rewrite Ht, <- app_assoc; reflexivity|].
      right. split; [exact Hc|]. split; [reflexivity|]. rewrite filter_app, Hf. reflexivity.
  - destruct (EngineRunFacts.execute_blocked cfg o opportunity w Hc) as (_ & _ & _ & Ht & _).
    exists []. rewrite Ht, app_nil_r. auto.
Qed.

Module EngineLegs.
Import ExecutionEngine.

Lemma filled_succeeded r : succeeded r = match filled r with Some _ => true | None => false end.
Proof.
  destruct r as [v|]; simpl; [destruct (OrderResult.success v)|]; reflexivity.
Qed.

Lemma addPosition_ledger p rm :
  Permutation (LedgerSpec.ledger (RiskManager.addPosition p rm)) (LedgerSpec.ledger rm ++ [p]).
Proof.
  unfold RiskManager.addPosition. rewrite LedgerFacts.recalculate_ledger.
  apply LedgerFacts.pushPosition_ledger.
Qed.

Lemma addPosition_exposure p rm :
  RiskManager.totalExposure (RiskManager.addPosition p rm)
  == LedgerSpec.exposure (LedgerSpec.ledger rm) + Position.quantity p * Position.avgPrice p.
Proof.
  unfold RiskManager.addPosition. rewrite LedgerFacts.recalculate_exposure.
  unfold LedgerSpec.ledger. cbn [RiskManager.positions].
  rewrite (LedgerFacts.exposure_perm _ _
             (LedgerFacts.pushPosition_ledger p (RiskManager.positions rm))).
  rewrite LedgerFacts.exposure_app. simpl. ring.
Qed.
End EngineLegs.

(** Both legs filled, in live mode after the checks: the run succeeds with
    the profit computed from the fills; the breaker's failure counter is
    reset and it stays running; the day's trade count grows by one and its
    P&L by the profit; the ledger gains exactly two positions, a YES on the
    buy venue and a NO on the sell venue, both of the final quantity. *)
Theorem execute_both_filled :
  forall (cfg : Config.t) (o : ExecutionEngine.Oracle)
         (opportunity : ArbitrageOpportunity.t) (w : ExecutionEngine.World)
         (b s : OrderResult.t),
    EngineRuns.passesChecks cfg o opportunity w ->
    Config.mode (Config.operatingMode cfg) = Live ->
    ExecutionEngine.filled (ExecutionEngine.buyResult o) = Some b ->
    ExecutionEngine.filled (ExecutionEngine.sellResult o) = Some s ->
    let q := EngineRuns.finalQuantity cfg opportunity w in
    let r := ExecutionEngine.execute cfg o opportunity w in
    let profit := ExecutionEngine.calculateActualProfit b s q in
    ExecutionResult.success (fst r) = true
    /\ ExecutionResult.actualProfit (fst r) = profit
    /\ ExecutionResult.circuitBreakerTriggered (fst r) = false
    /\ CircuitBreaker.paused (ExecutionEngine.breaker (snd r)) = false
    /\ CircuitBreaker.consecutiveFailures (ExecutionEngine.breaker (snd r)) = 0%nat
    /\ PersistedState.dailyTradeCount (ExecutionEngine.state (snd r))
       = S (PersistedState.dailyTradeCount (ExecutionEngine.state w))
    /\ PersistedState.dailyPnL (ExecutionEngine.state (snd r))
       = PersistedState.dailyPnL (ExecutionEngine.state w) + profit
    /\ PersistedState.dailyVolumeUsd (ExecutionEngine.state (snd r))
       = PersistedState.dailyVolumeUsd (ExecutionEngine.state w)
         + q * ArbitrageOpportunity.buyPrice opportunity
    /\ exists buyPosition sellPosition,
         Permutation (LedgerSpec.ledger (ExecutionEngine.riskManager (snd r)))
                     (LedgerSpec.ledger (ExecutionEngine.riskManager w)
                      ++ [buyPosition; sellPosition])
         /\ Position.platform buyPosition = ArbitrageOpportunity.buyPlatform opportunity
         /\ Position.side buyPosition = Yes
         /\ Position.quantity buyPosition = q
         /\ Position.platform sellPosition = ArbitrageOpportunity.sellPlatform opportunity
         /\ Position.side sellPosition = No
         /\ Position.quantity sellPosition = q
         /\ Position.eventId buyPosition
            = EventMapping.id (ArbitrageOpportunity.eventMapping opportunity)
         /\ Position.eventId sellPosition
            = EventMapping.id (ArbitrageOpportunity.eventMapping opportunity).
Proof.
  intros cfg o opportunity w b s Hc Hm Hb Hs q r profit. subst r.
  rewrite (EngineRunFacts.execute_after_checks cfg o opportunity w Hc), Hm.
  unfold ExecutionEngine.fire. rewrite Hb, Hs. fold q. fold profit.
  destruct Hc as (Hp & _).
  cbn [fst snd ExecutionEngine.emit ExecutionEngine.saveExecution
       ExecutionEngine.breaker ExecutionEngine.state ExecutionEngine.riskManager
       ExecutionEngine.trace EngineRuns.revalidated
       ExecutionResult.success ExecutionResult.actualProfit
       ExecutionResult.circuitBreakerTriggered].
  repeat split; try exact Hp.
  unfold ExecutionEngine.recordPositions.
  eexists. eexists. split.
  - eapply Permutation_trans; [apply EngineLegs.addPosition_ledger|].
    eapply Permutation_trans;
      [apply Permutation_app_tail, EngineLegs.addPosition_ledger|].
    rewrite <- app_assoc. apply Permutation_refl.
  - repeat split.
Qed.

Lemma execute_both_filled_witness :
  let r := ExecutionEngine.execute (Config.loadConfig Live) oracleBothFilled opportunity1 world0 in
  ExecutionResult.success (fst r) = true
  /\ PersistedState.dailyTradeCount (ExecutionEngine.state (snd r)) = 1%nat
  /\ List.length (LedgerSpec.ledger (ExecutionEngine.riskManager (snd r))) = 2%nat.
Proof.
  intros r.
  assert (Hc : EngineRuns.passesChecks (Config.loadConfig Live) oracleBothFilled
                 opportunity1 world0) by (repeat split).
  destruct (execute_both_filled (Config.loadConfig Live) oracleBothFilled opportunity1 world0
              buyFilled sellFilled Hc eq_refl eq_refl eq_refl)
    as (Hs & _ & _ & _ & _ & Hn & _ & _ & bp & sp & Hperm & _).
  split; [exact Hs|]. split; [exact Hn|].
  unfold r. rewrite (Permutation_length Hperm). reflexivity.
Defined.

(** Both legs rejected, in live mode after the checks: the two orders are
    the only calls issued.  The breaker, the day's counters and the ledger
    are as before, no alert is sent and no execution row is written. *)
Theorem execute_both_rejected :
  forall (cfg : Config.t) (o : ExecutionEngine.Oracle)
         (opportunity : ArbitrageOpportunity.t) (w : ExecutionEngine.World),
    EngineRuns.passesChecks cfg o opportunity w ->
    Config.mode (Config.operatingMode cfg) = Live ->
    ExecutionEngine.filled (ExecutionEngine.buyResult o) = None ->
    ExecutionEngine.filled (ExecutionEngine.sellResult o) = None ->
    let q := EngineRuns.finalQuantity cfg opportunity w in
    let r := ExecutionEngine.execute cfg o opportunity w in
    ExecutionResult.success (fst r) = false
    /\ ExecutionResult.circuitBreakerTriggered (fst r) = false
    /\ ExecutionResult.errors (fst r) = Some [BothFokOrdersRejected]
    /\ ExecutionEngine.breaker (snd r) = ExecutionEngine.breaker w
    /\ ExecutionEngine.state (snd r) = ExecutionEngine.state w
    /\ ExecutionEngine.riskManager (snd r) = ExecutionEngine.riskManager w
    /\ ExecutionEngine.trace (snd r)
       = ExecutionEngine.trace w
         ++ [EvPlaceOrder (EngineRuns.buyOrder opportunity q);
             EvPlaceOrder (EngineRuns.sellOrder opportunity q)].
Proof.
  intros cfg o opportunity w Hc Hm Hb Hs q r. subst r.
  rewrite (EngineRunFacts.execute_after_checks cfg o opportunity w Hc), Hm.
  unfold ExecutionEngine.fire. rewrite Hb, Hs. repeat split.
Qed.

Lemma execute_both_rejected_witness :
  let r := ExecutionEngine.execute (Config.loadConfig Live) oracleBothRejected
             opportunity1 world0 in
  ExecutionEngine.breaker (snd r) = CircuitBreaker.new
  /\ ExecutionEngine.riskManager (snd r) = RiskManager.new
  /\ List.length (ExecutionEngine.trace (snd r)) = 2%nat.
Proof.
  intros r.
  assert (Hc : EngineRuns.passesChecks (Config.loadConfig Live) oracleBothRejected
                 opportunity1 world0) by (repeat split).
  destruct (execute_both_rejected (Config.loadConfig Live) oracleBothRejected
              opportunity1 world0 Hc eq_refl eq_refl eq_refl)
    as (_ & _ & _ & Hb & _ & Hr & Ht).
  split; [exact Hb|]. split; [exact Hr|]. unfold r. rewrite Ht. reflexivity.
Defined.

(** Dry-run mode after the checks: the run reports success with the
    estimated profit and the [dryRun] flag and no fills; the breaker and the
    ledger are untouched; the day's counters move exactly when hypothetical
    P&L tracking is on; the execution row, written once the opportunity row
    is accepted, is marked [is_dry_run] with status [complete]. *)
Theorem execute_dry_run :
  forall (cfg : Config.t) (o : ExecutionEngine.Oracle)
         (opportunity : ArbitrageOpportunity.t) (w : ExecutionEngine.World),
    EngineRuns.passesChecks cfg o opportunity w ->
    Config.mode (Config.operatingMode cfg) = DryRun ->
    let q := EngineRuns.finalQuantity cfg opportunity w in
    let r := ExecutionEngine.execute cfg o opportunity w in
    ExecutionResult.success (fst r) = true
    /\ ExecutionResult.dryRun (fst r) = Some true
    /\ ExecutionResult.buyExecution (fst r) = None
    /\ ExecutionResult.sellExecution (fst r) = None
    /\ ExecutionResult.actualProfit (fst r) = ArbitrageOpportunity.netProfit opportunity * q
    /\ ExecutionEngine.breaker (snd r) = ExecutionEngine.breaker w
    /\ ExecutionEngine.riskManager (snd r) = ExecutionEngine.riskManager w
    /\ ExecutionEngine.state (snd r)
       = (if Config.trackHypotheticalPnL (Config.operatingMode cfg)
          then StateManager.recordSuccessfulTrade (ExecutionEngine.now o)
                 (ArbitrageOpportunity.netProfit opportunity * q)
                 (q * ArbitrageOpportunity.buyPrice opportunity) (ExecutionEngine.state w)
          else ExecutionEngine.state w)
    /\ (ExecutionEngine.insertOpportunityOk o = true ->
        exists row,
          In (EvQuery (InsertExecution row) (ExecutionEngine.insertExecutionOk o))
             (ExecutionEngine.trace (snd r))
          /\ ExecutionRow.is_dry_run row = true
          /\ ExecutionRow.status row = StComplete
          /\ ExecutionRow.actual_profit row = ArbitrageOpportunity.netProfit opportunity * q).
Proof.
  intros cfg o opportunity w Hc Hm q r. subst r.
  rewrite (EngineRunFacts.execute_after_checks cfg o opportunity w Hc), Hm.
  unfold ExecutionEngine.executeDryRun. fold q.
  destruct (Config.trackHypotheticalPnL (Config.operatingMode cfg));
    cbn [fst snd ExecutionEngine.emit ExecutionEngine.saveExecution
         ExecutionEngine.breaker ExecutionEngine.state ExecutionEngine.riskManager
         ExecutionEngine.trace EngineRuns.revalidated];
    (repeat split; try reflexivity;
     intros Hok; rewrite Hok; eexists; split;
     [apply in_or_app; right; right; left; reflexivity | repeat split]).
Qed.

Lemma execute_dry_run_witness :
  let r := ExecutionEngine.execute (Config.loadConfig DryRun) oracle5 opportunity1 world0 in
  ExecutionResult.success (fst r) = true
  /\ ExecutionEngine.riskManager (snd r) = RiskManager.new
  /\ PersistedState.dailyTradeCount (ExecutionEngine.state (snd r)) = 1%nat.
Proof.
  intros r.
  assert (Hc : EngineRuns.passesChecks (Config.loadConfig DryRun) oracle5
                 opportunity1 world0) by (repeat split).
  destruct (execute_dry_run (Config.loadConfig DryRun) oracle5 opportunity1 world0 Hc eq_refl)
    as (Hs & _ & _ & _ & _ & _ & Hr & Hst & _).
  split; [exact Hs|]. split; [exact Hr|]. unfold r. rewrite Hst. reflexivity.
Defined.

(** [execute] pauses a running breaker on one path only: a live run that
    passed the checks and saw exactly one leg filled. *)
Theorem execute_pauses_only_on_asymmetric_fill :
  forall (cfg : Config.t) (o : ExecutionEngine.Oracle)
         (opportunity : ArbitrageOpportunity.t) (w : ExecutionEngine.World),
    CircuitBreaker.paused (ExecutionEngine.breaker w) = false ->
    CircuitBreaker.paused
      (ExecutionEngine.breaker (snd (ExecutionEngine.execute cfg o opportunity w))) = true ->
    EngineRuns.passesChecks cfg o opportunity w
    /\ Config.mode (Config.operatingMode cfg) = Live
    /\ EngineSpec.oneLegFilled o.
Proof.
  intros cfg o opportunity w Hrun Hpaused.
  destruct (EngineRunFacts.passesChecks_dec cfg o opportunity w) as [Hc|Hc].
  - rewrite (EngineRunFacts.execute_after_checks cfg o opportunity w Hc) in Hpaused.
    destruct (Config.mode (Config.operatingMode cfg)) eqn:Hm.
    + destruct (EngineRunFacts.executeDryRun_fields cfg o opportunity
                  (EngineRuns.finalQuantity cfg opportunity w)
                  (EngineRuns.revalidated cfg o opportunity w)) as (Hb & _).
      rewrite Hb in Hpaused. simpl in Hpaused. congruence.
    + split; [exact Hc|]. split; [reflexivity|].
      unfold EngineSpec.oneLegFilled. rewrite !EngineLegs.filled_succeeded.
      unfold ExecutionEngine.fire in Hpaused.
      destruct (ExecutionEngine.filled (ExecutionEngine.buyResult o)),
               (ExecutionEngine.filled (ExecutionEngine.sellResult o));
        try reflexivity; simpl in Hpaused; congruence.
  - destruct (EngineRunFacts.execute_blocked cfg o opportunity w Hc) as (Hb & _).
    rewrite Hb in Hpaused. congruence.
Qed.

Lemma execute_pauses_only_on_asymmetric_fill_witness :
  EngineRuns.passesChecks (Config.loadConfig Live) oracle5 opportunity1 world0
  /\ Config.mode (Config.operatingMode (Config.loadConfig Live)) = Live
  /\ EngineSpec.oneLegFilled oracle5.
Proof.
  apply (execute_pauses_only_on_asymmetric_fill (Config.loadConfig Live) oracle5
           opportunity1 world0); reflexivity.
Defined.

(* ================================================================== *)
(** ** Start-up *)

Module StartupFacts.
Import Main.

Lemma pushIf_in {A} (b : bool) (x y : A) l :
  In y (RiskManager.pushIf b x l) <-> (b = true /\ y = x) \/ In y l.
Proof.
  unfold RiskManager.pushIf. destruct b.
  - rewrite in_app_iff. simpl. split.
    + intros [H|[H|[]]]; auto.
    + intros [[_ H]|H]; auto.
  - split; [auto|]. intros [[H _]|H]; [discriminate|exact H].
Qed.
End StartupFacts.

(** A pause survives a restart.  When the state written by [pause] is read
    back by [load], on the same day or on a later one, a breaker
    initialised from it is paused with the reason and the time of the
    pause, the start-up checks warn about it and, under manual review,
    refuse to start. *)
Theorem pause_survives_restart :
  forall (cfg : Config.t) (recovery : Main.CrashRecovery) (now later : Z)
         (reason today : string) (c : CircuitBreaker.Ctx)
         (s0 : PersistedState.t) (b0 : CircuitBreaker.t),
    CircuitBreaker.paused (CircuitBreaker.breaker c) = false ->
    let saved := CircuitBreaker.state (CircuitBreaker.pause now reason c) in
    let r := Main.performStartupChecks cfg recovery today later
               (StateManager.Parsed saved) s0 in
    let restarted := CircuitBreaker.initialize (snd r) b0 in
    CircuitBreaker.paused restarted = true
    /\ CircuitBreaker.pauseReason restarted = Some reason
    /\ CircuitBreaker.pausedAt restarted = Some now
    /\ In (Main.BreakerWasPaused (Some reason)) (snd (fst r))
    /\ (Main.requireManualReview recovery = true -> fst (fst r) = false).
Proof.
  intros cfg recovery now later reason today c s0 b0 Hp saved r restarted.
  assert (Hs : PersistedState.circuitBreakerPaused (snd r) = true
               /\ PersistedState.circuitBreakerReason (snd r) = Some reason
               /\ PersistedState.circuitBreakerPausedAt (snd r) = Some now).
  { subst r saved. unfold Main.performStartupChecks. cbv zeta. cbn [snd].
    unfold CircuitBreaker.pause. rewrite Hp. cbn [CircuitBreaker.state].
    unfold StateManager.load, StateManager.setCircuitBreakerState.
    cbn [PersistedState.tradingDate PersistedState.circuitBreakerPaused
         PersistedState.circuitBreakerReason PersistedState.circuitBreakerPausedAt].
    destruct (negb _); repeat split. }
  destruct Hs as (H1 & H2 & H3).
  assert (Hin : In (Main.BreakerWasPaused (Some reason)) (snd (fst r))).
  { subst r. unfold Main.performStartupChecks in *. cbv zeta in *. cbn [fst snd] in *.
    apply StartupFacts.pushIf_in. right. apply StartupFacts.pushIf_in. left.
    unfold StateManager.isCircuitBreakerPaused, StateManager.getCircuitBreakerReason.
    rewrite H1, H2. split; reflexivity. }
  subst restarted. unfold CircuitBreaker.initialize.
  cbn [CircuitBreaker.paused CircuitBreaker.pauseReason CircuitBreaker.pausedAt].
  repeat split; try assumption.
  intros Hreview. subst r. unfold Main.performStartupChecks in *. cbv zeta in *.
  cbn [fst snd] in *. rewrite Hreview. cbn [negb orb].
  destruct (RiskManager.pushIf _ _ _); [contradiction|reflexivity].
Qed.

Lemma pause_survives_restart_witness :
  CircuitBreaker.paused
    (CircuitBreaker.initialize
       (snd (Main.performStartupChecks (Config.loadConfig Live) crashRecovery
               "2025-01-02" 86400000
               (StateManager.Parsed
                  (CircuitBreaker.state (CircuitBreaker.pause 5 "First pause" freshCtx)))
               (StateManager.createInitialState "2025-01-02" 86400000)))
       CircuitBreaker.new)
  = true.
Proof.
  apply (pause_survives_restart (Config.loadConfig Live) crashRecovery 5 86400000
           "First pause" "2025-01-02" freshCtx
           (StateManager.createInitialState "2025-01-02" 86400000) CircuitBreaker.new).
  reflexivity.
Defined.

(** A state saved on another day is loaded with the daily profit, trade
    count and volume at zero and the date set to today, while the open
    positions, the heartbeat and the breaker fields are kept.  With a loss
    limit that is not negative, the start-up checks after such a load never
    warn about the daily loss, whatever the loss of the saved day was. *)
Theorem day_rollover_resets_daily_counters :
  forall (cfg : Config.t) (recovery : Main.CrashRecovery) (today : string) (now : Z)
         (saved s0 : PersistedState.t),
    PersistedState.tradingDate saved <> today ->
    0 <= Config.dailyLossLimit (Config.risk cfg) ->
    let r := Main.performStartupChecks cfg recovery today now (StateManager.Parsed saved) s0 in
    snd r = PersistedState.mk 0 0 0 today
              (PersistedState.circuitBreakerPaused saved)
              (PersistedState.circuitBreakerReason saved)
              (PersistedState.circuitBreakerPausedAt saved)
              (PersistedState.openPositions saved)
              (PersistedState.lastHeartbeat saved)
              (PersistedState.lastSuccessfulTrade saved)
    /\ (forall loss, ~ In (Main.DailyLossLimitWasReached loss) (snd (fst r)))
    /\ RiskManager.isDailyLossLimitReached cfg (snd r) = false.
Proof.
  intros cfg recovery today now saved s0 Hdate Hlimit r.
  assert (Hload : StateManager.load today (StateManager.Parsed saved) s0
                  = PersistedState.mk 0 0 0 today
                      (PersistedState.circuitBreakerPaused saved)
                      (PersistedState.circuitBreakerReason saved)
                      (PersistedState.circuitBreakerPausedAt saved)
                      (PersistedState.openPositions saved)
                      (PersistedState.lastHeartbeat saved)
                      (PersistedState.lastSuccessfulTrade saved)).
  { unfold StateManager.load.
    destruct (String.eqb (PersistedState.tradingDate saved) today) eqn:E; [|reflexivity].
    apply String.eqb_eq in E. contradiction. }
  assert (Hlt : ltb 0 (- Config.dailyLossLimit (Config.risk cfg)) = false)
    by (apply ltb_ge; lra).
  subst r. unfold Main.performStartupChecks. cbv zeta. cbn [fst snd].
  rewrite Hload. split; [reflexivity|]. split.
  - intros loss Hin.
    unfold StateManager.getDailyPnL in Hin. cbn [PersistedState.dailyPnL] in Hin.
    rewrite Hlt in Hin.
    apply StartupFacts.pushIf_in in Hin. destruct Hin as [[H _]|Hin]; [discriminate|].
    apply StartupFacts.pushIf_in in Hin. destruct Hin as [[_ H]|Hin]; [discriminate|].
    apply StartupFacts.pushIf_in in Hin. destruct Hin as [[_ H]|[]]. discriminate.
  - unfold RiskManager.isDailyLossLimitReached, StateManager.getDailyPnL.
    cbn [PersistedState.dailyPnL]. exact Hlt.
Qed.

Lemma day_rollover_witness :
  RiskManager.isDailyLossLimitReached (Config.loadConfig Live) lossState = true
  /\ RiskManager.isDailyLossLimitReached (Config.loadConfig Live)
       (snd (Main.performStartupChecks (Config.loadConfig Live) crashRecovery
               "2025-01-02" 86400000 (StateManager.Parsed lossState)
               (StateManager.createInitialState "2025-01-02" 86400000)))
     = false.
Proof.
  split; [reflexivity|].
  apply (day_rollover_resets_daily_counters (Config.loadConfig Live) crashRecovery
           "2025-01-02" 86400000 lossState
           (StateManager.createInitialState "2025-01-02" 86400000)).
  - discriminate.
  - discriminate.
Defined.

(* ================================================================== *)
(** ** Connections and rate limiting *)

Module ReconnectFacts.
Import WebSocketManager ReconnectSpec.

Lemma attemptLoop_fails policy establish remaining : forall ws,
  (forall k, (reconnectAttempts ws <= k < reconnectAttempts ws + remaining)%nat ->
             establish k = false) ->
  attemptLoop policy establish remaining ws
  = (false, mk (connected ws) (reconnectAttempts ws + remaining),
     map (delay policy) (seq (S (reconnectAttempts ws)) remaining)).
Proof.
  induction remaining as [|remaining IH]; intros ws H.
  - simpl. rewrite Nat.add_0_r. now destruct ws.
  - cbn [attemptLoop]. rewrite (H (reconnectAttempts ws)) by lia. cbv zeta.
    rewrite IH.
    + cbn [fst snd connected reconnectAttempts seq map].
      replace (S (reconnectAttempts ws) + remaining)%nat
        with (reconnectAttempts ws + S remaining)%nat by lia.
      reflexivity.
    + cbn [reconnectAttempts]. intros k Hk. apply H. lia.
Qed.

Lemma attemptLoop_succeeds policy establish : forall n remaining ws,
  (n < remaining)%nat ->
  (forall k, (reconnectAttempts ws <= k < reconnectAttempts ws + n)%nat ->
             establish k = false) ->
  establish (reconnectAttempts ws + n)%nat = true ->
  attemptLoop policy establish remaining ws
  = (true, mk true 0, map (delay policy) (seq (S (reconnectAttempts ws)) n)).
Proof.
  induction n as [|n IH]; intros remaining ws Hn Hfail Hok.
  - destruct remaining as [|remaining]; [lia|].
    rewrite Nat.add_0_r in Hok. cbn [attemptLoop]. rewrite Hok. reflexivity.
  - destruct remaining as [|remaining]; [lia|].
    cbn [attemptLoop]. rewrite (Hfail (reconnectAttempts ws)) by lia. cbv zeta.
    rewrite (IH remaining); cbn [reconnectAttempts].
    + reflexivity.
    + lia.
    + intros k Hk. apply Hfail. lia.
    + replace (S (reconnectAttempts ws) + n)%nat
        with (reconnectAttempts ws + S n)%nat by lia.
      exact Hok.
Qed.
End ReconnectFacts.

(** When [establishConnection] fails [n] times and then succeeds, with [n]
    below [maxAttempts], [connect] returns true, the manager is connected
    with its attempt counter back at 0, and [n] sleeps were taken, the one
    after failure [j] lasting
    [min(initialDelayMs * backoffMultiplier^(j-1), maxDelayMs)]. *)
Theorem connect_succeeds_after_failures :
  forall (policy : WebSocketManager.ReconnectionPolicy) (establish : nat -> bool)
         (ws : WebSocketManager.t) (n : nat),
    (n < WebSocketManager.maxAttempts policy)%nat ->
    (forall k, (k < n)%nat -> establish k = false) ->
    establish n = true ->
    WebSocketManager.connect policy establish ws
    = (true, WebSocketManager.mk true 0, map (ReconnectSpec.delay policy) (seq 1 n)).
Proof.
  intros policy establish ws n Hn Hfail Hok.
  unfold WebSocketManager.connect, WebSocketManager.attemptConnection.
  cbn [WebSocketManager.reconnectAttempts]. rewrite Nat.sub_0_r.
  apply (ReconnectFacts.attemptLoop_succeeds policy establish n); cbn; auto.
  intros k Hk. apply Hfail. lia.
Qed.

Lemma connect_succeeds_witness :
  WebSocketManager.connect reconnectionPolicy (fun k => Nat.leb 2 k)
    (WebSocketManager.mk false 0)
  = (true, WebSocketManager.mk true 0, [1000; 2000]).
Proof.
  apply (connect_succeeds_after_failures reconnectionPolicy (fun k => Nat.leb 2 k)
           (WebSocketManager.mk false 0) 2).
  - simpl. lia.
  - intros k Hk. apply Nat.leb_gt. lia.
  - reflexivity.
Defined.

(** When [establishConnection] fails [maxAttempts] times in a row,
    [connect] returns false after [maxAttempts] sleeps, none longer than
    [maxDelayMs], and leaves the attempt counter at [maxAttempts].  From
    then on [attemptConnection], which is what a disconnect triggers,
    returns false at once without trying to connect: only a new [connect]
    resets the counter. *)
Theorem exhausted_reconnection_gives_up :
  forall (policy : WebSocketManager.ReconnectionPolicy) (establish establish' : nat -> bool)
         (ws : WebSocketManager.t),
    (forall k, (k < WebSocketManager.maxAttempts policy)%nat -> establish k = false) ->
    let r := WebSocketManager.connect policy establish ws in
    fst (fst r) = false
    /\ WebSocketManager.reconnectAttempts (snd (fst r)) = WebSocketManager.maxAttempts policy
    /\ List.length (snd r) = WebSocketManager.maxAttempts policy
    /\ Forall (fun d => d <= WebSocketManager.maxDelayMs policy) (snd r)
    /\ WebSocketManager.attemptConnection policy establish' (snd (fst r))
       = (false, snd (fst r), []).
Proof.
  intros policy establish establish' ws Hfail r. subst r.
  unfold WebSocketManager.connect, WebSocketManager.attemptConnection.
  cbn [WebSocketManager.reconnectAttempts]. rewrite Nat.sub_0_r.
  rewrite ReconnectFacts.attemptLoop_fails
    by (cbn [WebSocketManager.reconnectAttempts]; intros k Hk; apply Hfail; lia).
  cbn [fst snd WebSocketManager.reconnectAttempts Nat.add].
  rewrite length_map, length_seq, Nat.sub_diag.
  repeat split.
  apply Forall_forall. intros d Hd. apply in_map_iff in Hd.
  destruct Hd as (k & <- & _). apply Q.le_min_r.
Qed.

Lemma exhausted_reconnection_witness :
  fst (fst (WebSocketManager.connect reconnectionPolicy (fun _ => false)
              (WebSocketManager.mk true 0)))
  = false.
Proof.
  apply (exhausted_reconnection_gives_up reconnectionPolicy (fun _ => false)
           (fun _ => true) (WebSocketManager.mk true 0)).
  reflexivity.
Defined.

Module LimiterFacts.
Import RateLimiter LimiterRuns.

Lemma run_snoc clocks clock rl :
  run (clocks ++ [clock]) rl = fst (waitForSlot clock (run clocks rl)).
Proof. unfold run. rewrite fold_left_app. reflexivity. Qed.

Lemma timely_app clocks clock : forall rl,
  timely (clocks ++ [clock]) rl <-> timely clocks rl /\ timelyCall clock (run clocks rl).
Proof.
  induction clocks as [|c clocks IH]; intros rl; simpl.
  - tauto.
  - rewrite IH. unfold run. simpl. tauto.
Qed.

Lemma waitForSlot_fields clock rl :
  windowMs (fst (waitForSlot clock rl)) = windowMs rl
  /\ maxRequests (fst (waitForSlot clock rl)) = maxRequests rl
  /\ minIntervalMs (fst (waitForSlot clock rl)) = minIntervalMs rl
  /\ lastRequestTime (fst (waitForSlot clock rl)) = finishedAt clock.
Proof. repeat split. Qed.

Lemma run_fields clocks : forall rl,
  windowMs (run clocks rl) = windowMs rl
  /\ maxRequests (run clocks rl) = maxRequests rl
  /\ minIntervalMs (run clocks rl) = minIntervalMs rl.
Proof.
  induction clocks as [|c clocks IH]; intros rl; [repeat split|].
  exact (IH (fst (waitForSlot c rl))).
Qed.

Lemma sleeps_nonneg clock rl :
  (0 <= fold_right Z.add 0 (snd (waitForSlot clock rl)))%Z.
Proof.
  unfold waitForSlot. cbv zeta. cbn [snd].
  set (reqs := filter _ (requests rl)).
  destruct (now clock - lastRequestTime rl <? minIntervalMs rl)%Z eqn:E1;
    [apply Z.ltb_lt in E1|];
    (destruct (Z.of_nat (List.length reqs) >=? maxRequests rl)%Z;
     [destruct reqs as [|oldest rest];
      [|destruct (windowMs rl - (now clock - oldest) >? 0)%Z eqn:E2;
        [apply Z.gtb_lt in E2|]]|]);
    cbn [fst snd fold_right app]; lia.
Qed.

(** The timestamp handed out is at least [minIntervalMs] after the end of
    the previous call. *)
Lemma waitForSlot_spacing clock rl :
  timelyCall clock rl ->
  (lastRequestTime rl + minIntervalMs rl <= pushedAt clock)%Z.
Proof.
  intros (Hnow & Hpush & _). revert Hpush.
  unfold waitForSlot. cbv zeta. cbn [snd].
  set (reqs := filter _ (requests rl)).
  destruct (now clock - lastRequestTime rl <? minIntervalMs rl)%Z eqn:E1;
    [apply Z.ltb_lt in E1|apply Z.ltb_ge in E1];
    (destruct (Z.of_nat (List.length reqs) >=? maxRequests rl)%Z;
     [destruct reqs as [|oldest rest];
      [|destruct (windowMs rl - (now clock - oldest) >? 0)%Z eqn:E2;
        [apply Z.gtb_lt in E2|]]|]);
    cbn [fst snd fold_right app]; lia.
Qed.

Lemma filter_recent_weaken window b c l :
  (c <= b)%Z ->
  filter (recent window b) (filter (recent window c) l) = filter (recent window b) l.
Proof.
  intros Hcb. induction l as [|x l IH]; [reflexivity|]. simpl.
  destruct (recent window c x) eqn:Ec; simpl.
  - destruct (recent window b x); [f_equal|]; exact IH.
  - assert (Eb : recent window b x = false).
    { unfold recent in *. apply Z.ltb_ge in Ec. apply Z.ltb_ge. lia. }
    rewrite Eb. exact IH.
Qed.

Lemma filter_length_le {A} (f : A -> bool) l :
  (List.length (filter f l) <= List.length l)%nat.
Proof.
  induction l as [|x l IH]; simpl; [lia|]. destruct (f x); simpl; lia.
Qed.

(** One call keeps the link between limiter and log. *)
Lemma waitForSlot_tracks clock rl log :
  (1 <= maxRequests rl)%Z ->
  tracks log rl ->
  timelyCall clock rl ->
  tracks (log ++ [pushedAt clock]) (fst (waitForSlot clock rl)).
Proof.
  intros Hmax (Hlast & Hfil & Hlen) (Hnow & Hpush & Hfin).
  pose proof (sleeps_nonneg clock rl) as Hnn.
  assert (Hnp : (now clock <= pushedAt clock)%Z) by lia.
  unfold tracks. rewrite last_last.
  destruct (waitForSlot_fields clock rl) as (Hw & Hm & _ & Hl).
  rewrite Hw, Hm, Hl. split; [exact Hfin|].
  revert Hpush. unfold waitForSlot. cbv zeta. cbn [fst snd requests].
  fold (recent (windowMs rl) (now clock)).
  set (reqs := filter (recent (windowMs rl) (now clock)) (requests rl)).
  set (sleeps := if (now clock - lastRequestTime rl <? minIntervalMs rl)%Z
                 then [(minIntervalMs rl - (now clock - lastRequestTime rl))%Z] else []).
  assert (Hs : (0 <= fold_right Z.add 0 sleeps)%Z).
  { subst sleeps. destruct (_ <? _)%Z eqn:E; [apply Z.ltb_lt in E|]; simpl; lia. }
  assert (Hreqs : forall b, (now clock <= b)%Z ->
            filter (recent (windowMs rl) b) log = filter (recent (windowMs rl) b) reqs).
  { intros b Hb. subst reqs. rewrite filter_recent_weaken by exact Hb.
    apply Hfil. lia. }
  assert (Hrl : (List.length reqs <= List.length (requests rl))%nat)
    by apply filter_length_le.
  destruct (Z.of_nat (List.length reqs) >=? maxRequests rl)%Z eqn:Eat.
  - destruct reqs as [|oldest rest] eqn:Er.
    + cbn [fst snd]. intros Hpush. split.
      * intros b Hb. rewrite filter_app. rewrite (Hreqs b) by lia. reflexivity.
      * simpl. lia.
    + cbn [fst snd]. intros Hpush.
      assert (Hold : (oldest + windowMs rl <= pushedAt clock)%Z).
      { destruct (windowMs rl - (now clock - oldest) >? 0)%Z eqn:E2.
        - rewrite fold_right_app in Hpush. cbn [fold_right] in Hpush.
          assert (Hfr : forall l z, (fold_right Z.add z l = fold_right Z.add 0 l + z)%Z).
          { induction l as [|x l IHl]; intros z; simpl; [lia|]. rewrite IHl. lia. }
          rewrite Hfr in Hpush. lia.
        - assert (windowMs rl - (now clock - oldest) <= 0)%Z.
          { destruct (Z.gtb_spec (windowMs rl - (now clock - oldest)) 0); [discriminate|lia]. }
          lia. }
      split.
      * intros b Hb. rewrite !filter_app. rewrite (Hreqs b) by lia.
        cbn [filter].
        assert (Eo : recent (windowMs rl) b oldest = false)
          by (unfold recent; apply Z.ltb_ge; lia).
        rewrite Eo. reflexivity.
      * rewrite length_app. simpl List.length in *. lia.
  - cbn [fst snd]. intros Hpush.
    assert (Hlt : (Z.of_nat (List.length reqs) < maxRequests rl)%Z).
    { destruct (Z.geb_spec (Z.of_nat (List.length reqs)) (maxRequests rl));
        [discriminate|lia]. }
    split.
    + intros b Hb. rewrite !filter_app. rewrite (Hreqs b) by lia. reflexivity.
    + rewrite length_app. simpl. lia.
Qed.

End LimiterFacts.

Module LimiterRunFacts.
Import RateLimiter LimiterRuns.

Lemma run_tracks clocks rl :
  (1 <= maxRequests rl)%Z ->
  tracks [] rl ->
  timely clocks rl ->
  tracks (map pushedAt clocks) (run clocks rl).
Proof.
  intros Hmax H0. induction clocks as [|clock clocks IH] using rev_ind; intros Ht.
  - exact H0.
  - apply LimiterFacts.timely_app in Ht. destruct Ht as [Ht Hc].
    rewrite map_app, LimiterFacts.run_snoc. cbn [map].
    apply LimiterFacts.waitForSlot_tracks; [|apply IH; exact Ht|exact Hc].
    destruct (LimiterFacts.run_fields clocks rl) as (_ & -> & _). exact Hmax.
Qed.

Lemma new_tracks maxRequestsPerWindow windowSeconds minInterval :
  (1 <= maxRequestsPerWindow)%Z ->
  tracks [] (new maxRequestsPerWindow windowSeconds minInterval).
Proof.
  intros H. unfold tracks, new. simpl. repeat split; lia.
Qed.

Lemma nth_last {A} (l : list A) d k : S k = List.length l -> nth k l d = last l d.
Proof.
  intros H. destruct l as [|x l] using rev_ind; [discriminate|].
  rewrite length_app in H. simpl in H.
  rewrite last_last. replace k with (List.length l) by lia. apply nth_middle.
Qed.
End LimiterRunFacts.

(** For calls of [waitForSlot] made one after the other under a truthful
    clock, a limiter built with [maxRequestsPerWindow >= 1] keeps its
    promise: when a timestamp is handed out, at most [maxRequests] of the
    timestamps handed out so far, that one included, lie within the last
    [windowMs]; two timestamps in a row are at least [minIntervalMs]
    apart; and the limiter never holds more than [maxRequests]
    timestamps. *)
Theorem rate_limiter_bounds_every_window :
  forall (maxRequestsPerWindow windowSeconds minInterval : Z)
         (clocks : list RateLimiter.Clock),
    (1 <= maxRequestsPerWindow)%Z ->
    LimiterRuns.timely clocks
      (RateLimiter.new maxRequestsPerWindow windowSeconds minInterval) ->
    let granted := map RateLimiter.pushedAt clocks in
    (forall k, (k < List.length clocks)%nat ->
       (Z.of_nat (List.length
                    (filter (LimiterRuns.recent (windowSeconds * 1000)
                               (nth k granted 0%Z))
                            (firstn (S k) granted)))
        <= maxRequestsPerWindow)%Z)
    /\ (forall k, (S k < List.length clocks)%nat ->
          (nth k granted 0 + minInterval <= nth (S k) granted 0)%Z)
    /\ (Z.of_nat (List.length
                    (RateLimiter.requests
                       (LimiterRuns.run clocks
                          (RateLimiter.new maxRequestsPerWindow windowSeconds minInterval))))
        <= maxRequestsPerWindow)%Z.
Proof.
  intros maxReq windowSeconds minInterval clocks Hmax.
  set (rl0 := RateLimiter.new maxReq windowSeconds minInterval).
  assert (H0 : LimiterRuns.tracks [] rl0) by now apply LimiterRunFacts.new_tracks.
  assert (Hmax0 : (1 <= RateLimiter.maxRequests rl0)%Z) by exact Hmax.
  induction clocks as [|clock clocks IH] using rev_ind; intros Ht granted.
  - repeat split; simpl; intros; lia.
  - apply LimiterFacts.timely_app in Ht. destruct Ht as [Ht Hc].
    destruct (IH Ht) as (IHw & IHs & _). clear IH.
    pose proof (LimiterRunFacts.run_tracks clocks rl0 Hmax0 H0 Ht) as Htr.
    destruct (LimiterFacts.run_fields clocks rl0) as (Hw & Hm & Hi).
    assert (Hmaxr : (1 <= RateLimiter.maxRequests (LimiterRuns.run clocks rl0))%Z)
      by (rewrite Hm; exact Hmax0).
    pose proof (LimiterFacts.waitForSlot_tracks clock _ _ Hmaxr Htr Hc)
      as (_ & Hfil & Hlen).
    destruct (LimiterFacts.waitForSlot_fields clock (LimiterRuns.run clocks rl0))
      as (Hw' & Hm' & _).
    rewrite Hw', Hw in Hfil. rewrite Hm', Hm in Hlen.
    change (RateLimiter.windowMs rl0) with (windowSeconds * 1000)%Z in Hfil.
    change (RateLimiter.maxRequests rl0) with maxReq in Hlen.
    rewrite last_last in Hfil.
    subst granted. rewrite map_app, length_app. cbn [map List.length].
    set (log := map RateLimiter.pushedAt clocks) in *.
    assert (Hll : List.length log = List.length clocks) by apply length_map.
    split; [|split].
    + intros k Hk.
      destruct (Nat.eq_dec k (List.length clocks)) as [->|Hne].
      * rewrite <- Hll, nth_middle, firstn_all2 by (rewrite length_app; simpl; lia).
        rewrite (Hfil _ (Z.le_refl _)).
        pose proof (LimiterFacts.filter_length_le
                      (LimiterRuns.recent (windowSeconds * 1000)
                         (RateLimiter.pushedAt clock))
                      (RateLimiter.requests
                         (fst (RateLimiter.waitForSlot clock
                                 (LimiterRuns.run clocks rl0))))).
        lia.
      * rewrite app_nth1 by lia. rewrite firstn_app.
        replace (S k - List.length log)%nat with 0%nat by lia.
        cbn [firstn]. rewrite app_nil_r. apply IHw. lia.
    + intros k Hk.
      destruct (Nat.eq_dec (S k) (List.length clocks)) as [He|Hne].
      * rewrite app_nth1 by lia.
        rewrite app_nth2 by lia. replace (S k - List.length log)%nat with 0%nat by lia.
        cbn [nth].
        rewrite (LimiterRunFacts.nth_last log 0%Z k) by lia.
        pose proof (LimiterFacts.waitForSlot_spacing clock _ Hc) as Hsp.
        rewrite Hi in Hsp. change (RateLimiter.minIntervalMs rl0) with minInterval in Hsp.
        destruct Htr as (Hlast & _). lia.
      * rewrite !app_nth1 by lia. apply IHs. lia.
    + rewrite LimiterFacts.run_snoc. exact Hlen.
Qed.

Lemma rate_limiter_witness :
  (Z.of_nat (List.length
               (filter (LimiterRuns.recent (1 * 1000) 2000)
                       (firstn 3 (map RateLimiter.pushedAt threeCalls))))
   <= 2)%Z.
Proof.
  assert (Ht : LimiterRuns.timely threeCalls (RateLimiter.new 2 1 100)).
  { unfold threeCalls, LimiterRuns.timely, LimiterRuns.timelyCall. vm_compute.
    repeat split; discriminate. }
  exact (proj1 (rate_limiter_bounds_every_window 2 1 100 threeCalls
                  ltac:(lia) Ht) 2%nat ltac:(simpl; lia)).
Defined.
